(** * Opportunity detection and simulated execution of the Polymarket bots

    A shallow embedding of the detection and execution core of
    [crypto5m_bot.py] and [polymarketGPT.py]: the cost model, the order-book
    accessors, the three detectors (arbitrage, snipe, mispriced), the
    execution simulator and the period rotation of the scan loop.

    Python's [float] is kept abstract behind the interface [PyFloat], so that
    every function below is written once, operation for operation as in the
    source.  Two interpretations are given: [QFloat], exact rational
    arithmetic, and [Binary64.Float64], IEEE 754 double precision as CPython
    computes.  What rests on the control flow alone (the execution simulator,
    the rotation, the accessors, the ledger) is proved for every
    interpretation.  What rests on a comparison at a threshold or on a tie
    (the three detectors) is proved for every interpretation whose
    comparisons obey the laws of [PyFloatOrder], as both do, and is stated
    of the values the arithmetic computes, rounded where it rounds.
    Identities and bounds of the algebra (the fee sums, the fractions of the
    clock) are proved in [QFloat].  The worked examples are run in both. *)

From Stdlib Require Import ZArith QArith Qround List String Ascii Bool Lia Lqa.
From Stdlib Require Import Floats Sorted Permutation.
Import ListNotations.

Set Implicit Arguments.

(* ================================================================== *)
(** * The Python runtime, as far as the bots use it *)
(* ================================================================== *)

Module Py.

(** The exceptions the modelled code can raise. *)
Inductive exn : Type :=
| ZeroDivisionError
| TypeError
| KeyError
| ValueError
| AttributeError.

(** The outcome of evaluating an expression: a value, or a raised exception. *)
Inductive result (A : Type) : Type :=
| Ok (a : A)
| Raise (e : exn).

Arguments Ok {A} a.
Arguments Raise {A} e.

Definition bind {A B : Type} (m : result A) (k : A -> result B) : result B :=
  match m with
  | Ok a => k a
  | Raise e => Raise e
  end.

(** [try: m except Exception: h] *)
Definition try_except {A : Type} (m : result A) (h : A) : A :=
  match m with
  | Ok a => a
  | Raise _ => h
  end.

Fixpoint mapM {A B : Type} (f : A -> result B) (l : list A) : result (list B) :=
  match l with
  | [] => Ok []
  | x :: l' =>
      bind (f x) (fun y => bind (mapM f l') (fun ys => Ok (y :: ys)))
  end.

(** Python floats: literals, the four operations, the comparisons, [int(x)]
    and [float(s)] on a string.  [fdiv] is the quotient for a divisor that is
    not zero; the raising division of the language is [pydiv] below. *)
Class PyFloat (F : Type) : Type := {
  lit : Q -> F;
  fadd : F -> F -> F;
  fsub : F -> F -> F;
  fmul : F -> F -> F;
  fdiv : F -> F -> F;
  feqb : F -> F -> bool;
  fltb : F -> F -> bool;
  fleb : F -> F -> bool;
  ftrunc : F -> Z;
  fparse : string -> option F
}.

Declare Scope py_scope.
Delimit Scope py_scope with py.
Notation "x + y" := (fadd x y) : py_scope.
Notation "x - y" := (fsub x y) : py_scope.
Notation "x * y" := (fmul x y) : py_scope.
Notation "x / y" := (fdiv x y) : py_scope.
Notation "x == y" := (feqb x y) (at level 70, no associativity) : py_scope.
Notation "x <? y" := (fltb x y) : py_scope.
Notation "x <=? y" := (fleb x y) : py_scope.
Notation "x >? y" := (fltb y x) (at level 70, no associativity) : py_scope.
Notation "x >=? y" := (fleb y x) (at level 70, no associativity) : py_scope.
Notation "$ q" := (lit q%Q) (at level 9, q at level 9, format "$ q") : py_scope.

Section Runtime.
Context {F : Type} `{PyFloat F}.
Local Open Scope py_scope.

(** [x / y] of the language: raises on a zero divisor. *)
Definition pydiv (x y : F) : result F :=
  if y == $0 then Raise ZeroDivisionError else Ok (x / y).

(** [min(a, b)] and [max(a, b)]: the first argument is kept unless the
    second is strictly smaller (resp. larger). *)
Definition pymin (a b : F) : F := if b <? a then b else a.
Definition pymax (a b : F) : F := if b >? a then b else a.

(** [min(xs)] and [max(xs)] over a sequence of floats; [ValueError] on an
    empty one. *)
Definition min_seq (xs : list F) : result F :=
  match xs with
  | [] => Raise ValueError
  | x :: xs' => Ok (fold_left pymin xs' x)
  end.

Definition max_seq (xs : list F) : result F :=
  match xs with
  | [] => Raise ValueError
  | x :: xs' => Ok (fold_left pymax xs' x)
  end.

(** [max(xs, key=key)]: the first element whose key is not exceeded. *)
Definition max_by {A : Type} (key : A -> F) (xs : list A) : result A :=
  match xs with
  | [] => Raise ValueError
  | x :: xs' =>
      Ok (fold_left (fun best y => if key y >? key best then y else best) xs' x)
  end.

(** [sorted(xs, key=key)]: a stable sort, comparing keys with [<] only. *)
Fixpoint insert_by {A : Type} (key : A -> F) (x : A) (l : list A) : list A :=
  match l with
  | [] => [x]
  | y :: l' => if key x <? key y then x :: y :: l' else y :: insert_by key x l'
  end.

Definition sorted_by {A : Type} (key : A -> F) (xs : list A) : list A :=
  fold_left (fun acc x => insert_by key x acc) xs [].

(** Decoded JSON, the shape of what the order-book endpoint returns. *)
#[warnings="-register-all"]
Inductive pyval : Type :=
| PNone
| PBool (b : bool)
| PNum (x : F)
| PStr (s : string)
| PList (l : list pyval)
| PDict (d : list (string * pyval)).

(** Truth value of an object ([if not ob]). *)
Definition truthy (v : pyval) : bool :=
  match v with
  | PNone => false
  | PBool b => b
  | PNum x => negb (x == $0)
  | PStr s => negb (String.eqb s EmptyString)
  | PList l => match l with [] => false | _ => true end
  | PDict d => match d with [] => false | _ => true end
  end.

Fixpoint lookup (k : string) (d : list (string * pyval)) : option pyval :=
  match d with
  | [] => None
  | (k', v) :: d' => if String.eqb k k' then Some v else lookup k d'
  end.

(** [v.get(k, default)] *)
Definition py_get (v : pyval) (k : string) (default : pyval) : result pyval :=
  match v with
  | PDict d => Ok (match lookup k d with Some x => x | None => default end)
  | _ => Raise AttributeError
  end.

(** [v[k]] with a string key *)
Definition py_getitem (v : pyval) (k : string) : result pyval :=
  match v with
  | PDict d => match lookup k d with Some x => Ok x | None => Raise KeyError end
  | _ => Raise TypeError
  end.

(** [float(v)] *)
Definition py_float (v : pyval) : result F :=
  match v with
  | PNum x => Ok x
  | PBool b => Ok (if b then $1 else $0)
  | PStr s => match fparse s with Some x => Ok x | None => Raise ValueError end
  | PNone | PList _ | PDict _ => Raise TypeError
  end.

Fixpoint chars (s : string) : list pyval :=
  match s with
  | EmptyString => []
  | String c s' => PStr (String c EmptyString) :: chars s'
  end.

(** The elements [for a in v] runs over. *)
Definition py_iter (v : pyval) : result (list pyval) :=
  match v with
  | PList l => Ok l
  | PStr s => Ok (chars s)
  | PDict d => Ok (map (fun kv => PStr (fst kv)) d)
  | PNone | PBool _ | PNum _ => Raise TypeError
  end.

(** [len(v)] *)
Definition py_len (v : pyval) : result nat :=
  match v with
  | PList l => Ok (List.length l)
  | PStr s => Ok (String.length s)
  | PDict d => Ok (List.length d)
  | PNone | PBool _ | PNum _ => Raise TypeError
  end.

(** [x or default] for an optional float: [None] and [0.0] are falsy. *)
Definition or_else (x : option F) (default : F) : F :=
  match x with
  | Some v => if v == $0 then default else v
  | None => default
  end.

(** A [dict] with float keys, in insertion order.  Keys are found by [==],
    as Python finds every key that is a number; a NaN, which Python finds
    again by identity only, is never found here, and the theorems on the
    cluster price take the prices to be numbers. *)
Fixpoint dict_get (k : F) (d : list (F * F)) (default : F) : F :=
  match d with
  | [] => default
  | (k', v) :: d' => if k == k' then v else dict_get k d' default
  end.

Fixpoint dict_set (k v : F) (d : list (F * F)) : list (F * F) :=
  match d with
  | [] => [(k, v)]
  | (k', v') :: d' =>
      if k == k' then (k', v) :: d' else (k', v') :: dict_set k v d'
  end.

End Runtime.

Arguments pyval F : clear implicits.

End Py.

Export Py.

Notation "x <- m ;; k" := (Py.bind m (fun x => k))
  (at level 61, m at next level, right associativity).

(* ================================================================== *)
(** * Two readings of Python's floats *)
(* ================================================================== *)

(** Plain decimal notation, the form in which the order-book endpoint sends
    prices and sizes: an optional sign, digits, at most one point.  (Python's
    [float] also reads exponents, [inf], [nan], underscores and surrounding
    blanks; such strings are answered [None] here, as a [ValueError].) *)
Definition digit_of (c : ascii) : option Z :=
  let n := nat_of_ascii c in
  if ((48 <=? n) && (n <=? 57))%nat then Some (Z.of_nat (n - 48)) else None.

Fixpoint parse_digits (s : string) (acc : Z) (scale : positive)
    (after_point seen_digit : bool) : option Q :=
  match s with
  | EmptyString => if seen_digit then Some (acc # scale) else None
  | String c s' =>
      if Ascii.eqb c "." then
        if after_point then None else parse_digits s' acc scale true seen_digit
      else
        match digit_of c with
        | Some d =>
            parse_digits s' (10 * acc + d)
              (if after_point then 10 * scale else scale)%positive after_point true
        | None => None
        end
  end.

Definition parse_decimal (s : string) : option Q :=
  match s with
  | String "-" s' => option_map Qopp (parse_digits s' 0 1 false false)
  | String "+" s' => parse_digits s' 0 1 false false
  | _ => parse_digits s 0 1 false false
  end.

(** Exact arithmetic on the rationals. *)
#[export] Instance QFloat : PyFloat Q := {|
  lit := fun q => q;
  fadd := Qplus;
  fsub := Qminus;
  fmul := Qmult;
  fdiv := Qdiv;
  feqb := Qeq_bool;
  fltb := fun x y => negb (Qle_bool y x);
  fleb := Qle_bool;
  ftrunc := fun q => Z.quot (Qnum q) (Z.pos (Qden q));
  fparse := parse_decimal
|}.

(** IEEE 754 binary64, round to nearest even: CPython's [float]. *)
Module Binary64.

Definition of_Z (z : Z) : float :=
  SF2Prim (binary_normalize prec emax z 0 false).

(** A decimal literal [n/d] is the double nearest to it, which the correctly
    rounded quotient of [n] and [d] is when both are below [2^53]. *)
Definition of_Q (q : Q) : float :=
  PrimFloat.div (of_Z (Qnum q)) (of_Z (Z.pos (Qden q))).

(** [int(x)] of a finite float: truncation toward zero. *)
Definition trunc (x : float) : Z :=
  match Prim2SF x with
  | S754_finite s m e =>
      let a := (if 0 <=? e then Z.pos m * 2 ^ e else Z.pos m / 2 ^ (- e))%Z in
      if s then (- a)%Z else a
  | _ => 0%Z
  end.

#[export] Instance Float64 : PyFloat float := {|
  lit := of_Q;
  fadd := PrimFloat.add;
  fsub := PrimFloat.sub;
  fmul := PrimFloat.mul;
  fdiv := PrimFloat.div;
  feqb := PrimFloat.eqb;
  fltb := PrimFloat.ltb;
  fleb := PrimFloat.leb;
  ftrunc := trunc;
  fparse := fun s => option_map of_Q (parse_decimal s)
|}.

End Binary64.

(* ================================================================== *)
(** * crypto5m_bot.py *)
(* ================================================================== *)

Module Crypto5m.

(** The keys of [CRYPTO_MARKETS], in the order of the dictionary. *)
Inductive symbol : Type := BTC | ETH | SOL | XRP.

Definition CRYPTO_MARKETS : list symbol := [BTC; ETH; SOL; XRP].

Definition prefix (sym : symbol) : string :=
  match sym with
  | BTC => "btc"
  | ETH => "eth"
  | SOL => "sol"
  | XRP => "xrp"
  end.

Definition symbol_eqb (a b : symbol) : bool :=
  match a, b with
  | BTC, BTC | ETH, ETH | SOL, SOL | XRP, XRP => true
  | _, _ => false
  end.

Definition PERIOD_SECS : Z := 300.

Inductive token : Type := YES | NO.

Section Bot.
Context {F : Type} `{PyFloat F}.
Local Open Scope py_scope.

(** The parameter dictionary [p], one field per key of [DEFAULT_PARAMS]. *)
Record params : Type := {
  clob_fee_pct : F;
  gas_merge_usd : F;
  swap_spread_pct : F;
  buffer_bps : F;
  arb_threshold_bps : F;
  snipe_threshold : F;
  mispriced_ratio : F;
  mispriced_min_size : F;
  min_trade_usd : F;
  max_trade_usd : F;
  slippage_pct : F;
  refresh_interval : F;
  last_15s_window : F
}.

Definition DEFAULT_PARAMS : params := {|
  clob_fee_pct := $0.00075;
  gas_merge_usd := $0.50;
  swap_spread_pct := $0.0002;
  buffer_bps := $10;
  arb_threshold_bps := $20;
  snipe_threshold := $0.05;
  mispriced_ratio := $0.50;
  mispriced_min_size := $10.0;
  min_trade_usd := $50.0;
  max_trade_usd := $2000.0;
  slippage_pct := $0.3;
  refresh_interval := $3;
  last_15s_window := $15
|}.

(** An [int] used where a float is expected. *)
Definition of_int (z : Z) : F := lit (inject_Z z).

(** ** Time helpers *)

Definition get_period_start (ts : F) : Z :=
  let t := ftrunc ts in
  ((t / PERIOD_SECS) * PERIOD_SECS)%Z.

Definition get_period_end (start_ts : Z) : Z := (start_ts + PERIOD_SECS)%Z.

Definition time_left_in_period (start_ts : Z) (now : F) : F :=
  let end_ts := get_period_end start_ts in
  pymax $0.0 (of_int end_ts - now).

(** [period_elapsed_frac(start_ts)], given the reading of the clock:
    0.0 when the period has just started, 1.0 once it is closed. *)
Definition period_elapsed_frac (start_ts : Z) (now : F) : F :=
  let elapsed := now - of_int start_ts in
  pymin $1.0 (pymax $0.0 (elapsed / of_int PERIOD_SECS)).

(** ** Order-book accessors *)

(** [float(a[key]) for a in items] *)
Definition field_floats (key : string) (items : list (pyval F)) : result (list F) :=
  mapM (fun a => v <- py_getitem a key ;; py_float v) items.

Definition best_ask_price (ob : pyval F) : result (option F) :=
  if negb (truthy ob) then Ok None else
  asks <- py_get ob "asks" (PList []) ;;
  if negb (truthy asks) then Ok None else
  Ok (try_except
        (items <- py_iter asks ;;
         prices <- field_floats "price" items ;;
         m <- min_seq prices ;;
         Ok (Some m))
        None).

Definition best_bid_price (ob : pyval F) : result (option F) :=
  if negb (truthy ob) then Ok None else
  bids <- py_get ob "bids" (PList []) ;;
  if negb (truthy bids) then Ok None else
  Ok (try_except
        (items <- py_iter bids ;;
         prices <- field_floats "price" items ;;
         m <- max_seq prices ;;
         Ok (Some m))
        None).

Definition effective_buy_price (ob : pyval F) : result (option F) :=
  best_ask_price ob.

(** ** Cost model *)

Definition total_fees (trade_size_usd : F) (p : params) : F :=
  let clob := clob_fee_pct p * $2 in
  let gas := if trade_size_usd >? $0 then gas_merge_usd p / trade_size_usd else $0 in
  let swap := swap_spread_pct p * $2 in
  let buf := buffer_bps p / $10_000 in
  clob + gas + swap + buf.

Definition compute_arb_edge (yes_cost no_cost trade_size : F) (p : params) : F * F :=
  let raw := $1.0 - (yes_cost + no_cost) in
  let fees := total_fees trade_size p in
  let net := raw - fees in
  (raw, net).

(** ** Strategy 1: long arbitrage *)

Record arb_opp : Type := {
  arb_crypto : symbol;
  arb_yes_price : F;
  arb_no_price : F;
  arb_total : F;
  arb_raw_edge : F;
  arb_net_edge : F
}.

Definition check_arb_strategy (crypto : symbol) (yes_ob no_ob : pyval F) (p : params)
  : result (option arb_opp) :=
  yes_ask <- effective_buy_price yes_ob ;;
  no_ask <- effective_buy_price no_ob ;;
  match yes_ask, no_ask with
  | Some yes_ask, Some no_ask =>
      if (yes_ask <=? $0) || (no_ask <=? $0) then Ok None else
      let trade_size := (min_trade_usd p + max_trade_usd p) / $2 in
      let '(raw_edge, net_edge) := compute_arb_edge yes_ask no_ask trade_size p in
      let threshold := arb_threshold_bps p / $10_000 in
      if net_edge <? threshold then Ok None else
      Ok (Some {| arb_crypto := crypto;
                  arb_yes_price := yes_ask;
                  arb_no_price := no_ask;
                  arb_total := yes_ask + no_ask;
                  arb_raw_edge := raw_edge;
                  arb_net_edge := net_edge |})
  | _, _ => Ok None
  end.

(** ** Strategy 2: last-seconds snipe *)

Record candidate : Type := {
  c_token : token;
  c_price : F;
  c_edge : F;
  c_confidence : F
}.

Record snipe_opp : Type := {
  snipe_crypto : symbol;
  snipe_token : token;
  snipe_price : F;
  snipe_edge : F;
  snipe_time_left : F
}.

(** The candidate of one side, when its ask is there, positive, and its edge
    clears the threshold. *)
Definition side_candidate (tok : token) (ask : option F) (fees : F) (p : params)
  : list candidate :=
  match ask with
  | Some a =>
      if a >? $0 then
        let edge := $1.0 - a - fees in
        if edge >=? snipe_threshold p
        then [{| c_token := tok; c_price := a; c_edge := edge; c_confidence := a |}]
        else []
      else []
  | None => []
  end.

Definition check_snipe_strategy (crypto : symbol) (yes_ob no_ob : pyval F)
    (time_left : F) (p : params) : result (option snipe_opp) :=
  let window := last_15s_window p in
  if time_left >? window then Ok None else
  yes_ask <- effective_buy_price yes_ob ;;
  no_ask <- effective_buy_price no_ob ;;
  gas <- pydiv (gas_merge_usd p) (max_trade_usd p) ;;
  let fees := clob_fee_pct p + gas + swap_spread_pct p + buffer_bps p / $10_000 in
  let cand_yes := side_candidate YES yes_ask fees p in
  (* [yes_bid = best_bid_price(yes_ob) or 0] is evaluated, and not used *)
  _ <- match cand_yes with
       | [] => Ok $0
       | _ => b <- best_bid_price yes_ob ;; Ok (or_else b $0)
       end ;;
  let cand_no := side_candidate NO no_ask fees p in
  let candidates := cand_yes ++ cand_no in
  match candidates with
  | [] => Ok None
  | _ =>
      best <- max_by c_confidence candidates ;;
      Ok (Some {| snipe_crypto := crypto;
                  snipe_token := c_token best;
                  snipe_price := c_price best;
                  snipe_edge := c_edge best;
                  snipe_time_left := time_left |})
  end.

(** ** Strategy 3: mispriced orders *)

Record mispriced_entry : Type := {
  m_price : F;
  m_size : F;
  m_cluster_price : F;
  m_discount_pct : F;
  m_est_profit_per_share : F
}.

(** [[(float(a["price"]), float(a["size"])) for a in asks]] *)
Definition parse_entries (asks : pyval F) : result (list (F * F)) :=
  items <- py_iter asks ;;
  mapM (fun a =>
          pv <- py_getitem a "price" ;;
          pf <- py_float pv ;;
          sv <- py_getitem a "size" ;;
          sf <- py_float sv ;;
          Ok (pf, sf)) items.

(** The loop filling [price_vol]: total size per price level. *)
Definition price_volume (entries : list (F * F)) : list (F * F) :=
  fold_left (fun price_vol e =>
               dict_set (fst e) (dict_get (fst e) price_vol $0 + snd e) price_vol)
            entries [].

(** [max(price_vol, key=price_vol.get)] *)
Definition cluster_price_of (price_vol : list (F * F)) : result F :=
  max_by (fun k => dict_get k price_vol $0) (map fst price_vol).

(** The loop collecting the flagged entries, in the order of the book. *)
Fixpoint flag_entries (entries : list (F * F)) (cluster_price ratio_threshold min_size : F)
  : result (list mispriced_entry) :=
  match entries with
  | [] => Ok []
  | (p_val, s_val) :: rest =>
      if s_val <? min_size then
        flag_entries rest cluster_price ratio_threshold min_size
      else if (p_val <=? cluster_price * ratio_threshold)
              && (p_val <? cluster_price - $0.10) then
        discount <- pydiv (cluster_price - p_val) cluster_price ;;
        let est_profit := cluster_price - p_val in
        more <- flag_entries rest cluster_price ratio_threshold min_size ;;
        Ok ({| m_price := p_val;
               m_size := s_val;
               m_cluster_price := cluster_price;
               m_discount_pct := discount * $100;
               m_est_profit_per_share := est_profit |} :: more)
      else flag_entries rest cluster_price ratio_threshold min_size
  end.

Definition find_mispriced_orders (asks : pyval F) (ratio_threshold min_size : F)
  : result (list mispriced_entry) :=
  if negb (truthy asks) then Ok [] else
  n <- py_len asks ;;
  if (n <? 2)%nat then Ok [] else
  match parse_entries asks with
  | Raise _ => Ok []
  | Ok entries =>
      let price_vol := price_volume entries in
      cluster_price <- cluster_price_of price_vol ;;
      mispriced <- flag_entries entries cluster_price ratio_threshold min_size ;;
      Ok (sorted_by m_price mispriced)
  end.

Record mispriced_opp : Type := {
  mis_crypto : symbol;
  mis_token : token;
  mis_price : F;
  mis_size : F;
  mis_cluster_price : F;
  mis_discount_pct : F;
  mis_est_profit : F
}.

Definition mispriced_of_entry (crypto : symbol) (tok : token) (m : mispriced_entry)
  : mispriced_opp :=
  {| mis_crypto := crypto;
     mis_token := tok;
     mis_price := m_price m;
     mis_size := m_size m;
     mis_cluster_price := m_cluster_price m;
     mis_discount_pct := m_discount_pct m;
     mis_est_profit := m_est_profit_per_share m |}.

(** One round of the loop over [("YES", yes_ob), ("NO", no_ob)]. *)
Definition mispriced_side (crypto : symbol) (tok : token) (ob : pyval F) (p : params)
  : result (list mispriced_opp) :=
  if negb (truthy ob) then Ok [] else
  asks <- py_get ob "asks" (PList []) ;;
  mispx <- find_mispriced_orders asks (mispriced_ratio p) (mispriced_min_size p) ;;
  Ok (map (mispriced_of_entry crypto tok) mispx).

Definition check_mispriced_strategy (crypto : symbol) (yes_ob no_ob : pyval F) (p : params)
  : result (list mispriced_opp) :=
  from_yes <- mispriced_side crypto YES yes_ob p ;;
  from_no <- mispriced_side crypto NO no_ob p ;;
  Ok (from_yes ++ from_no).

(** ** Execution simulation *)

Inductive strategy : Type := StratArb | StratSnipe | StratMispriced.

(** An opportunity dictionary, by the value of its ["strategy"] key: the
    three values the detectors write.  (The closing
    [return {"status": "unknown"}] of [simulate_trade] answers any other.) *)
Inductive opportunity : Type :=
| OppArb (o : arb_opp)
| OppSnipe (o : snipe_opp)
| OppMispriced (o : mispriced_opp).

Definition opp_strategy (opp : opportunity) : strategy :=
  match opp with
  | OppArb _ => StratArb
  | OppSnipe _ => StratSnipe
  | OppMispriced _ => StratMispriced
  end.

Definition opp_crypto (opp : opportunity) : symbol :=
  match opp with
  | OppArb o => arb_crypto o
  | OppSnipe o => snipe_crypto o
  | OppMispriced o => mis_crypto o
  end.

(** A filled trade.  [t_cost] is the key ["cost_per"], ["cost"] or
    ["buy_price"] of the branch, [t_pct] its ["edge_pct"] or
    ["discount_pct"]; ["sell_price"] and ["token"] exist in some branches
    only. *)
Record filled_trade : Type := {
  t_strategy : strategy;
  t_crypto : symbol;
  t_token : option token;
  t_size_usd : F;
  t_shares : F;
  t_cost : F;
  t_sell_price : option F;
  t_gross_pnl : F;
  t_net_pnl : F;
  t_pct : F
}.

Inductive trade_result : Type :=
| Rejected (reason : string)
| Filled (t : filled_trade).

Definition status (r : trade_result) : string :=
  match r with
  | Rejected _ => "rejected"
  | Filled _ => "filled"
  end.

(** [random.uniform(a, b)], given the draw [u] of [random.random()]. *)
Definition uniform (a b u : F) : F := a + (b - a) * u.

(** [simulate_trade(opp, p)], given the three draws it makes. *)
Definition simulate_trade (opp : opportunity) (p : params) (u1 u2 u3 : F)
  : result trade_result :=
  let slip := uniform $0 (slippage_pct p / $100) u1 in
  let fill := uniform $0.75 $1.0 u2 in
  let size := uniform (min_trade_usd p) (pymin (max_trade_usd p) $1500) u3 in
  match opp with
  | OppArb o =>
      let cost_per := arb_yes_price o + arb_no_price o + slip in
      if cost_per >=? $1.0 then Ok (Rejected "slippage killed edge") else
      shares <- pydiv (size * fill) cost_per ;;
      let gross := shares * ($1.0 - cost_per) in
      let net := gross - gas_merge_usd p in
      Ok (Filled {| t_strategy := StratArb;
                    t_crypto := arb_crypto o;
                    t_token := None;
                    t_size_usd := size * fill;
                    t_shares := shares;
                    t_cost := cost_per;
                    t_sell_price := None;
                    t_gross_pnl := gross;
                    t_net_pnl := net;
                    t_pct := arb_net_edge o * $100 |})
  | OppSnipe o =>
      let cost := snipe_price o + slip in
      if cost >=? $1.0 then Ok (Rejected "cost >= 1.0") else
      shares <- pydiv (size * fill) cost ;;
      let gross := shares * ($1.0 - cost) in
      let net := gross - gas_merge_usd p / $2 in
      Ok (Filled {| t_strategy := StratSnipe;
                    t_crypto := snipe_crypto o;
                    t_token := Some (snipe_token o);
                    t_size_usd := size * fill;
                    t_shares := shares;
                    t_cost := cost;
                    t_sell_price := None;
                    t_gross_pnl := gross;
                    t_net_pnl := net;
                    t_pct := snipe_edge o * $100 |})
  | OppMispriced o =>
      let cost := mis_price o + slip in
      q <- pydiv (size * fill) cost ;;
      let avail := pymin q (mis_size o) in
      let gross := avail * (mis_cluster_price o - cost) in
      let net := gross - gas_merge_usd p / $4 in
      Ok (Filled {| t_strategy := StratMispriced;
                    t_crypto := mis_crypto o;
                    t_token := Some (mis_token o);
                    t_size_usd := avail * cost;
                    t_shares := avail;
                    t_cost := cost;
                    t_sell_price := Some (mis_cluster_price o);
                    t_gross_pnl := gross;
                    t_net_pnl := net;
                    t_pct := mis_discount_pct o |})
  end.

(** ** Session state *)

(** Market metadata, as [fetch_5m_market] returns it (the display strings
    ["slug"], ["question"] and ["end_date"] are left out). *)
Record market : Type := {
  md_prefix : string;
  md_yes_token : string;
  md_no_token : string;
  md_active : bool;
  md_closed : bool;
  md_yes_price : F;
  md_no_price : F;
  md_volume : F;
  md_start_ts : Z
}.

Definition set_closed (md : market) (b : bool) : market :=
  {| md_prefix := md_prefix md;
     md_yes_token := md_yes_token md;
     md_no_token := md_no_token md;
     md_active := md_active md;
     md_closed := b;
     md_yes_price := md_yes_price md;
     md_no_price := md_no_price md;
     md_volume := md_volume md;
     md_start_ts := md_start_ts md |}.

(** The entry [{"yes": yes_ob, "no": no_ob}] of [orderbooks]. *)
Record books : Type := {
  ob_yes : pyval F;
  ob_no : pyval F
}.

(** One entry of [strategy_stats]. *)
Record stats : Type := {
  opps : Z;
  trades : Z;
  pnl : F
}.

(** A [dict] keyed by symbol, in insertion order. *)
Fixpoint sym_get {V : Type} (sym : symbol) (d : list (symbol * V)) : option V :=
  match d with
  | [] => None
  | (k, v) :: d' => if symbol_eqb sym k then Some v else sym_get sym d'
  end.

Fixpoint sym_set {V : Type} (sym : symbol) (v : V) (d : list (symbol * V))
  : list (symbol * V) :=
  match d with
  | [] => [(sym, v)]
  | (k, v') :: d' =>
      if symbol_eqb sym k then (k, v) :: d' else (k, v') :: sym_set sym v d'
  end.

(** [st.session_state], without the log and the display fields. *)
Record session : Type := {
  s_params : params;
  market_data : list (symbol * market);
  orderbooks : list (symbol * books);
  opportunities : list (opportunity * F);
  trade_history : list (filled_trade * F);
  pnl_series : list F;
  total_pnl : F;
  total_trades : Z;
  total_opps : Z;
  last_scan_ts : F;
  current_period_start : Z;
  period_transitions : Z;
  stats_arb : stats;
  stats_snipe : stats;
  stats_mispriced : stats
}.

(** [init_state]: the session a run starts from. *)
Definition init_state : session := {|
  s_params := DEFAULT_PARAMS;
  market_data := [];
  orderbooks := [];
  opportunities := [];
  trade_history := [];
  pnl_series := [];
  total_pnl := $0.0;
  total_trades := 0;
  total_opps := 0;
  last_scan_ts := $0.0;
  current_period_start := 0;
  period_transitions := 0;
  stats_arb := {| opps := 0; trades := 0; pnl := $0.0 |};
  stats_snipe := {| opps := 0; trades := 0; pnl := $0.0 |};
  stats_mispriced := {| opps := 0; trades := 0; pnl := $0.0 |}
|}.

(** What one scan reads from outside: the successive readings of
    [time.time()], the answers of the two endpoints, and the successive draws
    of [random.random()]. *)
Record world : Type := {
  clock : nat -> F;
  gamma : string -> Z -> option market;
  clob : string -> pyval F;
  random : nat -> F
}.

(** [fetch_5m_market]: [None] on any failure, else the metadata, stamped with
    the prefix and the period asked for. *)
Definition fetch_5m_market (w : world) (pre : string) (start_ts : Z) : option market :=
  match gamma w pre start_ts with
  | None => None
  | Some m =>
      Some {| md_prefix := pre;
              md_yes_token := md_yes_token m;
              md_no_token := md_no_token m;
              md_active := md_active m;
              md_closed := md_closed m;
              md_yes_price := md_yes_price m;
              md_no_price := md_no_price m;
              md_volume := md_volume m;
              md_start_ts := start_ts |}
  end.

(** [fetch_orderbook]: [None] for an empty token id and on any failure. *)
Definition fetch_orderbook (w : world) (token_id : string) : pyval F :=
  if String.eqb token_id EmptyString then PNone else clob w token_id.

(** The body of [fetch_orderbook] once the endpoint has answered: the
    decoded answer [r.json()] is shaped into [{"asks": ..., "bids": ...}],
    the asks being looked for under ["asks"] and then under ["sells"]; any
    exception on the way gives [None]. *)
Definition orderbook_of_response (json : pyval F) : pyval F :=
  try_except
    (let data := if truthy json then json else PDict [] in
     sells <- py_get data "sells" (PList []) ;;
     asks <- py_get data "asks" sells ;;
     bids <- py_get data "bids" (PList []) ;;
     Ok (PDict [("asks"%string, asks); ("bids"%string, bids)]))
    PNone.

Definition with_caches (st : session)
    (mdata : list (symbol * market)) (obs : list (symbol * books)) : session :=
  {| s_params := s_params st;
     market_data := mdata;
     orderbooks := obs;
     opportunities := opportunities st;
     trade_history := trade_history st;
     pnl_series := pnl_series st;
     total_pnl := total_pnl st;
     total_trades := total_trades st;
     total_opps := total_opps st;
     last_scan_ts := last_scan_ts st;
     current_period_start := current_period_start st;
     period_transitions := period_transitions st;
     stats_arb := stats_arb st;
     stats_snipe := stats_snipe st;
     stats_mispriced := stats_mispriced st |}.

(** ** Market discovery and rotation *)

(** First loop of [refresh_market_data]. *)
Definition refresh_metadata (w : world) (period_start : Z)
    (mdata : list (symbol * market)) : list (symbol * market) :=
  fold_left
    (fun mdata sym =>
       match fetch_5m_market w (prefix sym) period_start with
       | Some md => sym_set sym md mdata
       | None =>
           match sym_get sym mdata with
           | Some old => sym_set sym (set_closed old true) mdata
           | None => mdata
           end
       end)
    CRYPTO_MARKETS mdata.

(** Second loop of [refresh_market_data]; [skip_closed] makes it the loop of
    [refresh_orderbooks_only]. *)
Definition refresh_books (w : world) (skip_closed : bool)
    (mdata : list (symbol * market)) (obs : list (symbol * books))
  : list (symbol * books) :=
  fold_left
    (fun obs sym =>
       match sym_get sym mdata with
       | None => obs
       | Some md =>
           if skip_closed && md_closed md then obs else
           let yes_ob := fetch_orderbook w (md_yes_token md) in
           let no_ob := fetch_orderbook w (md_no_token md) in
           sym_set sym {| ob_yes := yes_ob; ob_no := no_ob |} obs
       end)
    CRYPTO_MARKETS obs.

Definition refresh_market_data (w : world) (period_start : Z) (st : session) : session :=
  let mdata := refresh_metadata w period_start (market_data st) in
  with_caches st mdata (refresh_books w false mdata (orderbooks st)).

Definition refresh_orderbooks_only (w : world) (st : session) : session :=
  with_caches st (market_data st) (refresh_books w true (market_data st) (orderbooks st)).

(** ** Main scan loop *)

(** Code that changes the session and may raise: the session as it stands
    when the exception leaves is kept. *)
Definition M (A : Type) : Type := session -> result A * session.

Definition ret {A : Type} (a : A) : M A := fun st => (Ok a, st).

Definition bindM {A B : Type} (m : M A) (k : A -> M B) : M B :=
  fun st =>
    match m st with
    | (Ok a, st') => k a st'
    | (Raise e, st') => (Raise e, st')
    end.

Definition lift {A : Type} (r : result A) : M A := fun st => (r, st).

Definition gets {A : Type} (f : session -> A) : M A := fun st => (Ok (f st), st).

Definition modify (f : session -> session) : M unit := fun st => (Ok tt, f st).

Notation "x <~ m ;; k" := (bindM m (fun x => k))
  (at level 61, m at next level, right associativity).
Notation "m ;;; k" := (bindM m (fun _ => k))
  (at level 61, right associativity).

Fixpoint foldM {A B : Type} (body : B -> A -> M B) (l : list A) (acc : B) : M B :=
  match l with
  | [] => ret acc
  | x :: l' => acc' <~ body acc x ;; foldM body l' acc'
  end.

Definition with_period (st : session) (start transitions : Z) : session :=
  {| s_params := s_params st;
     market_data := market_data st;
     orderbooks := orderbooks st;
     opportunities := opportunities st;
     trade_history := trade_history st;
     pnl_series := pnl_series st;
     total_pnl := total_pnl st;
     total_trades := total_trades st;
     total_opps := total_opps st;
     last_scan_ts := last_scan_ts st;
     current_period_start := start;
     period_transitions := transitions;
     stats_arb := stats_arb st;
     stats_snipe := stats_snipe st;
     stats_mispriced := stats_mispriced st |}.

Definition with_stats (st : session) (a s m : stats) : session :=
  {| s_params := s_params st;
     market_data := market_data st;
     orderbooks := orderbooks st;
     opportunities := opportunities st;
     trade_history := trade_history st;
     pnl_series := pnl_series st;
     total_pnl := total_pnl st;
     total_trades := total_trades st;
     total_opps := total_opps st;
     last_scan_ts := last_scan_ts st;
     current_period_start := current_period_start st;
     period_transitions := period_transitions st;
     stats_arb := a;
     stats_snipe := s;
     stats_mispriced := m |}.

(** The histories and running totals, and the time of the last scan. *)
Definition with_ledger (st : session)
    (os : list (opportunity * F)) (ts : list (filled_trade * F)) (series : list F)
    (tpnl : F) (ttrades topps : Z) (last : F) : session :=
  {| s_params := s_params st;
     market_data := market_data st;
     orderbooks := orderbooks st;
     opportunities := os;
     trade_history := ts;
     pnl_series := series;
     total_pnl := tpnl;
     total_trades := ttrades;
     total_opps := topps;
     last_scan_ts := last;
     current_period_start := current_period_start st;
     period_transitions := period_transitions st;
     stats_arb := stats_arb st;
     stats_snipe := stats_snipe st;
     stats_mispriced := stats_mispriced st |}.

Definition map_stats (strat : strategy) (f : stats -> stats) (st : session) : session :=
  match strat with
  | StratArb => with_stats st (f (stats_arb st)) (stats_snipe st) (stats_mispriced st)
  | StratSnipe => with_stats st (stats_arb st) (f (stats_snipe st)) (stats_mispriced st)
  | StratMispriced => with_stats st (stats_arb st) (stats_snipe st) (f (stats_mispriced st))
  end.

(** [strategy_stats[strat]["opps"] += 1] *)
Definition count_opp (strat : strategy) : M unit :=
  modify (map_stats strat
            (fun s => {| opps := opps s + 1; trades := trades s; pnl := pnl s |})).

(** The period rotation block that opens [run_scan]. *)
Definition rotate_period (w : world) (now_start : Z) (st : session) : session :=
  let prev_start := current_period_start st in
  if negb (now_start =? prev_start)%Z then
    let st1 := with_period st now_start (period_transitions st + 1) in
    let st2 := with_caches st1 [] [] in
    refresh_market_data w now_start st2
  else
    match market_data st with
    | [] => refresh_market_data w now_start st
    | _ :: _ => refresh_orderbooks_only w st
    end.

(** The body of the loop over the markets: the three detectors on one
    symbol, appending to [all_opps]. *)
Definition scan_symbol (time_left : F) (p : params)
    (all_opps : list opportunity) (sym : symbol) : M (list opportunity) :=
  ob <~ gets (fun st => sym_get sym (orderbooks st)) ;;
  let yes_ob := match ob with Some b => ob_yes b | None => PNone end in
  let no_ob := match ob with Some b => ob_no b | None => PNone end in
  if negb (truthy yes_ob) && negb (truthy no_ob) then ret all_opps else
  arb <~ lift (check_arb_strategy sym yes_ob no_ob p) ;;
  all_opps <~ match arb with
              | Some a => count_opp StratArb ;;; ret (all_opps ++ [OppArb a])
              | None => ret all_opps
              end ;;
  snipe <~ lift (check_snipe_strategy sym yes_ob no_ob time_left p) ;;
  all_opps <~ match snipe with
              | Some s => count_opp StratSnipe ;;; ret (all_opps ++ [OppSnipe s])
              | None => ret all_opps
              end ;;
  mispx <~ lift (check_mispriced_strategy sym yes_ob no_ob p) ;;
  foldM (fun all_opps m =>
           count_opp StratMispriced ;;; ret (all_opps ++ [OppMispriced m]))
        mispx all_opps.

(** The body of the loop over [all_opps]: record the opportunity, simulate
    its execution with the next three draws, and book a filled trade.  The
    result is the number of draws made so far. *)
Definition record_and_simulate (w : world) (time_left : F) (p : params)
    (drawn : nat) (opp : opportunity) : M nat :=
  modify (fun st =>
            with_ledger st
              (firstn 200 ((opp, time_left) :: opportunities st))
              (trade_history st) (pnl_series st)
              (total_pnl st) (total_trades st) (total_opps st) (last_scan_ts st)) ;;;
  res <~ lift (simulate_trade opp p (random w drawn) (random w (S drawn))
                 (random w (S (S drawn)))) ;;
  match res with
  | Filled t =>
      let pnl_ := t_net_pnl t in
      modify (fun st =>
                let total := total_pnl st + pnl_ in
                with_ledger st
                  (opportunities st)
                  (trade_history st ++ [(t, time_left)])
                  (pnl_series st ++ [total])
                  total (total_trades st + 1) (total_opps st) (last_scan_ts st)) ;;;
      modify (map_stats (opp_strategy opp)
                (fun s => {| opps := opps s;
                             trades := trades s + 1;
                             pnl := pnl s + pnl_ |})) ;;;
      ret (3 + drawn)%nat
  | Rejected _ => ret (3 + drawn)%nat
  end.

Definition run_scan (w : world) : M unit :=
  p <~ gets s_params ;;
  let now_start := get_period_start (clock w 0) in
  modify (rotate_period w now_start) ;;;
  let time_left := time_left_in_period now_start (clock w 1) in
  all_opps <~ foldM (scan_symbol time_left p) CRYPTO_MARKETS [] ;;
  modify (fun st =>
            with_ledger st (opportunities st) (trade_history st) (pnl_series st)
              (total_pnl st) (total_trades st)
              (total_opps st + Z.of_nat (List.length all_opps)) (last_scan_ts st)) ;;;
  foldM (record_and_simulate w time_left p) all_opps 0%nat ;;;
  modify (fun st =>
            with_ledger st (opportunities st) (trade_history st) (pnl_series st)
              (total_pnl st) (total_trades st) (total_opps st) (clock w 2)).

End Bot.
End Crypto5m.

(* ================================================================== *)
(** * polymarketGPT.py *)
(* ================================================================== *)

Module PolymarketGPT.
Section Bot.
Context {F : Type} `{PyFloat F}.
Local Open Scope py_scope.

Record params : Type := {
  profit_threshold_bps : F;
  clob_fee_pct : F;
  gas_merge_usd : F;
  swap_spread_pct : F;
  buffer_bps : F;
  min_trade_usd : F;
  max_trade_usd : F;
  slippage_pct : F;
  refresh_interval_sec : F;
  min_volume_usd : F;
  max_markets : F
}.

Definition DEFAULT_PARAMS : params := {|
  profit_threshold_bps := $30;
  clob_fee_pct := $0.075;
  gas_merge_usd := $0.5;
  swap_spread_pct := $0.02;
  buffer_bps := $10;
  min_trade_usd := $50.0;
  max_trade_usd := $5000.0;
  slippage_pct := $0.5;
  refresh_interval_sec := $10;
  min_volume_usd := $100_000;
  max_markets := $10
|}.

(** [compute_edge], every keyword argument given. *)
Definition compute_edge
    (buy_yes buy_no clob_fee gas_usd swap_spread buffer_bps trade_size_usd : F)
  : F * F :=
  let long_cost := buy_yes + buy_no in
  let raw_edge := $1.0 - long_cost in
  let fees_clob := clob_fee * $2 in
  let gas_frac := if trade_size_usd >? $0 then gas_usd / trade_size_usd else $0 in
  let buffer := buffer_bps / $10000 in
  let net_edge := raw_edge - fees_clob - gas_frac - swap_spread - buffer in
  (raw_edge, net_edge).

Record execution : Type := {
  trade_size_usd : F;
  shares : F;
  fill_pct : F;
  cost_per_set : F;
  gross_pnl : F;
  net_pnl : F;
  net_edge_pct : F
}.

(** [simulate_execution], given the three draws of [random.random()]. *)
Definition simulate_execution (buy_yes buy_no net_edge : F) (p : params) (u1 u2 u3 : F)
  : result (option execution) :=
  let slip := $0 + (slippage_pct p / $100 - $0) * u1 in
  let partial_fill_pct := $0.75 + ($1.0 - $0.75) * u2 in
  let lo := min_trade_usd p in
  let trade_size := lo + (pymin (max_trade_usd p) $2000 - lo) * u3 in
  let cost_per_share := buy_yes + buy_no + slip in
  if cost_per_share >=? $1.0 then Ok None else
  shares <- pydiv (trade_size * partial_fill_pct) cost_per_share ;;
  let gross_pnl := shares * ($1.0 - cost_per_share) in
  let gas := gas_merge_usd p in
  let net_pnl := gross_pnl - gas in
  Ok (Some {| trade_size_usd := trade_size * partial_fill_pct;
              shares := shares;
              fill_pct := partial_fill_pct * $100;
              cost_per_set := cost_per_share;
              gross_pnl := gross_pnl;
              net_pnl := net_pnl;
              net_edge_pct := net_edge * $100 |}).

(** The body of [fetch_orderbook] once the endpoint has answered with a
    status other than 429: the decoded answer shaped into
    [{"bids": ..., "asks": ...}]; any exception on the way gives [None]. *)
Definition orderbook_of_response (json : pyval F) : pyval F :=
  try_except
    (let data := if truthy json then json else PDict [] in
     dflt <- py_get data "sells" (PList []) ;;
     sells <- py_get data "asks" dflt ;;
     bids <- py_get data "bids" (PList []) ;;
     Ok (PDict [("bids"%string, bids); ("asks"%string, sells)]))
    PNone.

(** [get_effective_prices] *)
Record effective_prices : Type := {
  effective_buy_yes : F;
  effective_buy_no : F;
  effective_sell_yes : F;
  effective_sell_no : F
}.

Definition get_effective_prices (yes_ask yes_bid no_ask no_bid : F) : effective_prices :=
  let spread_yes := if yes_bid >? $0 then yes_ask - yes_bid else $0 in
  let spread_no := if no_bid >? $0 then no_ask - no_bid else $0 in
  let eff_buy_yes := yes_ask + spread_yes * $0.1 in
  let eff_buy_no := no_ask + spread_no * $0.1 in
  let eff_sell_yes := if yes_bid >? $0 then yes_bid - spread_yes * $0.1 else $0 in
  let eff_sell_no := if no_bid >? $0 then no_bid - spread_no * $0.1 else $0 in
  {| effective_buy_yes := pymin eff_buy_yes $0.99;
     effective_buy_no := pymin eff_buy_no $0.99;
     effective_sell_yes := pymax eff_sell_yes $0.01;
     effective_sell_no := pymax eff_sell_no $0.01 |}.

(** The body of the loop of [best_ask] and [best_bid]: the price of one
    order, when both its price and its size read as positive floats. *)
Definition order_price (o : pyval F) : list F :=
  try_except
    (pd <- py_get o "p" (PNum $0) ;;
     pv <- py_get o "price" pd ;;
     p <- py_float pv ;;
     sd <- py_get o "s" (PNum $0) ;;
     sv <- py_get o "size" sd ;;
     s <- py_float sv ;;
     Ok (if (p >? $0) && (s >? $0) then [p] else []))
    [].

Definition best_ask (ob : pyval F) : result (option F) :=
  if negb (truthy ob) then Ok None else
  asks <- py_get ob "asks" (PList []) ;;
  items <- py_iter asks ;;
  let prices := flat_map order_price items in
  match prices with
  | [] => Ok None
  | _ :: _ => m <- min_seq prices ;; Ok (Some m)
  end.

Definition best_bid (ob : pyval F) : result (option F) :=
  if negb (truthy ob) then Ok None else
  bids <- py_get ob "bids" (PList []) ;;
  items <- py_iter bids ;;
  let prices := flat_map order_price items in
  match prices with
  | [] => Ok None
  | _ :: _ => m <- max_seq prices ;; Ok (Some m)
  end.

(** ** Markets and the pinned market *)

(** A market of the scan universe: the keys the scan reads. *)
Record market : Type := {
  condition_id : string;
  question : string;
  yes_token : string;
  no_token : string;
  volume : F
}.

(** [ensure_pinned_market], given what [fetch_market_by_slug] returned. *)
Definition ensure_pinned_market (markets : list market) (pinned : option market)
  : list market :=
  match pinned with
  | None => markets
  | Some pinned =>
      let cid := condition_id pinned in
      let markets :=
        if negb (String.eqb cid EmptyString)
        then filter (fun m => negb (String.eqb (condition_id m) cid)) markets
        else markets in
      pinned :: markets
  end.

(** ** Main scan loop *)

(** The ["status"] of a result row: NO DATA, COLD, WARM, HOT, EXECUTED. *)
Inductive row_status : Type := NoData | Cold | Warm | Hot | Executed.

(** A result row (the question and the volume, copied from the market, are
    left out). *)
Record row : Type := {
  r_condition_id : string;
  r_yes_ask : option F;
  r_no_ask : option F;
  r_raw_edge : option F;
  r_net_edge : option F;
  r_status : row_status;
  r_pnl : F
}.

(** An entry of [trade_history] (without its time stamp and question). *)
Record trade : Type := {
  tr_buy_yes : F;
  tr_buy_no : F;
  tr_raw_edge_pct : F;
  tr_net_edge_pct : F;
  tr_net_pnl : F;
  tr_trade_size : F;
  tr_fill_pct : F
}.

(** The part of [st.session_state] the scan writes; an entry of
    [edge_history] is its raw and net edge in percent. *)
Record session : Type := {
  trade_history : list trade;
  pnl_series : list F;
  total_pnl : F;
  total_trades : Z;
  total_opps : Z;
  edge_history : list (F * F)
}.

(** [init_state]: the session a run starts from. *)
Definition init_state : session := {|
  trade_history := [];
  pnl_series := [];
  total_pnl := $0.0;
  total_trades := 0;
  total_opps := 0;
  edge_history := []
|}.

(** What a scan reads from outside, by iteration of its loop: the two books
    the iteration works on (generated for a synthetic market, fetched for a
    live one) and the three draws of [simulate_execution]. *)
Record feed : Type := {
  books : nat -> market -> pyval F * pyval F;
  draws : nat -> F * F * F
}.

(** The body of the loop of [scan_markets_once] from the books on: the row
    appended to [results].  When an exception leaves, the session is as it
    stood. *)
Definition scan_market (p : params) (ob_yes ob_no : pyval F) (u : F * F * F)
    (m : market) (st : session) : result row * session :=
  let threshold := profit_threshold_bps p / $10000 in
  match best_ask ob_yes with Raise e => (Raise e, st) | Ok a_yes =>
  match best_ask ob_no with Raise e => (Raise e, st) | Ok a_no =>
  match best_bid ob_yes with Raise e => (Raise e, st) | Ok b_yes =>
  match best_bid ob_no with Raise e => (Raise e, st) | Ok b_no =>
  match a_yes, a_no with
  | Some ya, Some na =>
      let eff := get_effective_prices ya (or_else b_yes $0) na (or_else b_no $0) in
      let buy_yes := effective_buy_yes eff in
      let buy_no := effective_buy_no eff in
      let edges := compute_edge buy_yes buy_no
                     (clob_fee_pct p / $100) (gas_merge_usd p)
                     (swap_spread_pct p / $100) (buffer_bps p) (min_trade_usd p) in
      let raw_edge := fst edges in
      let net_edge := snd edges in
      let st1 := {| trade_history := trade_history st;
                    pnl_series := pnl_series st;
                    total_pnl := total_pnl st;
                    total_trades := total_trades st;
                    total_opps := total_opps st;
                    edge_history :=
                      edge_history st ++ [(raw_edge * $100, net_edge * $100)] |} in
      let result_row status sim_pnl :=
        {| r_condition_id := condition_id m;
           r_yes_ask := Some ya;
           r_no_ask := Some na;
           r_raw_edge := Some (raw_edge * $100);
           r_net_edge := Some (net_edge * $100);
           r_status := status;
           r_pnl := sim_pnl |} in
      if net_edge >? threshold then
        let st2 := {| trade_history := trade_history st1;
                      pnl_series := pnl_series st1;
                      total_pnl := total_pnl st1;
                      total_trades := total_trades st1;
                      total_opps := total_opps st1 + 1;
                      edge_history := edge_history st1 |} in
        let '(u1, u2, u3) := u in
        match simulate_execution buy_yes buy_no net_edge p u1 u2 u3 with
        | Raise e => (Raise e, st2)
        | Ok None => (Ok (result_row Hot $0.0), st2)
        | Ok (Some exec_result) =>
            let sim_pnl := net_pnl exec_result in
            let total := total_pnl st2 + sim_pnl in
            let tr := {| tr_buy_yes := buy_yes;
                         tr_buy_no := buy_no;
                         tr_raw_edge_pct := raw_edge * $100;
                         tr_net_edge_pct := net_edge * $100;
                         tr_net_pnl := sim_pnl;
                         tr_trade_size := trade_size_usd exec_result;
                         tr_fill_pct := fill_pct exec_result |} in
            (Ok (result_row Executed sim_pnl),
             {| trade_history := trade_history st2 ++ [tr];
                pnl_series := pnl_series st2 ++ [total];
                total_pnl := total;
                total_trades := total_trades st2 + 1;
                total_opps := total_opps st2;
                edge_history := edge_history st2 |})
        end
      else if raw_edge >? $0 then (Ok (result_row Warm $0.0), st1)
      else (Ok (result_row Cold $0.0), st1)
  | _, _ =>
      (Ok {| r_condition_id := condition_id m;
             r_yes_ask := None;
             r_no_ask := None;
             r_raw_edge := None;
             r_net_edge := None;
             r_status := NoData;
             r_pnl := $0 |}, st)
  end end end end end.

(** The loop of [scan_markets_once], from its iteration [i] on. *)
Fixpoint scan_from (p : params) (fd : feed) (i : nat) (markets : list market)
    (results : list row) (st : session) : result (list row) * session :=
  match markets with
  | [] => (Ok results, st)
  | m :: rest =>
      match scan_market p (fst (books fd i m)) (snd (books fd i m)) (draws fd i) m st with
      | (Ok r, st') => scan_from p fd (S i) rest (results ++ [r]) st'
      | (Raise e, st') => (Raise e, st')
      end
  end.

Definition scan_markets_once (markets : list market) (p : params) (fd : feed)
    (st : session) : result (list row) * session :=
  scan_from p fd 0 markets [] st.

End Bot.
End PolymarketGPT.

(* ================================================================== *)
(** * The specification's own words *)
(* ================================================================== *)

Module Spec.
Section Words.
Context {F : Type} `{PyFloat F}.
Local Open Scope py_scope.

(** Section 4.4: the price side of an opportunity, the slippage drawn, and
    their sum, the drawn cost. *)
Definition price_sum (opp : Crypto5m.opportunity) : F :=
  match opp with
  | Crypto5m.OppArb o => Crypto5m.arb_yes_price o + Crypto5m.arb_no_price o
  | Crypto5m.OppSnipe o => Crypto5m.snipe_price o
  | Crypto5m.OppMispriced o => Crypto5m.mis_price o
  end.

Definition drawn_slippage (slippage_pct u : F) : F :=
  $0 + (slippage_pct / $100 - $0) * u.

Definition drawn_cost (opp : Crypto5m.opportunity) (p : Crypto5m.params) (u : F) : F :=
  price_sum opp + drawn_slippage (Crypto5m.slippage_pct p) u.

(** The gas charged by strategy: whole, half, a quarter. *)
Definition gas_term (s : Crypto5m.strategy) (p : Crypto5m.params) : F :=
  match s with
  | Crypto5m.StratArb => Crypto5m.gas_merge_usd p
  | Crypto5m.StratSnipe => Crypto5m.gas_merge_usd p / $2
  | Crypto5m.StratMispriced => Crypto5m.gas_merge_usd p / $4
  end.

End Words.

(** Section 4.2: the total size resting at the price level of [p]. *)
Fixpoint level_size (p : Q) (entries : list (Q * Q)) : Q :=
  match entries with
  | [] => 0
  | (p', s) :: rest =>
      if Qeq_bool p' p then s + level_size p rest else level_size p rest
  end.

(** Section 4.3: the three conditions under which an ask is flagged. *)
Definition flag_condition (cluster_price ratio min_size : Q) (e : Q * Q) : Prop :=
  min_size <= snd e /\ fst e <= cluster_price * ratio /\ fst e < cluster_price - 0.10.

End Spec.

(* ================================================================== *)
(** * Inputs of the worked examples *)
(* ================================================================== *)

Module Examples.
Section Inputs.
Context {F : Type} `{PyFloat F}.
Local Open Scope py_scope.
Import Crypto5m.

(** An order as the order-book endpoint sends it: price and size in decimal
    notation. *)
Definition order (price size : string) : pyval F :=
  PDict [("price"%string, PStr price); ("size"%string, PStr size)].

Definition book (asks bids : list (pyval F)) : pyval F :=
  PDict [("asks"%string, PList asks); ("bids"%string, PList bids)].

(** The default parameters with other trade sizes and slippage. *)
Definition tuned (min_trade max_trade slippage : F) : params :=
  let d := DEFAULT_PARAMS in
  {| clob_fee_pct := clob_fee_pct d;
     gas_merge_usd := gas_merge_usd d;
     swap_spread_pct := swap_spread_pct d;
     buffer_bps := buffer_bps d;
     arb_threshold_bps := arb_threshold_bps d;
     snipe_threshold := snipe_threshold d;
     mispriced_ratio := mispriced_ratio d;
     mispriced_min_size := mispriced_min_size d;
     min_trade_usd := min_trade;
     max_trade_usd := max_trade;
     slippage_pct := slippage;
     refresh_interval := refresh_interval d;
     last_15s_window := last_15s_window d |}.

(** A slippage of 60 percent, everything else as by default. *)
Definition wide_slippage : params := tuned $50.0 $2000.0 $60.

(** A mispriced ask at 0.45 under a cluster at 0.97, as the detector reports
    it for the asks [(0.97,100), (0.97,50), (0.45,20)]. *)
Definition mispriced_045 : opportunity :=
  OppMispriced
    {| mis_crypto := BTC;
       mis_token := YES;
       mis_price := $0.45;
       mis_size := $20;
       mis_cluster_price := $0.97;
       mis_discount_pct := ($0.97 - $0.45) / $0.97 * $100;
       mis_est_profit := $0.97 - $0.45 |}.

End Inputs.
End Examples.

(* ================================================================== *)
(** * The execution simulator *)
(* ================================================================== *)

Section ExecutionSimulator.
Context {F : Type} `{PyFloat F}.
Local Open Scope py_scope.
Import Crypto5m.

Lemma pydiv_ok (x y : F) : (y == $0) = false -> pydiv x y = Ok (x / y).
Proof. intros E. unfold pydiv. now rewrite E. Qed.

Lemma simulate_trade_branches (opp : opportunity) (p : params) (u1 u2 u3 : F) :
  (Spec.drawn_cost opp p u1 == $0) = false ->
  exists r,
    simulate_trade opp p u1 u2 u3 = Ok r /\
    match opp_strategy opp with
    | StratMispriced => status r = "filled"%string
    | _ => status r = "rejected"%string <->
           (Spec.drawn_cost opp p u1 >=? $1.0) = true
    end /\
    (forall t, r = Filled t ->
       t_strategy t = opp_strategy opp /\
       t_cost t = Spec.drawn_cost opp p u1 /\
       t_net_pnl t = t_gross_pnl t - Spec.gas_term (opp_strategy opp) p).
Proof.
  intros Hcost.
  destruct opp as [o | o | o]; unfold simulate_trade, uniform;
    unfold Spec.drawn_cost, Spec.drawn_slippage, Spec.price_sum in Hcost |- *;
    cbn [opp_strategy Spec.gas_term].
  - destruct (fleb _ _) eqn:E.
    + eexists; split; [reflexivity|]. split; [now split|].
      intros t Ht; discriminate Ht.
    + rewrite (pydiv_ok _ _ Hcost). cbn [bind].
      eexists; split; [reflexivity|]. split.
      * split; intros X; discriminate X.
      * intros t Ht. injection Ht as <-. now cbn.
  - destruct (fleb _ _) eqn:E.
    + eexists; split; [reflexivity|]. split; [now split|].
      intros t Ht; discriminate Ht.
    + rewrite (pydiv_ok _ _ Hcost). cbn [bind].
      eexists; split; [reflexivity|]. split.
      * split; intros X; discriminate X.
      * intros t Ht. injection Ht as <-. now cbn.
  - rewrite (pydiv_ok _ _ Hcost). cbn [bind].
    eexists; split; [reflexivity|]. split; [reflexivity|].
    intros t Ht. injection Ht as <-. now cbn.
Qed.

Lemma simulate_execution_branches
    (buy_yes buy_no net_edge : F) (gp : PolymarketGPT.params) (u1 u2 u3 : F) :
  let cost := buy_yes + buy_no + Spec.drawn_slippage (PolymarketGPT.slippage_pct gp) u1 in
  (cost == $0) = false ->
  exists r,
    PolymarketGPT.simulate_execution buy_yes buy_no net_edge gp u1 u2 u3 = Ok r /\
    (r = None <-> (cost >=? $1.0) = true) /\
    (forall e, r = Some e ->
       PolymarketGPT.cost_per_set e = cost /\
       PolymarketGPT.net_pnl e
       = PolymarketGPT.gross_pnl e - PolymarketGPT.gas_merge_usd gp).
Proof.
  intros cost Hcost. subst cost.
  unfold PolymarketGPT.simulate_execution, Spec.drawn_slippage in *.
  destruct (fleb _ _) eqn:E.
  - eexists; split; [reflexivity|]. split; [now split|].
    intros e He; discriminate He.
  - rewrite (pydiv_ok _ _ Hcost). cbn [bind].
    eexists; split; [reflexivity|]. split.
    + split; intros X; discriminate X.
    + intros e He. injection He as <-. now cbn.
Qed.

(** C1, as the code has it.  Whatever the arithmetic, and for drawn costs
    that are not zero: an arbitrage or snipe opportunity is rejected exactly
    when the drawn cost reaches 1.0, and is otherwise filled at that cost with
    [net_pnl = gross_pnl - gas] (arbitrage) or [gross_pnl - gas/2] (snipe); a
    mispriced opportunity is filled at its drawn cost with
    [net_pnl = gross_pnl - gas/4] whatever that cost is, also at 1.0 and
    above; and [simulate_execution] answers [None] exactly when the drawn cost
    of the pair reaches 1.0, and otherwise a fill with
    [net_pnl = gross_pnl - gas]. *)
Theorem simulator_rejects_arb_and_snipe_only
    (opp : opportunity) (p : params) (u1 u2 u3 : F)
    (buy_yes buy_no net_edge : F) (gp : PolymarketGPT.params) (v1 v2 v3 : F) :
  (Spec.drawn_cost opp p u1 == $0) = false ->
  (buy_yes + buy_no + Spec.drawn_slippage (PolymarketGPT.slippage_pct gp) v1 == $0) = false ->
  (exists r,
     simulate_trade opp p u1 u2 u3 = Ok r /\
     match opp_strategy opp with
     | StratMispriced => status r = "filled"%string
     | _ => status r = "rejected"%string <->
            (Spec.drawn_cost opp p u1 >=? $1.0) = true
     end /\
     (forall t, r = Filled t ->
        t_strategy t = opp_strategy opp /\
        t_cost t = Spec.drawn_cost opp p u1 /\
        t_net_pnl t = t_gross_pnl t - Spec.gas_term (opp_strategy opp) p)) /\
  (exists r,
     PolymarketGPT.simulate_execution buy_yes buy_no net_edge gp v1 v2 v3 = Ok r /\
     (r = None <->
      (buy_yes + buy_no + Spec.drawn_slippage (PolymarketGPT.slippage_pct gp) v1
       >=? $1.0) = true) /\
     (forall e, r = Some e ->
        PolymarketGPT.cost_per_set e
        = buy_yes + buy_no + Spec.drawn_slippage (PolymarketGPT.slippage_pct gp) v1 /\
        PolymarketGPT.net_pnl e
        = PolymarketGPT.gross_pnl e - PolymarketGPT.gas_merge_usd gp)).
Proof.
  intros H1 H2. split.
  - now apply simulate_trade_branches.
  - now apply simulate_execution_branches.
Qed.

End ExecutionSimulator.

(** The detector does report that opportunity. *)
Example mispriced_045_is_detected :
  exists o,
    Crypto5m.check_mispriced_strategy (F := Q) Crypto5m.BTC
      (Examples.book [Examples.order "0.97" "100"; Examples.order "0.97" "50";
                      Examples.order "0.45" "20"] [])
      PNone Crypto5m.DEFAULT_PARAMS = Ok [o] /\
    Crypto5m.OppMispriced o = Examples.mispriced_045.
Proof. eexists. split; vm_compute; reflexivity. Qed.

(** C1 fails as stated: with a slippage of 60 percent and the draw 0.95, the
    drawn cost of the mispriced opportunity is 0.45 + 0.57 = 1.02, at least
    1.0, and the trade is filled all the same, at a loss. *)
Lemma mispriced_filled_above_one :
  exists t,
    Crypto5m.simulate_trade (Examples.mispriced_045 (F := Q)) Examples.wide_slippage 0.95 0.5 0.5
    = Ok (Crypto5m.Filled t) /\
    Spec.drawn_cost (Examples.mispriced_045 (F := Q)) Examples.wide_slippage 0.95 == 1.02 /\
    1 <= Spec.drawn_cost (Examples.mispriced_045 (F := Q)) Examples.wide_slippage 0.95 /\
    Crypto5m.t_gross_pnl t < 0.
Proof.
  eexists. split; [vm_compute; reflexivity|].
  split; [|split]; vm_compute; congruence || reflexivity.
Qed.

Lemma simulator_rejects_arb_and_snipe_only_witness :
  (exists r,
     Crypto5m.simulate_trade (Examples.mispriced_045 (F := Q)) Examples.wide_slippage
       0.95 0.5 0.5 = Ok r /\
     Crypto5m.status r = "filled"%string /\
     (forall t, r = Crypto5m.Filled t ->
        Crypto5m.t_strategy t = Crypto5m.StratMispriced /\
        Crypto5m.t_cost t
        = Spec.drawn_cost (Examples.mispriced_045 (F := Q)) Examples.wide_slippage 0.95 /\
        Crypto5m.t_net_pnl t
        = (Crypto5m.t_gross_pnl t
           - Spec.gas_term Crypto5m.StratMispriced Examples.wide_slippage)%py)) /\
  (exists r,
     PolymarketGPT.simulate_execution 0.48 0.49 0.0266 PolymarketGPT.DEFAULT_PARAMS 0.5 0.5 0.5
     = Ok r /\
     (r = None <->
      (0.48 + 0.49
       + Spec.drawn_slippage (PolymarketGPT.slippage_pct PolymarketGPT.DEFAULT_PARAMS) 0.5
       >=? $1.0)%py = true) /\
     (forall e, r = Some e ->
        PolymarketGPT.cost_per_set e
        = (0.48 + 0.49
           + Spec.drawn_slippage
               (PolymarketGPT.slippage_pct PolymarketGPT.DEFAULT_PARAMS) 0.5)%py /\
        PolymarketGPT.net_pnl e
        = (PolymarketGPT.gross_pnl e
           - PolymarketGPT.gas_merge_usd PolymarketGPT.DEFAULT_PARAMS)%py)).
Proof.
  apply (simulator_rejects_arb_and_snipe_only
           (Examples.mispriced_045 (F := Q)) Examples.wide_slippage 0.95 0.5 0.5
           0.48 0.49 0.0266 PolymarketGPT.DEFAULT_PARAMS 0.5 0.5 0.5);
    vm_compute; reflexivity.
Defined.

(* ================================================================== *)
(** * Exact arithmetic: the comparisons of [QFloat] *)
(* ================================================================== *)

Lemma Qltb_true (x y : Q) : negb (Qle_bool y x) = true <-> x < y.
Proof.
  rewrite negb_true_iff. split.
  - intros E. apply Qnot_le_lt. intros L. apply Qle_bool_iff in L. congruence.
  - intros L. destruct (Qle_bool y x) eqn:E; [|reflexivity].
    apply Qle_bool_iff in E. exfalso. apply (Qlt_not_le _ _ L E).
Qed.

Lemma Qltb_false (x y : Q) : negb (Qle_bool y x) = false <-> y <= x.
Proof. rewrite negb_false_iff. apply Qle_bool_iff. Qed.

Lemma Qleb_false (x y : Q) : Qle_bool x y = false <-> y < x.
Proof. rewrite <- Qltb_true. now rewrite negb_true_iff. Qed.

Lemma Qeqb_false (x y : Q) : Qeq_bool x y = false <-> ~ x == y.
Proof.
  split.
  - intros E. now apply Qeq_bool_neq.
  - intros N. destruct (Qeq_bool x y) eqn:E; [|reflexivity].
    apply Qeq_bool_iff in E. contradiction.
Qed.

(** Turn the boolean tests of the code into order facts on [Q]. *)
Ltac qprops :=
  repeat match goal with
    | H : negb (Qle_bool _ _) = true |- _ => apply Qltb_true in H
    | H : negb (Qle_bool _ _) = false |- _ => apply Qltb_false in H
    | H : Qle_bool _ _ = true |- _ => apply Qle_bool_iff in H
    | H : Qle_bool _ _ = false |- _ => apply Qleb_false in H
    | H : Qeq_bool _ _ = true |- _ => apply Qeq_bool_iff in H
    | H : Qeq_bool _ _ = false |- _ => apply Qeqb_false in H
    end.

(** Case analysis on the next test of the code. *)
Ltac qcase :=
  match goal with
  | |- context [negb (Qle_bool ?a ?b)] =>
      let E := fresh "E" in destruct (negb (Qle_bool a b)) eqn:E
  | |- context [Qle_bool ?a ?b] =>
      let E := fresh "E" in destruct (Qle_bool a b) eqn:E
  | |- context [Qeq_bool ?a ?b] =>
      let E := fresh "E" in destruct (Qeq_bool a b) eqn:E
  end; qprops.


(* ================================================================== *)
(** * The order of Python's floats *)
(* ================================================================== *)

(** What the comparisons of the two readings share.  [x == x] says that [x]
    is a number (every rational; every double but NaN).  The equality test is
    symmetric and transitive, [<] is transitive and excludes equality, and a
    number that is not above [x] is below whatever [x] is below. *)
Class PyFloatOrder (F : Type) {H : PyFloat F} : Prop := {
  feqb_sym : forall x y : F, feqb x y = feqb y x;
  feqb_trans : forall x y z : F,
    feqb x y = true -> feqb y z = true -> feqb x z = true;
  fltb_trans : forall x y z : F,
    fltb x y = true -> fltb y z = true -> fltb x z = true;
  fltb_below : forall x y z : F,
    feqb z z = true -> fltb x y = true -> fltb x z = false -> fltb z y = true;
  fltb_irrefl : forall x : F, fltb x x = false;
  fltb_numbers : forall x y : F,
    fltb x y = true -> feqb x x = true /\ feqb y y = true;
  fleb_fltb : forall x y : F,
    feqb x x = true -> feqb y y = true -> fleb x y = negb (fltb y x);
  fltb_feqb : forall x y : F, feqb x y = true -> fltb x y = false
}.

Arguments PyFloatOrder F {H}.

(** A number: every rational, every double but NaN. *)
Definition is_number {F : Type} `{PyFloat F} (x : F) : Prop := feqb x x = true.

Lemma Qeq_bool_sym (x y : Q) : Qeq_bool x y = Qeq_bool y x.
Proof.
  destruct (Qeq_bool x y) eqn:E, (Qeq_bool y x) eqn:E'; qprops; auto.
  - exfalso. apply E'. now symmetry.
  - exfalso. apply E. now symmetry.
Qed.

#[export] Instance QFloatOrder : PyFloatOrder Q.
Proof.
  split; cbn [feqb fltb fleb QFloat].
  - apply Qeq_bool_sym.
  - intros x y z A B. qprops. apply Qeq_bool_iff. now rewrite A.
  - intros x y z A B. qprops. apply Qltb_true. lra.
  - intros x y z _ A B. qprops. apply Qltb_true. lra.
  - intros x. apply Qltb_false. apply Qle_refl.
  - intros x y _. split; apply Qeq_bool_iff; reflexivity.
  - intros x y _ _. now rewrite negb_involutive.
  - intros x y A. qprops. apply Qltb_false. rewrite A. apply Qle_refl.
Qed.

Module Binary64Order.
Import Binary64.

(** The comparison of two doubles, on their specification. *)
Lemma SFcompare_antisym (a b : spec_float) :
  SFcompare b a = option_map CompOpp (SFcompare a b).
Proof.
  destruct a as [sa | sa | | sa ma ea], b as [sb | sb | | sb mb eb]; cbn;
    try reflexivity;
    try (destruct sa; reflexivity); try (destruct sb; reflexivity);
    try (destruct sa, sb; reflexivity).
  destruct sa, sb; try reflexivity;
    rewrite (Z.compare_antisym ea eb);
    destruct (ea ?= eb)%Z; cbn; try reflexivity;
    rewrite (Pos.compare_cont_antisym ma mb Eq); cbn;
    try rewrite CompOpp_involutive; reflexivity.
Qed.

Lemma SFcompare_lt_trans (a b c : spec_float) :
  SFcompare a b = Some Lt -> SFcompare b c = Some Lt -> SFcompare a c = Some Lt.
Proof.
  destruct a as [sa | sa | | sa ma ea], b as [sb | sb | | sb mb eb],
    c as [sc | sc | | sc mc ec]; cbn;
    try discriminate;
    repeat match goal with s : bool |- _ => destruct s end;
    try discriminate; try reflexivity;
    rewrite ?Pos.compare_cont_spec; cbn [Pos.switch_Eq];
    intros A B; injection A as A; injection B as B; f_equal;
    destruct (Z.compare_spec ea eb), (Z.compare_spec eb ec), (Z.compare_spec ea ec);
    try discriminate; try lia; try reflexivity;
    destruct (Pos.compare_spec ma mb), (Pos.compare_spec mb mc), (Pos.compare_spec ma mc);
    cbn in *; try discriminate; try lia; reflexivity.
Qed.

Lemma SFcompare_eq_trans (a b c : spec_float) :
  SFcompare a b = Some Eq -> SFcompare b c = Some Eq -> SFcompare a c = Some Eq.
Proof.
  destruct a as [sa | sa | | sa ma ea], b as [sb | sb | | sb mb eb],
    c as [sc | sc | | sc mc ec]; cbn;
    try discriminate;
    repeat match goal with s : bool |- _ => destruct s end;
    try discriminate; try reflexivity;
    rewrite ?Pos.compare_cont_spec; cbn [Pos.switch_Eq];
    intros A B; injection A as A; injection B as B; f_equal;
    destruct (Z.compare_spec ea eb), (Z.compare_spec eb ec), (Z.compare_spec ea ec);
    try discriminate; try lia; try reflexivity;
    destruct (Pos.compare_spec ma mb), (Pos.compare_spec mb mc), (Pos.compare_spec ma mc);
    cbn in *; try discriminate; try lia; reflexivity.
Qed.

(** A number between: [z] is a number, [x < y], and not [x < z]. *)
Lemma SFcompare_below (x y z : spec_float) :
  SFcompare z z = Some Eq -> SFcompare x y = Some Lt -> SFcompare x z <> Some Lt ->
  SFcompare z y = Some Lt.
Proof.
  destruct x as [sx | sx | | sx mx ex], y as [sy | sy | | sy my ey],
    z as [sz | sz | | sz mz ez]; cbn;
    try discriminate;
    repeat match goal with s : bool |- _ => destruct s end;
    try discriminate; try reflexivity; try congruence;
    rewrite ?Pos.compare_cont_spec; cbn [Pos.switch_Eq];
    intros _ A B; injection A as A; f_equal;
    destruct (Z.compare_spec ex ey), (Z.compare_spec ex ez), (Z.compare_spec ez ey);
    try discriminate; try lia; try reflexivity; try congruence;
    destruct (Pos.compare_spec mx my), (Pos.compare_spec mx mz), (Pos.compare_spec mz my);
    cbn in *; try discriminate; try lia; try reflexivity; congruence.
Qed.

Lemma SFcompare_number (a b : spec_float) (c : comparison) :
  SFcompare a b = Some c -> SFcompare a a = Some Eq /\ SFcompare b b = Some Eq.
Proof.
  destruct a as [sa | sa | | sa ma ea], b as [sb | sb | | sb mb eb]; cbn;
    try discriminate; intros _;
    repeat match goal with s : bool |- _ => destruct s end;
    rewrite ?Z.compare_refl, ?Pos.compare_cont_refl; cbn; split; reflexivity.
Qed.

#[export] Instance Float64Order : PyFloatOrder float.
Proof.
  split; cbn [feqb fltb fleb Float64].
  - intros x y. rewrite !eqb_spec. unfold SFeqb.
    rewrite (SFcompare_antisym (Prim2SF x) (Prim2SF y)).
    destruct (SFcompare (Prim2SF x) (Prim2SF y)) as [[| |]|]; reflexivity.
  - intros x y z. rewrite !eqb_spec. unfold SFeqb. intros A B.
    rewrite (@SFcompare_eq_trans (Prim2SF x) (Prim2SF y) (Prim2SF z)); [reflexivity| |].
    + destruct (SFcompare (Prim2SF x) (Prim2SF y)) as [[| |]|];
        (reflexivity || discriminate A).
    + destruct (SFcompare (Prim2SF y) (Prim2SF z)) as [[| |]|];
        (reflexivity || discriminate B).
  - intros x y z. rewrite !ltb_spec. unfold SFltb. intros A B.
    rewrite (@SFcompare_lt_trans (Prim2SF x) (Prim2SF y) (Prim2SF z)); [reflexivity| |].
    + destruct (SFcompare (Prim2SF x) (Prim2SF y)) as [[| |]|];
        (reflexivity || discriminate A).
    + destruct (SFcompare (Prim2SF y) (Prim2SF z)) as [[| |]|];
        (reflexivity || discriminate B).
  - intros x y z. rewrite eqb_spec, !ltb_spec. unfold SFeqb, SFltb. intros N A B.
    rewrite (@SFcompare_below (Prim2SF x) (Prim2SF y) (Prim2SF z)); [reflexivity| | |].
    + destruct (SFcompare (Prim2SF z) (Prim2SF z)) as [[| |]|];
        (reflexivity || discriminate N).
    + destruct (SFcompare (Prim2SF x) (Prim2SF y)) as [[| |]|];
        (reflexivity || discriminate A).
    + intros E. rewrite E in B. discriminate B.
  - intros x. rewrite ltb_spec. unfold SFltb.
    destruct (SFcompare (Prim2SF x) (Prim2SF x)) as [[| |]|] eqn:E; try reflexivity.
    destruct (SFcompare_number _ _ E) as [E' _]. rewrite E in E'. discriminate E'.
  - intros x y. rewrite ltb_spec, !eqb_spec. unfold SFltb, SFeqb.
    destruct (SFcompare (Prim2SF x) (Prim2SF y)) as [[| |]|] eqn:E; try discriminate.
    intros _. destruct (SFcompare_number _ _ E) as [-> ->]. split; reflexivity.
  - intros x y. rewrite !eqb_spec, leb_spec, ltb_spec. unfold SFeqb, SFleb, SFltb.
    intros Nx Ny. rewrite (SFcompare_antisym (Prim2SF x) (Prim2SF y)).
    destruct (SFcompare (Prim2SF x) (Prim2SF y)) as [[| |]|] eqn:E; try reflexivity.
    exfalso.
    destruct (Prim2SF x), (Prim2SF y); cbn in *; discriminate.
  - intros x y. rewrite eqb_spec, ltb_spec. unfold SFeqb, SFltb.
    destruct (SFcompare (Prim2SF x) (Prim2SF y)) as [[| |]|];
      (reflexivity || discriminate).
Qed.

End Binary64Order.

(* ================================================================== *)
(** * The cost model *)
(* ================================================================== *)

(** C3, as the code has it.  In exact arithmetic, for every trade size and
    parameter set: [total_fees] is
    [2*clob_fee + gas_cost/trade_size + 2*swap_spread + buffer_bps/10000],
    with a gas term of 0 when the trade size is at most 0; the fees
    [compute_edge] takes off the raw edge are
    [2*clob_fee + gas_usd/trade_size + swap_spread + buffer_bps/10000], the
    swap spread once, with the same gas term of 0 for a trade size at most 0. *)
Theorem fee_fraction_of_the_cost_models
    (size : Q) (p : Crypto5m.params (F := Q)) (buy_yes buy_no clob gas swap buf : Q) :
  let fees := Crypto5m.total_fees size p in
  let edges := PolymarketGPT.compute_edge buy_yes buy_no clob gas swap buf size in
  (0 < size ->
     fees == 2 * Crypto5m.clob_fee_pct p + Crypto5m.gas_merge_usd p / size
             + 2 * Crypto5m.swap_spread_pct p + Crypto5m.buffer_bps p / 10000 /\
     fst edges - snd edges == 2 * clob + gas / size + swap + buf / 10000) /\
  (size <= 0 ->
     fees == 2 * Crypto5m.clob_fee_pct p + 0
             + 2 * Crypto5m.swap_spread_pct p + Crypto5m.buffer_bps p / 10000 /\
     fst edges - snd edges == 2 * clob + 0 + swap + buf / 10000).
Proof.
  cbv zeta. unfold Crypto5m.total_fees, PolymarketGPT.compute_edge. cbn.
  split; intros Hs; qcase; try (exfalso; lra); split; field_simplify_eq; lra || ring.
Qed.

Lemma fee_fraction_of_the_cost_models_witness :
  (Crypto5m.total_fees 1000 Crypto5m.DEFAULT_PARAMS
   == 2 * 0.00075 + 0.50 / 1000 + 2 * 0.0002 + 10 / 10000 /\
   fst (PolymarketGPT.compute_edge 0.48 0.49 0.00075 0.5 0.0002 10 1000)
   - snd (PolymarketGPT.compute_edge 0.48 0.49 0.00075 0.5 0.0002 10 1000)
   == 2 * 0.00075 + 0.5 / 1000 + 0.0002 + 10 / 10000) /\
  (Crypto5m.total_fees 0 Crypto5m.DEFAULT_PARAMS
   == 2 * 0.00075 + 0 + 2 * 0.0002 + 10 / 10000 /\
   fst (PolymarketGPT.compute_edge 0.48 0.49 0.00075 0.5 0.0002 10 0)
   - snd (PolymarketGPT.compute_edge 0.48 0.49 0.00075 0.5 0.0002 10 0)
   == 2 * 0.00075 + 0 + 0.0002 + 10 / 10000).
Proof.
  split.
  - refine (proj1 (fee_fraction_of_the_cost_models 1000 Crypto5m.DEFAULT_PARAMS
                     0.48 0.49 0.00075 0.5 0.0002 10) _).
    reflexivity.
  - refine (proj2 (fee_fraction_of_the_cost_models 0 Crypto5m.DEFAULT_PARAMS
                     0.48 0.49 0.00075 0.5 0.0002 10) _).
    discriminate.
Defined.

(** C3 fails as stated for [compute_edge]: at clob fee 0.00075, gas 0.50,
    swap spread 0.0002, buffer 10 bps and trade size 1000 it takes 0.0032 off
    the raw edge, where the formula with the swap spread doubled gives
    0.0034. *)
Lemma compute_edge_charges_swap_once :
  fst (PolymarketGPT.compute_edge 0.48 0.49 0.00075 0.5 0.0002 10 1000)
  - snd (PolymarketGPT.compute_edge 0.48 0.49 0.00075 0.5 0.0002 10 1000)
  == 0.0032 /\
  2 * 0.00075 + 0.5 / 1000 + 2 * 0.0002 + 10 / 10000 == 0.0034 /\
  ~ 0.0032 == 0.0034.
Proof. repeat split; vm_compute; congruence. Qed.

(* ================================================================== *)
(** * The arbitrage detector *)
(* ================================================================== *)

Import Binary64.
Import Binary64Order.

(** Books whose best asks are 0.48 (YES) and 0.49 (NO). *)
Definition yes_book_048 {F : Type} `{PyFloat F} : pyval F :=
  Examples.book [Examples.order "0.52" "40"; Examples.order "0.48" "25"]
                [Examples.order "0.45" "30"].

Definition no_book_049 {F : Type} `{PyFloat F} : pyval F :=
  Examples.book [Examples.order "0.49" "60"; Examples.order "0.55" "10"]
                [Examples.order "0.47" "20"].

(** Trade sizes from 500 to 1500, whose midpoint is 1000. *)
Definition around_1000 {F : Type} `{PyFloat F} : Crypto5m.params :=
  Examples.tuned (lit 500) (lit 1500) (lit 0.3).

(** [|x - y| < eps] on doubles. *)
Definition close_to (x y eps : float) : bool :=
  PrimFloat.ltb (PrimFloat.abs (PrimFloat.sub x y)) eps.

(** C2, as the code has it.  With YES best ask 0.48, NO best ask 0.49, the
    default fee parameters (clob 0.00075, gas 0.50, swap 0.0002, buffer
    10 bps) and trade size 1000, the total fee fraction is
    [0.0015 + 0.0005 + 0.0004 + 0.001 = 0.0034] and the net edge is
    [0.03 - 0.0034 = 0.0266] (exactly so on the rationals, to within 1e-15 on
    doubles), and with [arb_threshold_bps = 20] the detector emits the
    opportunity, under both readings of the arithmetic. *)
Theorem arb_scenario_048_049 :
  Crypto5m.total_fees (F := Q) 1000 Crypto5m.DEFAULT_PARAMS == 0.0034 /\
  fst (Crypto5m.compute_arb_edge (F := Q) 0.48 0.49 1000 Crypto5m.DEFAULT_PARAMS) == 0.03 /\
  snd (Crypto5m.compute_arb_edge (F := Q) 0.48 0.49 1000 Crypto5m.DEFAULT_PARAMS) == 0.0266 /\
  (exists o,
     Crypto5m.check_arb_strategy (F := Q) Crypto5m.BTC yes_book_048 no_book_049 around_1000
     = Ok (Some o) /\
     Crypto5m.arb_yes_price o == 0.48 /\ Crypto5m.arb_no_price o == 0.49 /\
     Crypto5m.arb_net_edge o == 0.0266 /\
     Crypto5m.arb_threshold_bps (around_1000 (F := Q)) == 20) /\
  close_to (Crypto5m.total_fees (F := float) (lit 1000) Crypto5m.DEFAULT_PARAMS)
    (lit 0.0034) (lit 1e-15)
  = true /\
  close_to
    (snd (Crypto5m.compute_arb_edge (F := float) (lit 0.48) (lit 0.49) (lit 1000)
            Crypto5m.DEFAULT_PARAMS))
    (lit 0.0266) (lit 1e-15) = true /\
  (exists o,
     Crypto5m.check_arb_strategy (F := float) Crypto5m.BTC yes_book_048 no_book_049 around_1000
     = Ok (Some o) /\
     close_to (Crypto5m.arb_net_edge o) (lit 0.0266) (lit 1e-15) = true).
Proof.
  split; [vm_compute; reflexivity|].
  split; [vm_compute; reflexivity|].
  split; [vm_compute; reflexivity|].
  split.
  { eexists. split; [vm_compute; reflexivity|].
    repeat split; vm_compute; reflexivity. }
  split; [vm_compute; reflexivity|].
  split; [vm_compute; reflexivity|].
  eexists. split; [vm_compute; reflexivity|]. vm_compute; reflexivity.
Qed.

(** C2 fails as stated: the fee fraction of the scenario is 0.0034 and its
    net edge 0.0266; they are 0.00095 away from the 0.00245 and 0.02755 of
    the claim, on the rationals and on doubles alike. *)
Lemma scenario_fees_are_not_000245 :
  Crypto5m.total_fees (F := Q) 1000 Crypto5m.DEFAULT_PARAMS - 0.00245 == 0.00095 /\
  0.02755 - snd (Crypto5m.compute_arb_edge (F := Q) 0.48 0.49 1000 Crypto5m.DEFAULT_PARAMS)
  == 0.00095 /\
  close_to (Crypto5m.total_fees (F := float) (lit 1000) Crypto5m.DEFAULT_PARAMS)
    (lit 0.00245) (lit 0.0009)
  = false /\
  close_to
    (snd (Crypto5m.compute_arb_edge (F := float) (lit 0.48) (lit 0.49) (lit 1000)
            Crypto5m.DEFAULT_PARAMS))
    (lit 0.02755) (lit 0.0009) = false.
Proof. repeat split; vm_compute; reflexivity. Qed.

(** ** The threshold test *)

(** The parameters [p] with another arbitrage threshold. *)
Definition with_arb_threshold_bps {F : Type} `{PyFloat F}
    (bps : F) (p : Crypto5m.params) : Crypto5m.params :=
  {| Crypto5m.clob_fee_pct := Crypto5m.clob_fee_pct p;
     Crypto5m.gas_merge_usd := Crypto5m.gas_merge_usd p;
     Crypto5m.swap_spread_pct := Crypto5m.swap_spread_pct p;
     Crypto5m.buffer_bps := Crypto5m.buffer_bps p;
     Crypto5m.arb_threshold_bps := bps;
     Crypto5m.snipe_threshold := Crypto5m.snipe_threshold p;
     Crypto5m.mispriced_ratio := Crypto5m.mispriced_ratio p;
     Crypto5m.mispriced_min_size := Crypto5m.mispriced_min_size p;
     Crypto5m.min_trade_usd := Crypto5m.min_trade_usd p;
     Crypto5m.max_trade_usd := Crypto5m.max_trade_usd p;
     Crypto5m.slippage_pct := Crypto5m.slippage_pct p;
     Crypto5m.refresh_interval := Crypto5m.refresh_interval p;
     Crypto5m.last_15s_window := Crypto5m.last_15s_window p |}.

(** A book with a single ask. *)
Definition book_asking {F : Type} `{PyFloat F} (price : string) : pyval F :=
  Examples.book [Examples.order price "100"] [].

Section ArbThreshold.
Context {F : Type} `{PyFloat F} {FO : PyFloatOrder F}.
Local Open Scope py_scope.

(** C6.  Whatever the arithmetic (exact, or binary64 with its rounding), for
    books whose best asks are both positive: the net edge is
    [1.0 - (yes_ask + no_ask)] minus the fees
    [2 clob + gas / size + 2 swap + buffer_bps / 10000] at the midpoint
    [size] of the configured trade sizes, each operation being the
    arithmetic's own; when it and the threshold [arb_threshold_bps / 10000]
    are numbers, the detector emits an opportunity if and only if
    [net_edge >= threshold]; the opportunity carries the asks, their sum, the
    raw and the net edge; at [net_edge == threshold] it is emitted, and below
    the threshold nothing is. *)
Theorem arb_emitted_iff_net_edge_reaches_threshold
    (crypto : Crypto5m.symbol) (yes_ob no_ob : pyval F) (p : Crypto5m.params)
    (yes_ask no_ask : F) :
  Crypto5m.best_ask_price yes_ob = Ok (Some yes_ask) ->
  Crypto5m.best_ask_price no_ob = Ok (Some no_ask) ->
  (yes_ask >? $0) = true -> (no_ask >? $0) = true ->
  let trade_size := (Crypto5m.min_trade_usd p + Crypto5m.max_trade_usd p) / $2 in
  let fees := Crypto5m.clob_fee_pct p * $2
              + (if trade_size >? $0 then Crypto5m.gas_merge_usd p / trade_size else $0)
              + Crypto5m.swap_spread_pct p * $2
              + Crypto5m.buffer_bps p / $10000 in
  let raw_edge := $1.0 - (yes_ask + no_ask) in
  let net_edge := raw_edge - fees in
  let threshold := Crypto5m.arb_threshold_bps p / $10000 in
  let emitted :=
    Ok (Some {| Crypto5m.arb_crypto := crypto;
                Crypto5m.arb_yes_price := yes_ask;
                Crypto5m.arb_no_price := no_ask;
                Crypto5m.arb_total := yes_ask + no_ask;
                Crypto5m.arb_raw_edge := raw_edge;
                Crypto5m.arb_net_edge := net_edge |}) in
  is_number net_edge -> is_number threshold ->
  ((exists o, Crypto5m.check_arb_strategy crypto yes_ob no_ob p = Ok (Some o))
   <-> (net_edge >=? threshold) = true) /\
  ((net_edge >=? threshold) = true ->
   Crypto5m.check_arb_strategy crypto yes_ob no_ob p = emitted) /\
  ((net_edge == threshold) = true ->
   Crypto5m.check_arb_strategy crypto yes_ob no_ob p = emitted) /\
  ((net_edge <? threshold) = true ->
   Crypto5m.check_arb_strategy crypto yes_ob no_ob p = Ok None).
Proof.
  intros Hy Hn Py Pn trade_size fees raw_edge net_edge threshold emitted Nn Nt.
  assert (Ey : (yes_ask <=? $0) = false).
  { destruct (fltb_numbers _ _ Py) as [N0 Ny].
    rewrite (fleb_fltb _ _ Ny N0), Py. reflexivity. }
  assert (En : (no_ask <=? $0) = false).
  { destruct (fltb_numbers _ _ Pn) as [N0 Nn'].
    rewrite (fleb_fltb _ _ Nn' N0), Pn. reflexivity. }
  assert (E : Crypto5m.check_arb_strategy crypto yes_ob no_ob p
              = if net_edge <? threshold then Ok None else emitted).
  { unfold Crypto5m.check_arb_strategy, Crypto5m.effective_buy_price.
    rewrite Hy, Hn. cbn [bind]. rewrite Ey, En. cbn [orb].
    reflexivity. }
  rewrite E, (fleb_fltb _ _ Nt Nn).
  destruct (net_edge <? threshold) eqn:L; cbn [negb].
  - split; [|split; [|split]].
    + split; [intros [o Ho]; discriminate Ho | discriminate].
    + discriminate.
    + intros Eq. rewrite (fltb_feqb _ _ Eq) in L. discriminate L.
    + reflexivity.
  - split; [|split; [|split]].
    + split; [reflexivity | intros _; eexists; reflexivity].
    + reflexivity.
    + reflexivity.
    + discriminate.
Qed.

End ArbThreshold.

(** The boundary on doubles: with asks 0.48 and 0.4958, trade sizes from 500
    to 1500 and a threshold of 208 bps, the net edge the code computes is the
    double [208 / 10000] itself, and the opportunity is emitted. *)
Lemma arb_emitted_iff_net_edge_reaches_threshold_witness :
  exists o,
    Crypto5m.check_arb_strategy (F := float) Crypto5m.BTC
      (book_asking "0.48") (book_asking "0.4958")
      (with_arb_threshold_bps (lit 208) around_1000) = Ok (Some o) /\
    Crypto5m.arb_yes_price o = lit 0.48 /\
    Crypto5m.arb_no_price o = lit 0.4958 /\
    PrimFloat.eqb (Crypto5m.arb_net_edge o) (PrimFloat.div (lit 208) (lit 10000)) = true.
Proof.
  eexists. split.
  - refine (proj1 (proj2 (proj2
              (@arb_emitted_iff_net_edge_reaches_threshold float Float64 Float64Order
                 Crypto5m.BTC (book_asking "0.48") (book_asking "0.4958")
                 (with_arb_threshold_bps (lit 208) around_1000)
                 (lit 0.48) (lit 0.4958) _ _ _ _ _ _))) _);
      vm_compute; reflexivity.
  - split; [reflexivity|]. split; [reflexivity|]. vm_compute. reflexivity.
Defined.

(** The same threshold test next to a rounding: with asks 0.49 and 0.5046
    and the default 20 bps the net edge is [0.002] in exact arithmetic, where
    the opportunity is emitted, and [0.00199999999999996] as the doubles
    compute it, which is below the double [20 / 10000]: there the code emits
    nothing, as the theorem says of the edge it computes. *)
Example arb_edge_rounded_below_the_threshold :
  snd (Crypto5m.compute_arb_edge (F := Q) 0.49 0.5046 1000 around_1000) == 20 / 10000 /\
  (exists o,
     Crypto5m.check_arb_strategy (F := Q) Crypto5m.BTC
       (book_asking "0.49") (book_asking "0.5046") around_1000 = Ok (Some o)) /\
  PrimFloat.ltb
    (snd (Crypto5m.compute_arb_edge (F := float) (lit 0.49) (lit 0.5046) (lit 1000)
            around_1000))
    (PrimFloat.div (lit 20) (lit 10000)) = true /\
  Crypto5m.check_arb_strategy (F := float) Crypto5m.BTC
    (book_asking "0.49") (book_asking "0.5046") around_1000 = Ok None.
Proof.
  split; [vm_compute; reflexivity|].
  split; [eexists; vm_compute; reflexivity|].
  split; vm_compute; reflexivity.
Qed.

(* ================================================================== *)
(** * The snipe detector *)
(* ================================================================== *)

Section Accessors.
Context {F : Type} `{PyFloat F}.

(** An accessor of crypto5m_bot that answers at all has been given [None] or
    a dictionary, and on a dictionary both accessors answer. *)
Lemma best_ask_price_some_dict (ob : pyval F) (a : F) :
  Crypto5m.best_ask_price ob = Ok (Some a) -> exists d, ob = PDict d.
Proof.
  unfold Crypto5m.best_ask_price.
  destruct ob as [ | b | x | s | l | d]; cbn.
  - discriminate.
  - destruct b; discriminate.
  - destruct (negb _); discriminate.
  - destruct (negb _); discriminate.
  - destruct l; discriminate.
  - intros _. now exists d.
Qed.

Lemma best_ask_price_dict (d : list (string * pyval F)) :
  exists r, Crypto5m.best_ask_price (PDict d) = Ok r.
Proof.
  unfold Crypto5m.best_ask_price.
  destruct (negb (truthy (PDict d))); [now eexists|].
  cbn [py_get bind].
  destruct (negb (truthy _)); now eexists.
Qed.

Lemma best_bid_price_dict (d : list (string * pyval F)) :
  exists r, Crypto5m.best_bid_price (PDict d) = Ok r.
Proof.
  unfold Crypto5m.best_bid_price.
  destruct (negb (truthy (PDict d))); [now eexists|].
  cbn [py_get bind].
  destruct (negb (truthy _)); now eexists.
Qed.

End Accessors.

(** The parameters [p] with another snipe threshold. *)
Definition with_snipe_threshold {F : Type} `{PyFloat F}
    (threshold : F) (p : Crypto5m.params) : Crypto5m.params :=
  {| Crypto5m.clob_fee_pct := Crypto5m.clob_fee_pct p;
     Crypto5m.gas_merge_usd := Crypto5m.gas_merge_usd p;
     Crypto5m.swap_spread_pct := Crypto5m.swap_spread_pct p;
     Crypto5m.buffer_bps := Crypto5m.buffer_bps p;
     Crypto5m.arb_threshold_bps := Crypto5m.arb_threshold_bps p;
     Crypto5m.snipe_threshold := threshold;
     Crypto5m.mispriced_ratio := Crypto5m.mispriced_ratio p;
     Crypto5m.mispriced_min_size := Crypto5m.mispriced_min_size p;
     Crypto5m.min_trade_usd := Crypto5m.min_trade_usd p;
     Crypto5m.max_trade_usd := Crypto5m.max_trade_usd p;
     Crypto5m.slippage_pct := Crypto5m.slippage_pct p;
     Crypto5m.refresh_interval := Crypto5m.refresh_interval p;
     Crypto5m.last_15s_window := Crypto5m.last_15s_window p |}.

Section Snipe.
Context {F : Type} `{PyFloat F}.
Local Open Scope py_scope.

(** The single-leg fees of the snipe detector,
    [clob + gas / max_trade + swap + buffer_bps / 10000], and what the
    detector asks of a side: an ask that is there and positive, whose edge
    [1.0 - ask - fees] reaches the snipe threshold; every operation and
    comparison is the arithmetic's own. *)
Definition snipe_fees (p : Crypto5m.params) : F :=
  Crypto5m.clob_fee_pct p + Crypto5m.gas_merge_usd p / Crypto5m.max_trade_usd p
  + Crypto5m.swap_spread_pct p + Crypto5m.buffer_bps p / $10000.

Definition clears (p : Crypto5m.params) (a : F) : Prop :=
  (a >? $0) = true /\ ($1.0 - a - snipe_fees p >=? Crypto5m.snipe_threshold p) = true.

Definition side_clears (p : Crypto5m.params) (ask : option F) : Prop :=
  exists a, ask = Some a /\ clears p a.

Definition is_snipe (opp : Crypto5m.opportunity (F := F)) : bool :=
  match opp with
  | Crypto5m.OppSnipe _ => true
  | _ => false
  end.

Lemma side_candidate_spec (tok : Crypto5m.token) (ask : option F) (p : Crypto5m.params) :
  (side_clears p ask /\
   exists a, ask = Some a /\
     Crypto5m.side_candidate tok ask (snipe_fees p) p
     = [{| Crypto5m.c_token := tok; Crypto5m.c_price := a;
           Crypto5m.c_edge := $1.0 - a - snipe_fees p; Crypto5m.c_confidence := a |}])
  \/ (~ side_clears p ask /\ Crypto5m.side_candidate tok ask (snipe_fees p) p = []).
Proof.
  unfold Crypto5m.side_candidate, side_clears, clears.
  destruct ask as [a|].
  - destruct (a >? $0) eqn:E1.
    + destruct ($1.0 - a - snipe_fees p >=? Crypto5m.snipe_threshold p) eqn:E2.
      * left. split; [exists a; split; [reflexivity | split; [exact E1 | exact E2]]|].
        exists a. split; reflexivity.
      * right. split; [|reflexivity].
        intros (a' & Ha & _ & L). injection Ha as <-. rewrite E2 in L. discriminate L.
    + right. split; [|reflexivity].
      intros (a' & Ha & L & _). injection Ha as <-. rewrite E1 in L. discriminate L.
  - right. split; [|reflexivity]. intros (a' & Ha & _). discriminate Ha.
Qed.

Lemma bindM_ok {A B : Type}
    (m : Crypto5m.M (F := F) A) (k : A -> Crypto5m.M (F := F) B)
    (st st1 : Crypto5m.session (F := F)) (a : A) :
  m st = (Ok a, st1) -> Crypto5m.bindM m k st = k a st1.
Proof. intros E. unfold Crypto5m.bindM. now rewrite E. Qed.

Lemma bindM_raise {A B : Type}
    (m : Crypto5m.M (F := F) A) (k : A -> Crypto5m.M (F := F) B)
    (st st1 : Crypto5m.session (F := F)) (e : exn) :
  m st = (Raise e, st1) -> Crypto5m.bindM m k st = (Raise e, st1).
Proof. intros E. unfold Crypto5m.bindM. now rewrite E. Qed.

Lemma foldM_mispriced (mispx : list (Crypto5m.mispriced_opp (F := F)))
    (all_opps : list (Crypto5m.opportunity (F := F))) (st : Crypto5m.session (F := F)) :
  exists st',
    Crypto5m.foldM
      (fun all_opps m =>
         Crypto5m.bindM (Crypto5m.count_opp Crypto5m.StratMispriced)
           (fun _ => Crypto5m.ret (all_opps ++ [Crypto5m.OppMispriced m])))
      mispx all_opps st
    = (Ok (all_opps ++ map (fun m => Crypto5m.OppMispriced m) mispx), st').
Proof.
  revert all_opps st. induction mispx as [|m ms IH]; intros all_opps st.
  - exists st. cbn. unfold Crypto5m.ret. now rewrite app_nil_r.
  - cbn [Crypto5m.foldM map].
    erewrite bindM_ok; [|reflexivity].
    edestruct IH as [st' E]. exists st'. rewrite E. now rewrite <- app_assoc.
Qed.

Lemma no_snipe_among_mispriced (ms : list (Crypto5m.mispriced_opp (F := F))) :
  filter is_snipe (map (fun m => Crypto5m.OppMispriced m) ms) = [].
Proof. induction ms; cbn; auto. Qed.

(** What one pass of the scan over a symbol adds holds at most one snipe. *)
Lemma scan_symbol_one_snipe (time_left : F) (p : Crypto5m.params (F := F))
    (all_opps : list (Crypto5m.opportunity (F := F))) (sym : Crypto5m.symbol)
    (st st' : Crypto5m.session (F := F)) (all_opps' : list (Crypto5m.opportunity (F := F))) :
  Crypto5m.scan_symbol time_left p all_opps sym st = (Ok all_opps', st') ->
  exists added,
    all_opps' = all_opps ++ added /\ (List.length (filter is_snipe added) <= 1)%nat.
Proof.
  unfold Crypto5m.scan_symbol.
  unfold Crypto5m.bindM at 1. unfold Crypto5m.gets at 1.
  set (yes_ob := match Crypto5m.sym_get sym (Crypto5m.orderbooks st) with
                 | Some b => Crypto5m.ob_yes b | None => PNone end).
  set (no_ob := match Crypto5m.sym_get sym (Crypto5m.orderbooks st) with
                | Some b => Crypto5m.ob_no b | None => PNone end).
  destruct (negb (truthy yes_ob) && negb (truthy no_ob)).
  { unfold Crypto5m.ret. intros E. injection E as <- <-.
    exists []. split; [now rewrite app_nil_r | cbn; lia]. }
  unfold Crypto5m.bindM at 1. unfold Crypto5m.lift at 1.
  destruct (Crypto5m.check_arb_strategy sym yes_ob no_ob p) as [arb|e]; [|discriminate].
  set (after_arb := match arb with Some a => [Crypto5m.OppArb a] | None => [] end).
  assert (Harb : exists st1,
             (match arb with
              | Some a => Crypto5m.bindM (Crypto5m.count_opp Crypto5m.StratArb)
                            (fun _ => Crypto5m.ret (all_opps ++ [Crypto5m.OppArb a]))
              | None => Crypto5m.ret all_opps
              end) st = (Ok (all_opps ++ after_arb), st1)).
  { destruct arb; cbn; eexists; unfold Crypto5m.ret, after_arb;
      rewrite ?app_nil_r; reflexivity. }
  destruct Harb as [st1 Harb].
  unfold Crypto5m.bindM at 1. rewrite Harb.
  unfold Crypto5m.bindM at 1. unfold Crypto5m.lift at 1.
  destruct (Crypto5m.check_snipe_strategy sym yes_ob no_ob time_left p) as [snipe|e];
    [|discriminate].
  set (after_snipe := match snipe with Some s => [Crypto5m.OppSnipe s] | None => [] end).
  assert (Hsn : exists st2,
             (match snipe with
              | Some s => Crypto5m.bindM (Crypto5m.count_opp Crypto5m.StratSnipe)
                            (fun _ => Crypto5m.ret ((all_opps ++ after_arb)
                                                    ++ [Crypto5m.OppSnipe s]))
              | None => Crypto5m.ret (all_opps ++ after_arb)
              end) st1 = (Ok ((all_opps ++ after_arb) ++ after_snipe), st2)).
  { destruct snipe; cbn; eexists; unfold Crypto5m.ret, after_snipe;
      rewrite ?app_nil_r; reflexivity. }
  destruct Hsn as [st2 Hsn].
  unfold Crypto5m.bindM at 1. rewrite Hsn.
  unfold Crypto5m.bindM at 1. unfold Crypto5m.lift at 1.
  destruct (Crypto5m.check_mispriced_strategy sym yes_ob no_ob p) as [mispx|e];
    [|discriminate].
  destruct (foldM_mispriced mispx ((all_opps ++ after_arb) ++ after_snipe) st2) as [st3 E3].
  rewrite E3. intros E. injection E as <- <-.
  exists (after_arb ++ after_snipe ++ map (fun m => Crypto5m.OppMispriced m) mispx).
  split; [now rewrite !app_assoc|].
  rewrite !filter_app, no_snipe_among_mispriced, app_nil_r, length_app.
  destruct arb, snipe; cbn; lia.
Qed.

Context {FO : PyFloatOrder F}.

Lemma fltb_asym (x y : F) : (x <? y) = true -> (y <? x) = false.
Proof.
  intros L. destruct (y <? x) eqn:G; [|reflexivity].
  rewrite <- (fltb_irrefl x). symmetry. exact (fltb_trans _ _ _ L G).
Qed.

(** Inside the window: the answer of the detector, from the asks of the two
    sides. *)
Lemma snipe_inside_window
    (crypto : Crypto5m.symbol) (yes_ob no_ob : pyval F) (time_left : F)
    (p : Crypto5m.params) (yes_ask no_ask : option F) :
  Crypto5m.best_ask_price yes_ob = Ok yes_ask ->
  Crypto5m.best_ask_price no_ob = Ok no_ask ->
  (time_left >? Crypto5m.last_15s_window p) = false ->
  (Crypto5m.max_trade_usd p == $0) = false ->
  exists r,
    Crypto5m.check_snipe_strategy crypto yes_ob no_ob time_left p = Ok r /\
    (r = None <-> ~ side_clears p yes_ask /\ ~ side_clears p no_ask) /\
    (forall o, r = Some o ->
       (Crypto5m.snipe_token o = Crypto5m.YES /\ yes_ask = Some (Crypto5m.snipe_price o) \/
        Crypto5m.snipe_token o = Crypto5m.NO /\ no_ask = Some (Crypto5m.snipe_price o)) /\
       clears p (Crypto5m.snipe_price o) /\
       Crypto5m.snipe_edge o = $1.0 - Crypto5m.snipe_price o - snipe_fees p /\
       Crypto5m.snipe_crypto o = crypto /\
       Crypto5m.snipe_time_left o = time_left /\
       (forall a, yes_ask = Some a \/ no_ask = Some a -> clears p a ->
          (a >? Crypto5m.snipe_price o) = false) /\
       (Crypto5m.snipe_token o = Crypto5m.NO ->
        forall a, yes_ask = Some a -> clears p a ->
          (Crypto5m.snipe_price o >? a) = true)).
Proof.
  intros Hy Hn Hw Hmax.
  unfold Crypto5m.check_snipe_strategy.
  rewrite Hw.
  unfold Crypto5m.effective_buy_price. rewrite Hy, Hn. cbn [bind].
  unfold pydiv. rewrite Hmax. cbn [bind].
  change (Crypto5m.clob_fee_pct p + Crypto5m.gas_merge_usd p / Crypto5m.max_trade_usd p
          + Crypto5m.swap_spread_pct p + Crypto5m.buffer_bps p / $10000)
    with (snipe_fees p).
  destruct (side_candidate_spec Crypto5m.YES yes_ask p)
    as [[Cy (ay & Ey & Sy)] | [Ny Sy]]; rewrite Sy;
    destruct (side_candidate_spec Crypto5m.NO no_ask p)
      as [[Cn (an & En & Sn)] | [Nn Sn]]; rewrite Sn; cbn [app].
  - (* both sides clear *)
    subst yes_ask no_ask.
    destruct (best_ask_price_some_dict _ Hy) as [d ->].
    destruct (best_bid_price_dict d) as [b Hb]. rewrite Hb. cbn [bind max_by fold_left].
    destruct Cy as (? & Ey & Cy); injection Ey as <-.
    destruct Cn as (? & En & Cn); injection En as <-.
    cbn [Crypto5m.c_confidence].
    destruct (an >? ay) eqn:E; eexists; (split; [reflexivity|]);
      (split; [split; [discriminate | intros [N _]; exfalso; apply N; exists ay; auto]|]);
      intros o Ho; injection Ho as <-; cbn.
    + split; [right; auto|]. split; [exact Cn|]. do 3 (split; [reflexivity|]).
      split.
      * intros a [Ha|Ha] _; injection Ha as <-;
          [exact (fltb_asym _ _ E) | apply fltb_irrefl].
      * intros _ a Ha _. injection Ha as <-. exact E.
    + split; [left; auto|]. split; [exact Cy|]. do 3 (split; [reflexivity|]).
      split.
      * intros a [Ha|Ha] _; injection Ha as <-; [apply fltb_irrefl | exact E].
      * discriminate.
  - (* only YES clears *)
    subst yes_ask.
    destruct (best_ask_price_some_dict _ Hy) as [d ->].
    destruct (best_bid_price_dict d) as [b Hb]. rewrite Hb. cbn [bind max_by fold_left].
    destruct Cy as (? & Ey & Cy); injection Ey as <-.
    eexists; split; [reflexivity|].
    split; [split; [discriminate | intros [N _]; exfalso; apply N; exists ay; auto]|].
    intros o Ho; injection Ho as <-; cbn.
    split; [left; auto|]. split; [exact Cy|]. do 3 (split; [reflexivity|]).
    split.
    + intros a [Ha|Ha] Ca.
      * injection Ha as <-. apply fltb_irrefl.
      * exfalso. apply Nn. exists a. auto.
    + discriminate.
  - (* only NO clears *)
    subst no_ask. cbn [bind max_by fold_left].
    destruct Cn as (? & En & Cn); injection En as <-.
    eexists; split; [reflexivity|].
    split; [split; [discriminate | intros [_ N]; exfalso; apply N; exists an; auto]|].
    intros o Ho; injection Ho as <-; cbn.
    split; [right; auto|]. split; [exact Cn|]. do 3 (split; [reflexivity|]).
    split.
    + intros a [Ha|Ha] Ca.
      * exfalso. apply Ny. exists a. auto.
      * injection Ha as <-. apply fltb_irrefl.
    + intros _ a Ha Ca. exfalso. apply Ny. exists a. auto.
  - (* neither clears *)
    cbn [bind]. eexists; split; [reflexivity|].
    split; [split; auto|]. intros o Ho; discriminate Ho.
Qed.

End Snipe.

(** Books for the snipe: YES asked at 0.90, NO asked at 0.80. *)
Definition yes_book_090 {F : Type} `{PyFloat F} : pyval F :=
  Examples.book [Examples.order "0.90" "40"; Examples.order "0.93" "25"] [].

Definition no_book_080 {F : Type} `{PyFloat F} : pyval F :=
  Examples.book [Examples.order "0.85" "60"; Examples.order "0.80" "10"] [].

(** C7.  Whatever the arithmetic (exact, or binary64 with its rounding): the
    snipe detector emits nothing when
    [time_remaining > snipe_window_seconds].  When that test fails and the
    maximal trade size, which the fees divide by, is not zero, it answers at
    most one opportunity: none exactly when no side has an ask that is
    positive and whose edge [1.0 - ask - fees], as computed, reaches the
    snipe threshold; otherwise a side that does, such that no side that does
    has a higher ask (YES when the asks are equal).  One pass of the scan
    over a symbol adds at most one snipe to the opportunities.  The highest
    ask is not the highest edge: with YES asked at 0.90 and NO at 0.80, 10
    seconds before the close and by default parameters, both sides clear and
    the detector takes YES at 0.90, whose edge 0.0978 is below the 0.1978 of
    NO; on rationals and on doubles alike. *)
Theorem snipe_window_and_highest_ask :
  (forall (F : Type) (H : PyFloat F) (FO : PyFloatOrder F),
     (forall (crypto : Crypto5m.symbol) (yes_ob no_ob : pyval F) (time_left : F)
             (p : Crypto5m.params),
        fltb (Crypto5m.last_15s_window p) time_left = true ->
        Crypto5m.check_snipe_strategy crypto yes_ob no_ob time_left p = Ok None) /\
     (forall (crypto : Crypto5m.symbol) (yes_ob no_ob : pyval F) (time_left : F)
             (p : Crypto5m.params) (yes_ask no_ask : option F),
        Crypto5m.best_ask_price yes_ob = Ok yes_ask ->
        Crypto5m.best_ask_price no_ob = Ok no_ask ->
        fltb (Crypto5m.last_15s_window p) time_left = false ->
        feqb (Crypto5m.max_trade_usd p) (lit 0) = false ->
        exists r,
          Crypto5m.check_snipe_strategy crypto yes_ob no_ob time_left p = Ok r /\
          (r = None <-> ~ side_clears p yes_ask /\ ~ side_clears p no_ask) /\
          (forall o, r = Some o ->
             (Crypto5m.snipe_token o = Crypto5m.YES /\
              yes_ask = Some (Crypto5m.snipe_price o) \/
              Crypto5m.snipe_token o = Crypto5m.NO /\
              no_ask = Some (Crypto5m.snipe_price o)) /\
             clears p (Crypto5m.snipe_price o) /\
             Crypto5m.snipe_edge o
             = fsub (fsub (lit 1.0) (Crypto5m.snipe_price o)) (snipe_fees p) /\
             Crypto5m.snipe_crypto o = crypto /\
             Crypto5m.snipe_time_left o = time_left /\
             (forall a, yes_ask = Some a \/ no_ask = Some a -> clears p a ->
                fltb (Crypto5m.snipe_price o) a = false) /\
             (Crypto5m.snipe_token o = Crypto5m.NO ->
              forall a, yes_ask = Some a -> clears p a ->
                fltb a (Crypto5m.snipe_price o) = true))) /\
     (forall (time_left : F) (p : Crypto5m.params) (all_opps : list Crypto5m.opportunity)
             (sym : Crypto5m.symbol) (st st' : Crypto5m.session)
             (all_opps' : list Crypto5m.opportunity),
        Crypto5m.scan_symbol time_left p all_opps sym st = (Ok all_opps', st') ->
        exists added,
          all_opps' = all_opps ++ added /\
          (List.length (filter is_snipe added) <= 1)%nat)) /\
  (exists o,
     Crypto5m.check_snipe_strategy (F := Q) Crypto5m.BTC yes_book_090 no_book_080 10
       Crypto5m.DEFAULT_PARAMS = Ok (Some o) /\
     Crypto5m.snipe_token o = Crypto5m.YES /\
     Crypto5m.snipe_price o == 0.90 /\
     Crypto5m.snipe_edge o == 0.0978 /\
     1 - 0.80 - snipe_fees Crypto5m.DEFAULT_PARAMS == 0.1978 /\
     clears (F := Q) Crypto5m.DEFAULT_PARAMS 0.80) /\
  (exists o,
     Crypto5m.check_snipe_strategy (F := float) Crypto5m.BTC yes_book_090 no_book_080
       (lit 10) Crypto5m.DEFAULT_PARAMS = Ok (Some o) /\
     Crypto5m.snipe_token o = Crypto5m.YES /\
     Crypto5m.snipe_price o = lit 0.90 /\
     close_to (Crypto5m.snipe_edge o) (lit 0.0978) (lit 1e-15) = true /\
     PrimFloat.ltb (Crypto5m.snipe_edge o)
       (PrimFloat.sub (PrimFloat.sub (lit 1.0) (lit 0.80))
          (snipe_fees Crypto5m.DEFAULT_PARAMS)) = true /\
     clears (F := float) Crypto5m.DEFAULT_PARAMS (lit 0.80)).
Proof.
  split; [|split].
  - intros F H FO. split; [|split].
    + intros crypto yes_ob no_ob time_left p Hw.
      unfold Crypto5m.check_snipe_strategy. now rewrite Hw.
    + intros crypto yes_ob no_ob time_left p yes_ask no_ask Hy Hn Hw Hmax.
      exact (snipe_inside_window crypto yes_ob no_ob time_left p Hy Hn Hw Hmax).
    + intros time_left p all_opps sym st st' all_opps' Hs.
      exact (scan_symbol_one_snipe time_left p all_opps sym st Hs).
  - eexists. split; [vm_compute; reflexivity|].
    split; [reflexivity|]. split; [reflexivity|]. split; [reflexivity|].
    split; [reflexivity|]. split; vm_compute; reflexivity.
  - eexists. split; [vm_compute; reflexivity|].
    split; [reflexivity|]. split; [vm_compute; reflexivity|].
    split; [vm_compute; reflexivity|]. split; [vm_compute; reflexivity|].
    split; vm_compute; reflexivity.
Qed.

(** On doubles, with a snipe threshold of 0.10: YES asked at 0.8978 and NO at
    0.85, 10 seconds before the close. *)
Lemma snipe_window_and_highest_ask_witness :
  Crypto5m.check_snipe_strategy (F := float) Crypto5m.BTC
    (book_asking "0.8978") (book_asking "0.85") (lit 20)
    (with_snipe_threshold (lit 0.10) Crypto5m.DEFAULT_PARAMS) = Ok None /\
  (exists r,
     Crypto5m.check_snipe_strategy (F := float) Crypto5m.BTC
       (book_asking "0.8978") (book_asking "0.85") (lit 10)
       (with_snipe_threshold (lit 0.10) Crypto5m.DEFAULT_PARAMS) = Ok r /\
     (r = None <->
      ~ side_clears (with_snipe_threshold (lit 0.10) Crypto5m.DEFAULT_PARAMS)
          (Some (lit 0.8978)) /\
      ~ side_clears (with_snipe_threshold (lit 0.10) Crypto5m.DEFAULT_PARAMS)
          (Some (lit 0.85))) /\
     (forall o, r = Some o ->
        (Crypto5m.snipe_token o = Crypto5m.YES /\
         Some (lit 0.8978) = Some (Crypto5m.snipe_price o) \/
         Crypto5m.snipe_token o = Crypto5m.NO /\
         Some (lit 0.85) = Some (Crypto5m.snipe_price o)) /\
        clears (with_snipe_threshold (lit 0.10) Crypto5m.DEFAULT_PARAMS)
          (Crypto5m.snipe_price o) /\
        Crypto5m.snipe_edge o
        = fsub (fsub (lit 1.0) (Crypto5m.snipe_price o))
            (snipe_fees (with_snipe_threshold (lit 0.10) Crypto5m.DEFAULT_PARAMS)) /\
        Crypto5m.snipe_crypto o = Crypto5m.BTC /\
        Crypto5m.snipe_time_left o = lit 10 /\
        (forall a, Some (lit 0.8978) = Some a \/ Some (lit 0.85) = Some a ->
           clears (with_snipe_threshold (lit 0.10) Crypto5m.DEFAULT_PARAMS) a ->
           fltb (Crypto5m.snipe_price o) a = false) /\
        (Crypto5m.snipe_token o = Crypto5m.NO ->
         forall a, Some (lit 0.8978) = Some a ->
           clears (with_snipe_threshold (lit 0.10) Crypto5m.DEFAULT_PARAMS) a ->
           fltb a (Crypto5m.snipe_price o) = true))).
Proof.
  split.
  - refine (proj1 (proj1 snipe_window_and_highest_ask float Float64 Float64Order)
              Crypto5m.BTC (book_asking "0.8978") (book_asking "0.85") (lit 20)
              (with_snipe_threshold (lit 0.10) Crypto5m.DEFAULT_PARAMS) _).
    vm_compute. reflexivity.
  - refine (proj1 (proj2 (proj1 snipe_window_and_highest_ask float Float64 Float64Order))
              Crypto5m.BTC (book_asking "0.8978") (book_asking "0.85") (lit 10)
              (with_snipe_threshold (lit 0.10) Crypto5m.DEFAULT_PARAMS)
              (Some (lit 0.8978)) (Some (lit 0.85)) _ _ _ _);
      vm_compute; reflexivity.
Defined.

(** The same selection next to a rounding.  With a snipe threshold of 0.10
    and the default fees, the edge of YES asked at 0.8978 is [0.1] in exact
    arithmetic, where YES clears and is taken for its higher ask; as the
    doubles compute it, it is [0.09999999999999996], below the double 0.10:
    there only NO, asked at 0.85, clears, and the code takes NO, as the
    theorem says of the edges it computes. *)
Example snipe_edge_rounded_below_the_threshold :
  1 - 0.8978 - snipe_fees (F := Q) Crypto5m.DEFAULT_PARAMS == 0.10 /\
  (exists o,
     Crypto5m.check_snipe_strategy (F := Q) Crypto5m.BTC
       (book_asking "0.8978") (book_asking "0.85") 10
       (with_snipe_threshold 0.10 Crypto5m.DEFAULT_PARAMS) = Ok (Some o) /\
     Crypto5m.snipe_token o = Crypto5m.YES /\ Crypto5m.snipe_price o == 0.8978) /\
  PrimFloat.ltb
    (PrimFloat.sub (PrimFloat.sub (lit 1.0) (lit 0.8978))
       (snipe_fees (F := float) Crypto5m.DEFAULT_PARAMS))
    (lit 0.10) = true /\
  (exists o,
     Crypto5m.check_snipe_strategy (F := float) Crypto5m.BTC
       (book_asking "0.8978") (book_asking "0.85") (lit 10)
       (with_snipe_threshold (lit 0.10) Crypto5m.DEFAULT_PARAMS) = Ok (Some o) /\
     Crypto5m.snipe_token o = Crypto5m.NO /\ Crypto5m.snipe_price o = lit 0.85).
Proof.
  split; [vm_compute; reflexivity|].
  split.
  { eexists. split; [vm_compute; reflexivity|]. split; reflexivity. }
  split; [vm_compute; reflexivity|].
  eexists. split; [vm_compute; reflexivity|]. split; vm_compute; reflexivity.
Qed.

(** In exact arithmetic the side taken, having the highest ask, has the
    lowest edge among the sides that clear. *)
Lemma snipe_takes_the_lowest_edge
    (crypto : Crypto5m.symbol) (yes_ob no_ob : pyval Q) (time_left : Q)
    (p : Crypto5m.params) (yes_ask no_ask : option Q) (o : Crypto5m.snipe_opp) :
  Crypto5m.best_ask_price yes_ob = Ok yes_ask ->
  Crypto5m.best_ask_price no_ob = Ok no_ask ->
  Crypto5m.check_snipe_strategy crypto yes_ob no_ob time_left p = Ok (Some o) ->
  time_left <= Crypto5m.last_15s_window p ->
  ~ Crypto5m.max_trade_usd p == 0 ->
  forall a, yes_ask = Some a \/ no_ask = Some a -> clears p a ->
    a <= Crypto5m.snipe_price o /\ Crypto5m.snipe_edge o <= 1 - a - snipe_fees p.
Proof.
  intros Hy Hn Ho Hw Hmax a Ha Ca.
  apply Qltb_false in Hw. apply Qeqb_false in Hmax.
  destruct (snipe_inside_window crypto yes_ob no_ob time_left p Hy Hn Hw Hmax)
    as (r & Hr & _ & Hsel).
  rewrite Hr in Ho. injection Ho as ->.
  destruct (Hsel o eq_refl) as (_ & _ & Ee & _ & _ & Hmaxask & _).
  specialize (Hmaxask a Ha Ca). cbn [fltb QFloat] in Hmaxask. qprops.
  split; [exact Hmaxask|]. rewrite Ee. cbn [fsub lit QFloat]. lra.
Qed.

(* ================================================================== *)
(** * Where the order-book accessors answer, and where they raise *)
(* ================================================================== *)

Section AccessorsTotal.
Context {F : Type} `{PyFloat F}.

(** An order book as [fetch_orderbook] hands it over: [None], or a
    dictionary in which ["asks"] and ["bids"], when present, are lists.  The
    orders in the lists are any values at all. *)
Definition listed (key : string) (d : list (string * pyval F)) : Prop :=
  forall v, lookup key d = Some v -> exists l, v = PList l.

Definition book_shaped (ob : pyval F) : Prop :=
  ob = PNone \/ exists d, ob = PDict d /\ listed "asks" d /\ listed "bids" d.

(** No order on one side: no book, no such key, or an empty list. *)
Definition no_orders (key : string) (ob : pyval F) : Prop :=
  ob = PNone \/
  exists d, ob = PDict d /\ (lookup key d = None \/ lookup key d = Some (PList [])).

(** A value [for o in v] cannot run over. *)
Definition not_iterable (v : pyval F) : Prop :=
  v = PNone \/ (exists b, v = PBool b) \/ (exists x, v = PNum x).

Lemma py_iter_raises (v : pyval F) :
  (exists e, py_iter v = Raise e) <-> not_iterable v.
Proof.
  unfold not_iterable. destruct v; cbn; split.
  all: try (intros [e He]; discriminate He).
  all: try (intros [E | [[b' E] | [x' E]]]; discriminate E).
  all: try (intros _; now eexists).
  all: intros _; eauto.
Qed.

Lemma py_iter_type_error (v : pyval F) :
  not_iterable v -> py_iter v = Raise TypeError.
Proof. intros [-> | [[b ->] | [x ->]]]; reflexivity. Qed.

Lemma py_iter_items (v : pyval F) :
  ~ not_iterable v -> exists items, py_iter v = Ok items.
Proof.
  unfold not_iterable. intros N. destruct v; cbn; try (now eexists); exfalso; apply N; eauto.
Qed.

(** A truthy object that is no dictionary has no [get]. *)
Lemma py_get_no_dict (ob : pyval F) (k : string) (default : pyval F) :
  (forall d, ob <> PDict d) -> py_get ob k default = Raise AttributeError.
Proof. intros N. destruct ob; try reflexivity. exfalso. now apply (N d). Qed.

Lemma min_seq_cons (x : F) (xs : list F) : exists m, min_seq (x :: xs) = Ok m.
Proof. now eexists. Qed.

Lemma max_seq_cons (x : F) (xs : list F) : exists m, max_seq (x :: xs) = Ok m.
Proof. now eexists. Qed.

(** [best_ask] and [best_bid] of polymarketGPT on a dictionary, by what the
    side holds. *)
Lemma gpt_best_ask_side (d : list (string * pyval F)) :
  ((forall v, lookup "asks" d = Some v -> ~ not_iterable v) ->
   exists r, PolymarketGPT.best_ask (PDict d) = Ok r) /\
  (forall v, lookup "asks" d = Some v -> not_iterable v ->
   PolymarketGPT.best_ask (PDict d) = Raise TypeError).
Proof.
  unfold PolymarketGPT.best_ask.
  destruct d as [|kv d'] eqn:Ed.
  { cbn. split; [intros _; now eexists | intros v Hv; discriminate Hv]. }
  rewrite <- Ed. assert (Hd : truthy (PDict d) = true) by (rewrite Ed; reflexivity).
  rewrite Hd. cbn [negb py_get bind]. clear Ed.
  destruct (lookup "asks" d) as [v|] eqn:El.
  - split.
    + intros Hi. destruct (py_iter_items (Hi v eq_refl)) as [items ->]. cbn [bind].
      destruct (flat_map PolymarketGPT.order_price items); now eexists.
    + intros v' Hv Hn. injection Hv as <-. now rewrite (py_iter_type_error Hn).
  - cbn. split; [intros _; now eexists | intros v Hv; discriminate Hv].
Qed.

Lemma gpt_best_bid_side (d : list (string * pyval F)) :
  ((forall v, lookup "bids" d = Some v -> ~ not_iterable v) ->
   exists r, PolymarketGPT.best_bid (PDict d) = Ok r) /\
  (forall v, lookup "bids" d = Some v -> not_iterable v ->
   PolymarketGPT.best_bid (PDict d) = Raise TypeError).
Proof.
  unfold PolymarketGPT.best_bid.
  destruct d as [|kv d'] eqn:Ed.
  { cbn. split; [intros _; now eexists | intros v Hv; discriminate Hv]. }
  rewrite <- Ed. assert (Hd : truthy (PDict d) = true) by (rewrite Ed; reflexivity).
  rewrite Hd. cbn [negb py_get bind]. clear Ed.
  destruct (lookup "bids" d) as [v|] eqn:El.
  - split.
    + intros Hi. destruct (py_iter_items (Hi v eq_refl)) as [items ->]. cbn [bind].
      destruct (flat_map PolymarketGPT.order_price items); now eexists.
    + intros v' Hv Hn. injection Hv as <-. now rewrite (py_iter_type_error Hn).
  - cbn. split; [intros _; now eexists | intros v Hv; discriminate Hv].
Qed.

Lemma listed_iterable (key : string) (d : list (string * pyval F)) :
  listed key d -> forall v, lookup key d = Some v -> ~ not_iterable v.
Proof.
  intros L v Hv. destruct (L v Hv) as [l ->].
  intros [E | [[b E] | [x E]]]; discriminate E.
Qed.

(** C10, as the code has it.  Whatever the arithmetic and whatever [float]
    makes of a string.  The four accessors answer [None] on every falsy
    input ([None], an empty dictionary, an empty list, zero), and raise an
    [AttributeError] on every other input that is no dictionary (a list of
    orders, say).  On a dictionary, [best_ask_price] and [best_bid_price] of
    crypto5m_bot always answer a price or [None]; [best_ask] and [best_bid]
    of polymarketGPT answer a price or [None] when their side, if present,
    can be run over, so in particular when it is a list of arbitrary orders
    (dictionaries without a price, with a price that is no number, or no
    dictionaries at all), and raise a [TypeError] when it is JSON [null], a
    boolean or a number.  A side with no order (no book, no key, an empty
    list) is answered [None] by all four. *)
Theorem accessors_answer_on_books_and_raise_elsewhere :
  (forall ob : pyval F,
     truthy ob = false ->
     Crypto5m.best_ask_price ob = Ok None /\ Crypto5m.best_bid_price ob = Ok None /\
     PolymarketGPT.best_ask ob = Ok None /\ PolymarketGPT.best_bid ob = Ok None) /\
  (forall ob : pyval F,
     truthy ob = true -> (forall d, ob <> PDict d) ->
     Crypto5m.best_ask_price ob = Raise AttributeError /\
     Crypto5m.best_bid_price ob = Raise AttributeError /\
     PolymarketGPT.best_ask ob = Raise AttributeError /\
     PolymarketGPT.best_bid ob = Raise AttributeError) /\
  (forall d : list (string * pyval F),
     (exists r, Crypto5m.best_ask_price (PDict d) = Ok r) /\
     (exists r, Crypto5m.best_bid_price (PDict d) = Ok r) /\
     ((forall v, lookup "asks" d = Some v -> ~ not_iterable v) ->
      exists r, PolymarketGPT.best_ask (PDict d) = Ok r) /\
     ((forall v, lookup "bids" d = Some v -> ~ not_iterable v) ->
      exists r, PolymarketGPT.best_bid (PDict d) = Ok r) /\
     (forall v, lookup "asks" d = Some v -> not_iterable v ->
      PolymarketGPT.best_ask (PDict d) = Raise TypeError) /\
     (forall v, lookup "bids" d = Some v -> not_iterable v ->
      PolymarketGPT.best_bid (PDict d) = Raise TypeError)) /\
  (forall ob : pyval F,
     book_shaped ob ->
     (exists r, Crypto5m.best_ask_price ob = Ok r) /\
     (exists r, Crypto5m.best_bid_price ob = Ok r) /\
     (exists r, PolymarketGPT.best_ask ob = Ok r) /\
     (exists r, PolymarketGPT.best_bid ob = Ok r)) /\
  (forall ob : pyval F,
     no_orders "asks" ob ->
     Crypto5m.best_ask_price ob = Ok None /\ PolymarketGPT.best_ask ob = Ok None) /\
  (forall ob : pyval F,
     no_orders "bids" ob ->
     Crypto5m.best_bid_price ob = Ok None /\ PolymarketGPT.best_bid ob = Ok None).
Proof.
  split; [|split; [|split; [|split; [|split]]]].
  - intros ob Hf.
    unfold Crypto5m.best_ask_price, Crypto5m.best_bid_price,
      PolymarketGPT.best_ask, PolymarketGPT.best_bid.
    rewrite Hf. cbn [negb]. repeat split.
  - intros ob Ht Hn.
    unfold Crypto5m.best_ask_price, Crypto5m.best_bid_price,
      PolymarketGPT.best_ask, PolymarketGPT.best_bid.
    rewrite Ht. cbn [negb]. rewrite !(py_get_no_dict _ _ Hn). cbn [bind].
    repeat split.
  - intros d.
    split; [apply best_ask_price_dict|]. split; [apply best_bid_price_dict|].
    split; [apply gpt_best_ask_side|]. split; [apply gpt_best_bid_side|].
    split; [apply gpt_best_ask_side | apply gpt_best_bid_side].
  - intros ob [-> | (d & -> & La & Lb)].
    + repeat split; now eexists.
    + split; [apply best_ask_price_dict|]. split; [apply best_bid_price_dict|].
      split.
      * apply gpt_best_ask_side. now apply listed_iterable.
      * apply gpt_best_bid_side. now apply listed_iterable.
  - intros ob [-> | (d & -> & E)]; [split; reflexivity|].
    unfold Crypto5m.best_ask_price, PolymarketGPT.best_ask.
    destruct (negb (truthy (PDict d))); [split; reflexivity|].
    cbn [py_get bind]. destruct E as [-> | ->]; split; reflexivity.
  - intros ob [-> | (d & -> & E)]; [split; reflexivity|].
    unfold Crypto5m.best_bid_price, PolymarketGPT.best_bid.
    destruct (negb (truthy (PDict d))); [split; reflexivity|].
    cbn [py_get bind]. destruct E as [-> | ->]; split; reflexivity.
Qed.

End AccessorsTotal.

(** A book with an order without a price, one whose price is no number, one
    that is no dictionary, and a single good ask at 0.48; no bids key. *)
Definition ragged_book {F : Type} `{PyFloat F} : pyval F :=
  PDict [("asks"%string,
          PList [PDict [("size"%string, PStr "10")];
                 PDict [("price"%string, PStr "n/a"); ("size"%string, PStr "10")];
                 PStr "0.47";
                 Examples.order "0.48" "25"])].

(** The asks of a book sent as a bare list, and a book whose bids are JSON
    [null]. *)
Definition bare_asks {F : Type} `{PyFloat F} : pyval F :=
  PList [Examples.order "0.48" "25"; Examples.order "0.52" "40"].

Definition null_bids_book {F : Type} `{PyFloat F} : pyval F :=
  PDict [("asks"%string, PList [Examples.order "0.48" "25"]);
         ("bids"%string, PNone)].

(** On the ragged book, on doubles: crypto5m_bot gives up on the whole side
    at the first bad order, polymarketGPT skips the bad orders and finds
    0.48; neither raises, and the absent bids are answered [None]. *)
Lemma accessors_answer_on_books_and_raise_elsewhere_witness :
  ((exists r, Crypto5m.best_ask_price (F := float) ragged_book = Ok r) /\
   (exists r, Crypto5m.best_bid_price (F := float) ragged_book = Ok r) /\
   (exists r, PolymarketGPT.best_ask (F := float) ragged_book = Ok r) /\
   (exists r, PolymarketGPT.best_bid (F := float) ragged_book = Ok r)) /\
  (Crypto5m.best_bid_price (F := float) ragged_book = Ok None /\
   PolymarketGPT.best_bid (F := float) ragged_book = Ok None) /\
  (Crypto5m.best_ask_price (F := float) bare_asks = Raise AttributeError /\
   Crypto5m.best_bid_price (F := float) bare_asks = Raise AttributeError /\
   PolymarketGPT.best_ask (F := float) bare_asks = Raise AttributeError /\
   PolymarketGPT.best_bid (F := float) bare_asks = Raise AttributeError) /\
  Crypto5m.best_ask_price (F := float) ragged_book = Ok None /\
  PolymarketGPT.best_ask (F := float) ragged_book = Ok (Some (lit 0.48)).
Proof.
  destruct (accessors_answer_on_books_and_raise_elsewhere (F := float))
    as (_ & H2 & _ & H4 & _ & H6).
  split; [|split; [|split]].
  - apply H4. right. eexists. split; [reflexivity|].
    split; intros v E; vm_compute in E.
    + injection E as <-. eexists. reflexivity.
    + discriminate E.
  - apply H6. right. eexists. split; [reflexivity|]. left. reflexivity.
  - apply H2; [reflexivity | discriminate].
  - split; vm_compute; reflexivity.
Defined.

(** C10 fails as stated: the accessors are not total.  Given the asks as a
    bare list instead of a book, all four raise an [AttributeError]; given a
    book whose bids are JSON [null], [best_bid] of polymarketGPT raises a
    [TypeError] (where [best_bid_price] of crypto5m_bot answers [None]). *)
Lemma accessors_raise_off_books :
  Crypto5m.best_ask_price (F := float) bare_asks = Raise AttributeError /\
  Crypto5m.best_bid_price (F := float) bare_asks = Raise AttributeError /\
  PolymarketGPT.best_ask (F := float) bare_asks = Raise AttributeError /\
  PolymarketGPT.best_bid (F := float) bare_asks = Raise AttributeError /\
  PolymarketGPT.best_bid (F := float) null_bids_book = Raise TypeError /\
  Crypto5m.best_bid_price (F := float) null_bids_book = Ok None.
Proof. repeat split; vm_compute; reflexivity. Qed.

(* ================================================================== *)
(** * Period rotation *)
(* ================================================================== *)

Section Rotation.
Context {F : Type} `{PyFloat F}.
Import Crypto5m.

(** The part of the session the rotation block owns. *)
Definition same_period_state (st st' : session (F := F)) : Prop :=
  market_data st' = market_data st /\
  orderbooks st' = orderbooks st /\
  current_period_start st' = current_period_start st /\
  period_transitions st' = period_transitions st.

(** An action leaves that part alone, whether it returns or raises. *)
Definition keeps_period_state {A : Type} (m : M (F := F) A) : Prop :=
  forall st, same_period_state st (snd (m st)).

Lemma same_period_state_refl (st : session (F := F)) : same_period_state st st.
Proof. repeat split. Qed.

Lemma same_period_state_trans (st1 st2 st3 : session (F := F)) :
  same_period_state st1 st2 -> same_period_state st2 st3 -> same_period_state st1 st3.
Proof.
  intros (A1 & A2 & A3 & A4) (B1 & B2 & B3 & B4).
  repeat split; congruence.
Qed.

Lemma keeps_ret {A : Type} (a : A) : keeps_period_state (ret a).
Proof. intros st. apply same_period_state_refl. Qed.

Lemma keeps_lift {A : Type} (r : result A) : keeps_period_state (lift r).
Proof. intros st. apply same_period_state_refl. Qed.

Lemma keeps_gets {A : Type} (f : session -> A) : keeps_period_state (gets f).
Proof. intros st. apply same_period_state_refl. Qed.

Lemma keeps_modify (f : session -> session) :
  (forall st, same_period_state st (f st)) -> keeps_period_state (modify f).
Proof. intros Hf st. apply Hf. Qed.

Lemma keeps_bind {A B : Type} (m : M A) (k : A -> M B) :
  keeps_period_state m -> (forall a, keeps_period_state (k a)) ->
  keeps_period_state (bindM m k).
Proof.
  intros Hm Hk st. unfold bindM. specialize (Hm st).
  destruct (m st) as [[a|e] st1]; cbn [snd] in *.
  - eapply same_period_state_trans; [exact Hm | apply Hk].
  - exact Hm.
Qed.

Lemma keeps_foldM {A B : Type} (body : B -> A -> M B) (l : list A) (acc : B) :
  (forall b a, keeps_period_state (body b a)) -> keeps_period_state (foldM body l acc).
Proof.
  intros Hb. revert acc. induction l as [|x l IH]; intros acc; cbn [foldM].
  - apply keeps_ret.
  - apply keeps_bind; [apply Hb | exact IH].
Qed.

Lemma keeps_count_opp (s : strategy) : keeps_period_state (count_opp s).
Proof. apply keeps_modify. intros st. destruct s; repeat split. Qed.

Lemma keeps_scan_symbol (time_left : F) (p : params)
    (all_opps : list opportunity) (sym : symbol) :
  keeps_period_state (scan_symbol time_left p all_opps sym).
Proof.
  unfold scan_symbol.
  apply keeps_bind; [apply keeps_gets|]. intros ob.
  destruct (_ && _); [apply keeps_ret|].
  apply keeps_bind; [apply keeps_lift|]. intros arb.
  apply keeps_bind.
  { destruct arb; [|apply keeps_ret].
    apply keeps_bind; [apply keeps_count_opp | intros; apply keeps_ret]. }
  intros all1.
  apply keeps_bind; [apply keeps_lift|]. intros snipe.
  apply keeps_bind.
  { destruct snipe; [|apply keeps_ret].
    apply keeps_bind; [apply keeps_count_opp | intros; apply keeps_ret]. }
  intros all2.
  apply keeps_bind; [apply keeps_lift|]. intros mispx.
  apply keeps_foldM. intros b a.
  apply keeps_bind; [apply keeps_count_opp | intros; apply keeps_ret].
Qed.

Lemma keeps_record_and_simulate (w : world) (time_left : F) (p : params)
    (drawn : nat) (opp : opportunity) :
  keeps_period_state (record_and_simulate w time_left p drawn opp).
Proof.
  unfold record_and_simulate.
  apply keeps_bind; [apply keeps_modify; intros st; repeat split|]. intros _.
  apply keeps_bind; [apply keeps_lift|]. intros res.
  destruct res; [apply keeps_ret|].
  apply keeps_bind; [apply keeps_modify; intros st; repeat split|]. intros _.
  apply keeps_bind; [|intros; apply keeps_ret].
  apply keeps_modify. intros st. destruct (opp_strategy opp); repeat split.
Qed.

(** After the rotation block, a scan no longer touches the caches and the
    period counters. *)
Lemma run_scan_after_rotation (w : world) (st : session) :
  same_period_state
    (rotate_period w (get_period_start (clock w 0)) st)
    (snd (run_scan w st)).
Proof.
  unfold run_scan.
  unfold bindM at 1. unfold gets at 1.
  unfold bindM at 1. unfold modify at 1.
  match goal with
  | |- same_period_state ?s (snd (?m ?s)) =>
      assert (K : keeps_period_state m); [|apply K]
  end.
  apply keeps_bind; [apply keeps_foldM; intros; apply keeps_scan_symbol|].
  intros all_opps.
  apply keeps_bind; [apply keeps_modify; intros s; repeat split|]. intros _.
  apply keeps_bind; [apply keeps_foldM; intros; apply keeps_record_and_simulate|].
  intros _. apply keeps_modify. intros s. repeat split.
Qed.

(** The books fetched for a market. *)
Definition books_of (w : world (F := F)) (md : market (F := F)) : books (F := F) :=
  {| ob_yes := fetch_orderbook w (md_yes_token md);
     ob_no := fetch_orderbook w (md_no_token md) |}.

(** A refresh that starts from empty caches leaves, for every symbol, what
    the endpoints answer now, and nothing else. *)
Lemma refresh_from_empty (w : world) (period_start : Z) (sym : symbol) :
  let mdata := refresh_metadata w period_start [] in
  sym_get sym mdata = fetch_5m_market w (prefix sym) period_start /\
  sym_get sym (refresh_books w false mdata [])
  = option_map (books_of w) (fetch_5m_market w (prefix sym) period_start).
Proof.
  unfold refresh_metadata, refresh_books, CRYPTO_MARKETS, books_of.
  cbn [fold_left prefix].
  destruct (fetch_5m_market w "btc" period_start) eqn:Eb;
    destruct (fetch_5m_market w "eth" period_start) eqn:Ee;
    destruct (fetch_5m_market w "sol" period_start) eqn:Es;
    destruct (fetch_5m_market w "xrp" period_start) eqn:Ex;
    destruct sym; cbn [prefix]; rewrite ?Eb, ?Ee, ?Es, ?Ex; split; reflexivity.
Qed.

(** C8, as the code has it.  Whatever the arithmetic, the answers of the
    endpoints and the outcome of the rest of the scan: if the floored period
    differs from the stored [current_period_start], the scan stores the new
    one, adds exactly one to the period-transition counter, and drops the
    cached metadata and order books of every symbol, so that afterwards each
    symbol holds what was fetched for the new period, or nothing; if the
    floor is unchanged, the counter is left as it is, and so is the metadata
    cache whenever it is not empty (an empty one is filled by a full
    refresh). *)
Theorem rotation_counts_once_and_clears_all (w : world) (st : session) :
  let now_start := get_period_start (clock w 0) in
  let st' := snd (run_scan w st) in
  (now_start <> current_period_start st ->
   current_period_start st' = now_start /\
   period_transitions st' = (period_transitions st + 1)%Z /\
   forall sym,
     sym_get sym (market_data st') = fetch_5m_market w (prefix sym) now_start /\
     sym_get sym (orderbooks st')
     = option_map (books_of w) (fetch_5m_market w (prefix sym) now_start)) /\
  (now_start = current_period_start st ->
   current_period_start st' = current_period_start st /\
   period_transitions st' = period_transitions st /\
   (market_data st <> [] -> market_data st' = market_data st)).
Proof.
  intros now_start st'.
  destruct (run_scan_after_rotation w st) as (Hm & Ho & Hc & Ht).
  fold now_start st' in Hm, Ho, Hc, Ht.
  unfold rotate_period in Hm, Ho, Hc, Ht.
  split; intros Hfloor.
  - apply Z.eqb_neq in Hfloor. rewrite Hfloor in *. cbn [negb] in *.
    split; [exact Hc|]. split; [exact Ht|].
    intros sym. rewrite Hm, Ho. apply refresh_from_empty.
  - assert (E : (now_start =? current_period_start st)%Z = true)
      by now apply Z.eqb_eq.
    rewrite E in *. cbn [negb] in *.
    destruct (market_data st) as [|kv rest] eqn:Emd.
    + split; [exact Hc|]. split; [exact Ht|]. intros N. now contradiction N.
    + split; [exact Hc|]. split; [exact Ht|]. intros _.
      rewrite Hm. cbn. exact Emd.
Qed.

End Rotation.

(** The world of the rotation examples: the clock reads 1700000123.75, in the
    period that starts at 1700000100; only the BTC market exists, with the
    books of the arbitrage scenario; every draw is 0.5. *)
Definition btc_market : Crypto5m.market (F := Q) :=
  {| Crypto5m.md_prefix := "btc";
     Crypto5m.md_yes_token := "yes-token";
     Crypto5m.md_no_token := "no-token";
     Crypto5m.md_active := true;
     Crypto5m.md_closed := false;
     Crypto5m.md_yes_price := 0.5;
     Crypto5m.md_no_price := 0.5;
     Crypto5m.md_volume := 1000;
     Crypto5m.md_start_ts := 0 |}.

Definition btc_only : Crypto5m.world (F := Q) :=
  {| Crypto5m.clock := fun _ => 1700000123.75;
     Crypto5m.gamma := fun pre _ => if String.eqb pre "btc" then Some btc_market else None;
     Crypto5m.clob := fun tok => if String.eqb tok "yes-token" then yes_book_048
                                 else no_book_049;
     Crypto5m.random := fun _ => 0.5 |}.

(** A session in the period starting at [start], with the given caches. *)
Definition session_in (start : Z) (mdata : list (Crypto5m.symbol * Crypto5m.market))
    (obs : list (Crypto5m.symbol * Crypto5m.books)) : Crypto5m.session (F := Q) :=
  Crypto5m.with_caches (Crypto5m.with_period Crypto5m.init_state start 7) mdata obs.

(** Caches left by an earlier period: ETH metadata and books. *)
Definition stale_eth : list (Crypto5m.symbol * Crypto5m.market (F := Q)) :=
  [(Crypto5m.ETH, btc_market)].

Definition stale_eth_books : list (Crypto5m.symbol * Crypto5m.books (F := Q)) :=
  [(Crypto5m.ETH, {| Crypto5m.ob_yes := yes_book_048; Crypto5m.ob_no := no_book_049 |})].

(** C8 fails as stated: the floor of the clock is the stored period start,
    1700000100, the metadata cache is empty (no market existed yet at the last
    scan), and the scan fills it with the BTC market. *)
Lemma unchanged_period_fills_an_empty_cache :
  Crypto5m.get_period_start (Crypto5m.clock btc_only 0)
  = Crypto5m.current_period_start (session_in 1700000100 [] []) /\
  Crypto5m.market_data (session_in 1700000100 [] []) = [] /\
  Crypto5m.period_transitions (snd (Crypto5m.run_scan btc_only (session_in 1700000100 [] [])))
  = 7%Z /\
  exists md,
    Crypto5m.market_data (snd (Crypto5m.run_scan btc_only (session_in 1700000100 [] [])))
    = [(Crypto5m.BTC, md)].
Proof.
  split; [reflexivity|]. split; [reflexivity|]. split; [vm_compute; reflexivity|].
  eexists. vm_compute. reflexivity.
Qed.

Lemma rotation_counts_once_and_clears_all_witness :
  (Crypto5m.current_period_start
     (snd (Crypto5m.run_scan btc_only (session_in 1699999800 stale_eth stale_eth_books)))
   = Crypto5m.get_period_start (Crypto5m.clock btc_only 0) /\
   Crypto5m.period_transitions
     (snd (Crypto5m.run_scan btc_only (session_in 1699999800 stale_eth stale_eth_books)))
   = (Crypto5m.period_transitions (session_in 1699999800 stale_eth stale_eth_books) + 1)%Z /\
   forall sym,
     Crypto5m.sym_get sym
       (Crypto5m.market_data
          (snd (Crypto5m.run_scan btc_only (session_in 1699999800 stale_eth stale_eth_books))))
     = Crypto5m.fetch_5m_market btc_only (Crypto5m.prefix sym)
         (Crypto5m.get_period_start (Crypto5m.clock btc_only 0)) /\
     Crypto5m.sym_get sym
       (Crypto5m.orderbooks
          (snd (Crypto5m.run_scan btc_only (session_in 1699999800 stale_eth stale_eth_books))))
     = option_map (books_of btc_only)
         (Crypto5m.fetch_5m_market btc_only (Crypto5m.prefix sym)
            (Crypto5m.get_period_start (Crypto5m.clock btc_only 0)))) /\
  (Crypto5m.current_period_start
     (snd (Crypto5m.run_scan btc_only (session_in 1700000100 stale_eth stale_eth_books)))
   = Crypto5m.current_period_start (session_in 1700000100 stale_eth stale_eth_books) /\
   Crypto5m.period_transitions
     (snd (Crypto5m.run_scan btc_only (session_in 1700000100 stale_eth stale_eth_books)))
   = Crypto5m.period_transitions (session_in 1700000100 stale_eth stale_eth_books) /\
   (Crypto5m.market_data (session_in 1700000100 stale_eth stale_eth_books) <> [] ->
    Crypto5m.market_data
      (snd (Crypto5m.run_scan btc_only (session_in 1700000100 stale_eth stale_eth_books)))
    = Crypto5m.market_data (session_in 1700000100 stale_eth stale_eth_books))).
Proof.
  split.
  - refine (proj1 (rotation_counts_once_and_clears_all btc_only
                     (session_in 1699999800 stale_eth stale_eth_books)) _).
    vm_compute. discriminate.
  - refine (proj2 (rotation_counts_once_and_clears_all btc_only
                     (session_in 1700000100 stale_eth stale_eth_books)) _).
    vm_compute. reflexivity.
Defined.

(** The rotating scan of the witness, run: from period 1699999800 with ETH
    cached to period 1700000100, the counter goes from 7 to 8, ETH is gone
    from both caches and BTC is there. *)
Example rotation_drops_the_stale_symbol :
  let st' := snd (Crypto5m.run_scan btc_only
                    (session_in 1699999800 stale_eth stale_eth_books)) in
  Crypto5m.period_transitions st' = 8%Z /\
  Crypto5m.current_period_start st' = 1700000100%Z /\
  Crypto5m.sym_get Crypto5m.ETH (Crypto5m.market_data st') = None /\
  Crypto5m.sym_get Crypto5m.ETH (Crypto5m.orderbooks st') = None /\
  map fst (Crypto5m.market_data st') = [Crypto5m.BTC] /\
  map fst (Crypto5m.orderbooks st') = [Crypto5m.BTC].
Proof. vm_compute. repeat split; reflexivity. Qed.

(* ================================================================== *)
(** * The mispriced detector: the cluster price *)
(* ================================================================== *)

Lemma filter_filter_comm {A : Type} (f g : A -> bool) (l : list A) :
  filter f (filter g l) = filter (fun x => g x && f x) l.
Proof.
  induction l as [|x l IH]; cbn; [reflexivity|].
  destruct (g x); cbn; [destruct (f x)|]; now rewrite IH.
Qed.

Lemma filter_split (A : Type) (f : A -> bool) (l : list A) :
  forall (K1 : list A) (c : A) (K2 : list A),
    filter f l = K1 ++ c :: K2 ->
    exists L1 L2, l = L1 ++ c :: L2 /\ filter f L1 = K1 /\ filter f L2 = K2.
Proof.
  induction l as [|x l IH]; intros K1 c K2 E; cbn in E.
  - destruct K1; discriminate E.
  - destruct (f x) eqn:Fx.
    + destruct K1 as [|k K1]; cbn in E; injection E as Ex E; subst x.
      * exists [], l. cbn. auto.
      * destruct (IH _ _ _ E) as (L1 & L2 & -> & F1 & F2).
        exists (k :: L1), L2. cbn. rewrite Fx, F1. auto.
    + destruct (IH _ _ _ E) as (L1 & L2 & -> & F1 & F2).
      exists (x :: L1), L2. cbn. rewrite Fx. auto.
Qed.

Section ClusterAsComputed.
Context {F : Type} `{PyFloat F} {FO : PyFloatOrder F}.
Local Open Scope py_scope.

(** The total size resting at the level of [k], as [price_vol] accumulates
    it: the sizes of the entries priced [k], added from 0 in the order of the
    book, each addition rounded as the arithmetic rounds. *)
Definition level_volume (k : F) (entries : list (F * F)) : F :=
  fold_left (fun acc e => if fst e == k then acc + snd e else acc) entries $0.

Lemma feqb_left (k p x : F) : (k == p) = true -> (k == x) = (p == x).
Proof.
  intros E. destruct (p == x) eqn:Epx.
  - exact (feqb_trans _ _ _ E Epx).
  - destruct (k == x) eqn:Ekx; [|reflexivity].
    rewrite <- Epx. symmetry. apply (feqb_trans p k x); [|exact Ekx].
    rewrite feqb_sym. exact E.
Qed.

Lemma dict_get_level (k p : F) (d : list (F * F)) (default : F) :
  (k == p) = true -> dict_get k d default = dict_get p d default.
Proof.
  intros E. induction d as [|[k' v] d IH]; cbn; [reflexivity|].
  rewrite (feqb_left k p k' E). now rewrite IH.
Qed.

Lemma dict_get_dict_set (k p v : F) (d : list (F * F)) (default : F) :
  dict_get k (dict_set p v d) default
  = if k == p then v else dict_get k d default.
Proof.
  induction d as [|[k' v'] d IH]; cbn.
  - now destruct (k == p).
  - destruct (p == k') eqn:Epk; cbn.
    + assert (E : (k == p) = (k == k')).
      { rewrite (feqb_sym k p), (feqb_left p k' k Epk). apply feqb_sym. }
      rewrite E. now destruct (k == k').
    + destruct (k == k') eqn:Ekk; [|exact IH].
      destruct (k == p) eqn:Ekp; [|reflexivity].
      exfalso. rewrite feqb_sym in Ekp.
      rewrite (feqb_trans p k k' Ekp Ekk) in Epk. discriminate Epk.
Qed.

(** Is [k] at one of the levels [ks]? *)
Definition at_levels (ks : list F) (k : F) : bool := existsb (feqb k) ks.

Lemma keys_dict_set_level (p v : F) (d : list (F * F)) :
  map fst (dict_set p v d)
  = if at_levels (map fst d) p then map fst d else map fst d ++ [p].
Proof.
  unfold at_levels. induction d as [|[k' v'] d IH]; cbn; [reflexivity|].
  destruct (p == k'); cbn; [reflexivity|].
  rewrite IH. now destruct (existsb _ _).
Qed.

Lemma at_levels_same (ks : list F) (k p : F) :
  (k == p) = true -> at_levels ks k = at_levels ks p.
Proof.
  intros E. unfold at_levels. induction ks as [|x ks IH]; cbn; [reflexivity|].
  now rewrite (feqb_left k p x E), IH.
Qed.

(** The distinct levels of the book, each at the place of its first entry
    and under the price of that entry. *)
Fixpoint first_levels (entries : list (F * F)) : list F :=
  match entries with
  | [] => []
  | (p, _) :: rest => p :: filter (fun k => negb (k == p)) (first_levels rest)
  end.

Lemma keys_price_volume_levels (entries : list (F * F)) (d : list (F * F)) :
  map fst
    (fold_left (fun price_vol e =>
                  dict_set (fst e) (dict_get (fst e) price_vol $0 + snd e) price_vol)
       entries d)
  = map fst d ++ filter (fun k => negb (at_levels (map fst d) k)) (first_levels entries).
Proof.
  revert d. induction entries as [|[p s] rest IH]; intros d; cbn [fold_left first_levels].
  - cbn. now rewrite app_nil_r.
  - rewrite IH. cbn [fst snd]. rewrite keys_dict_set_level.
    cbn [filter]. destruct (at_levels (map fst d) p) eqn:E; cbn [negb].
    + f_equal. rewrite filter_filter_comm. apply filter_ext. intros k.
      destruct (k == p) eqn:Ek; cbn; [|reflexivity].
      now rewrite (at_levels_same (map fst d) k p Ek), E.
    + rewrite <- app_assoc. cbn [app]. do 2 f_equal.
      rewrite filter_filter_comm. apply filter_ext. intros k.
      unfold at_levels. rewrite existsb_app. cbn. rewrite orb_false_r, negb_orb.
      apply andb_comm.
Qed.

Lemma keys_of_price_volume (entries : list (F * F)) :
  map fst (Crypto5m.price_volume entries) = first_levels entries.
Proof.
  unfold Crypto5m.price_volume. rewrite keys_price_volume_levels. cbn.
  induction (first_levels entries) as [|x l IH]; cbn; [reflexivity|]. now rewrite IH.
Qed.

Lemma level_volume_same (k p : F) (entries : list (F * F)) :
  (k == p) = true -> level_volume k entries = level_volume p entries.
Proof.
  intros E. unfold level_volume. generalize (lit (F := F) 0).
  induction entries as [|[p' s] rest IH]; intros a; cbn; [reflexivity|].
  rewrite (feqb_sym p' k), (feqb_sym p' p), (feqb_left k p p' E). apply IH.
Qed.

Lemma volume_of_price_volume_from (entries : list (F * F)) (d : list (F * F)) (k : F) :
  dict_get k
    (fold_left (fun price_vol e =>
                  dict_set (fst e) (dict_get (fst e) price_vol $0 + snd e) price_vol)
       entries d) $0
  = fold_left (fun acc e => if fst e == k then acc + snd e else acc) entries
      (dict_get k d $0).
Proof.
  revert d. induction entries as [|[p s] rest IH]; intros d; cbn [fold_left].
  - reflexivity.
  - rewrite IH. cbn [fst snd]. rewrite dict_get_dict_set, (feqb_sym p k).
    destruct (k == p) eqn:E; [|reflexivity].
    now rewrite (dict_get_level k p d $0 E).
Qed.

(** What [price_vol] holds for a price is the volume of its level. *)
Lemma volume_of_price_volume (entries : list (F * F)) (k : F) :
  dict_get k (Crypto5m.price_volume entries) $0 = level_volume k entries.
Proof. unfold Crypto5m.price_volume. apply volume_of_price_volume_from. Qed.

(** [max(xs, key=key)] on keys that are numbers: what comes before the
    result is strictly below it, what comes after does not exceed it. *)
Lemma fold_max_keeps_first (A : Type) (key : A -> F) (xs : list A) :
  forall (before : list A) (best : A) (after : list A),
    (forall a, In a (before ++ best :: after ++ xs) -> is_number (key a)) ->
    (forall a, In a before -> (key a <? key best) = true) ->
    (forall a, In a after -> (key best <? key a) = false) ->
    exists K1 c K2,
      fold_left (fun best y => if key y >? key best then y else best) xs best = c /\
      before ++ best :: after ++ xs = K1 ++ c :: K2 /\
      (forall a, In a K1 -> (key a <? key c) = true) /\
      (forall a, In a K2 -> (key c <? key a) = false).
Proof.
  induction xs as [|y ys IH]; intros before best after Hn Hb Ha; cbn [fold_left].
  - exists before, best, after. rewrite app_nil_r. auto.
  - destruct (key y >? key best) eqn:E.
    + destruct (IH (before ++ best :: after) y []) as (K1 & c & K2 & Hc & Hs & H1 & H2).
      * intros a Hin. apply Hn. rewrite <- app_assoc in Hin. exact Hin.
      * intros a Hin. apply in_app_or in Hin. destruct Hin as [Hin | [<- | Hin]].
        -- exact (fltb_trans _ _ _ (Hb a Hin) E).
        -- exact E.
        -- apply (fltb_below (key best)); [|exact E | exact (Ha a Hin)].
           apply Hn. apply in_or_app. right. right. apply in_or_app. now left.
      * intros a [].
      * exists K1, c, K2. split; [exact Hc|]. split; [|auto].
        rewrite <- Hs. cbn [app]. now rewrite <- app_assoc.
    + destruct (IH before best (after ++ [y])) as (K1 & c & K2 & Hc & Hs & H1 & H2).
      * intros a Hin. apply Hn. rewrite <- app_assoc in Hin. exact Hin.
      * exact Hb.
      * intros a Hin. apply in_app_or in Hin. destruct Hin as [Hin | [<- | []]]; auto.
      * exists K1, c, K2. split; [exact Hc|]. split; [|auto].
        rewrite <- Hs. now rewrite <- app_assoc.
Qed.

Lemma max_by_keeps_first (A : Type) (key : A -> F) (x : A) (xs : list A) :
  (forall a, In a (x :: xs) -> is_number (key a)) ->
  exists K1 c K2,
    max_by key (x :: xs) = Ok c /\
    x :: xs = K1 ++ c :: K2 /\
    (forall a, In a K1 -> (key a <? key c) = true) /\
    (forall a, In a K2 -> (key c <? key a) = false).
Proof.
  intros Hn.
  destruct (fold_max_keeps_first key xs [] x []) as (K1 & c & K2 & Hc & Hs & H1 & H2).
  - exact Hn.
  - intros a [].
  - intros a [].
  - exists K1, c, K2. split; [|auto]. unfold max_by. now rewrite Hc.
Qed.

Lemma first_levels_of_entries (entries : list (F * F)) (k : F) :
  In k (first_levels entries) -> exists s, In (k, s) entries.
Proof.
  induction entries as [|[p s] rest IH]; cbn [first_levels]; [intros []|].
  intros [<- | Hin].
  - exists s. now left.
  - apply filter_In in Hin. destruct (IH (proj1 Hin)) as [s' Hs']. exists s'. now right.
Qed.

Lemma every_entry_has_a_level (entries : list (F * F)) (e : F * F) :
  (forall e, In e entries -> is_number (fst e)) ->
  In e entries -> exists k, In k (first_levels entries) /\ (k == fst e) = true.
Proof.
  induction entries as [|[p s] rest IH]; intros Hn Hin; [contradiction|].
  destruct Hin as [<- | Hin].
  - exists p. split; [now left|]. apply (Hn (p, s)). now left.
  - destruct (IH (fun e' H' => Hn e' (or_intror H')) Hin) as (k & Hk & Ek).
    cbn [first_levels]. destruct (k == p) eqn:Ekp.
    + exists p. split; [now left|].
      rewrite <- (feqb_left k p (fst e) Ekp). exact Ek.
    + exists k. split; [|exact Ek]. right. apply filter_In. now rewrite Ekp.
Qed.

Lemma first_level_position (entries : list (F * F)) :
  (forall e, In e entries -> is_number (fst e)) ->
  forall (K1 : list F) (c : F) (K2 : list F),
    first_levels entries = K1 ++ c :: K2 ->
    exists pre s post,
      entries = pre ++ (c, s) :: post /\
      forall e, In e pre -> exists k, In k K1 /\ (k == fst e) = true.
Proof.
  induction entries as [|[p s] rest IH]; intros Hn K1 c K2 E; cbn [first_levels] in E.
  - destruct K1; discriminate E.
  - destruct K1 as [|q K1]; cbn [app] in E; injection E as Ep E; subst p.
    + exists [], s, rest. split; [reflexivity|]. intros e [].
    + destruct (filter_split _ _ _ _ _ E) as (L1 & L2 & EL & F1 & F2).
      destruct (IH (fun e' H' => Hn e' (or_intror H')) _ _ _ EL)
        as (pre & s' & post & -> & Hpre).
      exists ((q, s) :: pre), s', post. split; [reflexivity|].
      intros e [<- | Hin].
      * exists q. split; [now left|]. apply (Hn (q, s)). now left.
      * destruct (Hpre e Hin) as (k & Hk & Ek).
        destruct (k == q) eqn:Ekq.
        -- exists q. split; [now left|].
           rewrite <- (feqb_left k q (fst e) Ekq). exact Ek.
        -- exists k. split; [|exact Ek]. right. rewrite <- F1.
           apply filter_In. now rewrite Ekq.
Qed.

End ClusterAsComputed.

(* ================================================================== *)
(** * The mispriced detector: the flagged entries *)
(* ================================================================== *)

Section Sorting.
Context {F : Type} `{PyFloat F}.

Lemma in_insert_by (A : Type) (key : A -> F) (x y : A) (l : list A) :
  In y (insert_by key x l) <-> y = x \/ In y l.
Proof.
  induction l as [|z l IH]; cbn.
  - split; intros [E | []]; auto.
  - destruct (fltb _ _); cbn.
    + split; intros [E | E]; auto.
    + rewrite IH. split; intros [E | [E | E]]; auto.
Qed.

Lemma in_sorted_from (A : Type) (key : A -> F) (xs acc : list A) (y : A) :
  In y (fold_left (fun acc x => insert_by key x acc) xs acc) <-> In y acc \/ In y xs.
Proof.
  revert acc. induction xs as [|x xs IH]; intros acc; cbn.
  - split; [auto | intros [E | []]; auto].
  - rewrite IH, in_insert_by. split; intros [E | E]; auto.
    + destruct E; auto.
    + destruct E as [E | E]; auto.
Qed.

(** Sorting neither adds nor loses an element. *)
Lemma in_sorted_by (A : Type) (key : A -> F) (xs : list A) (y : A) :
  In y (sorted_by key xs) <-> In y xs.
Proof.
  unfold sorted_by. rewrite in_sorted_from. cbn. split; [intros [[] | E] | ]; auto.
Qed.

Lemma mapM_length (A B : Type) (f : A -> result B) (l : list A) (l' : list B) :
  mapM f l = Ok l' -> List.length l' = List.length l.
Proof.
  revert l'. induction l as [|x l IH]; intros l' E; cbn in E.
  - injection E as <-. reflexivity.
  - destruct (f x) as [y|e]; cbn in E; [|discriminate E].
    destruct (mapM f l) as [ys|e]; cbn in E; [|discriminate E].
    injection E as <-. cbn. now rewrite (IH ys eq_refl).
Qed.

End Sorting.


Section FlaggedAsComputed.
Context {F : Type} `{PyFloat F}.
Local Open Scope py_scope.

(** The three tests of the detector on the entry [(price, size)] under the
    cluster price [c], as the code evaluates them: the product and the
    difference are those of the arithmetic, rounded where it rounds. *)
Definition flagged_as_computed (c ratio min_size : F) (e : F * F) : Prop :=
  (snd e <? min_size) = false /\
  (fst e <=? c * ratio) = true /\
  (fst e <? c - $0.10) = true.

Definition passes (c ratio min_size : F) (e : F * F) : bool :=
  negb (snd e <? min_size) && ((fst e <=? c * ratio) && (fst e <? c - $0.10)).

Lemma passes_spec (c ratio min_size : F) (e : F * F) :
  passes c ratio min_size e = true <-> flagged_as_computed c ratio min_size e.
Proof.
  unfold passes, flagged_as_computed.
  rewrite !andb_true_iff, negb_true_iff. tauto.
Qed.

(** What the detector reports for the entry [e] under the cluster price [c]. *)
Definition reported (c : F) (e : F * F) : Crypto5m.mispriced_entry :=
  {| Crypto5m.m_price := fst e;
     Crypto5m.m_size := snd e;
     Crypto5m.m_cluster_price := c;
     Crypto5m.m_discount_pct := (c - fst e) / c * $100;
     Crypto5m.m_est_profit_per_share := c - fst e |}.

(** The loop over the entries: it raises on the division by a cluster price
    of zero as soon as an entry passes the tests, and otherwise collects the
    reports of the entries that pass, in the order of the book. *)
Lemma flag_entries_as_computed (entries : list (F * F)) (c ratio min_size : F) :
  Crypto5m.flag_entries entries c ratio min_size
  = if existsb (passes c ratio min_size) entries && (c == $0)
    then Raise ZeroDivisionError
    else Ok (map (reported c) (filter (passes c ratio min_size) entries)).
Proof.
  induction entries as [|[p s] rest IH]; cbn [Crypto5m.flag_entries existsb filter map].
  - reflexivity.
  - unfold passes at 1 3. cbn [fst snd].
    destruct (s <? min_size); cbn [negb andb orb]; [exact IH|].
    destruct ((p <=? c * ratio) && (p <? c - $0.10)); cbn [orb]; [|exact IH].
    unfold pydiv. destruct (c == $0); cbn [bind andb].
    + reflexivity.
    + rewrite IH. rewrite andb_false_r. reflexivity.
Qed.

Lemma dict_set_not_empty (k v : F) (d : list (F * F)) : dict_set k v d <> [].
Proof. destruct d as [|[k' v'] d]; cbn; [discriminate|]. destruct (k == k'); discriminate. Qed.

Lemma price_volume_not_empty (entries : list (F * F)) :
  entries <> [] -> Crypto5m.price_volume entries <> [].
Proof.
  unfold Crypto5m.price_volume. intros Hne.
  assert (G : forall l d, d <> [] ->
            fold_left (fun price_vol e =>
                         dict_set (fst e) (dict_get (fst e) price_vol $0 + snd e) price_vol)
              l d <> []).
  { induction l as [|e l IH]; intros d Hd; cbn [fold_left]; [exact Hd|].
    apply IH. apply dict_set_not_empty. }
  destruct entries as [|e rest]; [contradiction|]. cbn [fold_left].
  apply G. apply dict_set_not_empty.
Qed.

Lemma cluster_price_exists (entries : list (F * F)) :
  entries <> [] -> exists c, Crypto5m.cluster_price_of (Crypto5m.price_volume entries) = Ok c.
Proof.
  intros Hne. pose proof (price_volume_not_empty Hne) as Hpv.
  unfold Crypto5m.cluster_price_of.
  destruct (Crypto5m.price_volume entries) as [|kv pv]; [contradiction|].
  cbn [map max_by]. now eexists.
Qed.

(** The scanner on a list of orders that all read as numbers. *)
Lemma find_mispriced_orders_of_entries
    (items : list (pyval F)) (entries : list (F * F)) (ratio min_size : F) :
  Crypto5m.parse_entries (PList items) = Ok entries ->
  ((List.length entries < 2)%nat ->
   Crypto5m.find_mispriced_orders (PList items) ratio min_size = Ok []) /\
  ((2 <= List.length entries)%nat ->
   Crypto5m.find_mispriced_orders (PList items) ratio min_size
   = (c <- Crypto5m.cluster_price_of (Crypto5m.price_volume entries) ;;
      l <- Crypto5m.flag_entries entries c ratio min_size ;;
      Ok (sorted_by Crypto5m.m_price l))).
Proof.
  intros Hp.
  assert (Hl : List.length entries = List.length items).
  { unfold Crypto5m.parse_entries in Hp. cbn [py_iter bind] in Hp.
    exact (mapM_length _ _ Hp). }
  unfold Crypto5m.find_mispriced_orders. split; intros Hlen.
  - destruct items as [|i1 [|i2 items]]; cbn in Hl |- *; [reflexivity.. | lia].
  - destruct items as [|i1 items]; [cbn in Hl; lia|].
    cbn [truthy negb py_len bind].
    destruct (Nat.ltb_spec (List.length (i1 :: items)) 2) as [L|L]; [lia|].
    now rewrite Hp.
Qed.

Lemma find_mispriced_orders_unreadable
    (items : list (pyval F)) (e : exn) (ratio min_size : F) :
  Crypto5m.parse_entries (PList items) = Raise e ->
  Crypto5m.find_mispriced_orders (PList items) ratio min_size = Ok [].
Proof.
  intros Hp. unfold Crypto5m.find_mispriced_orders.
  destruct (negb (truthy (PList items))); [reflexivity|].
  cbn [py_len bind]. destruct (_ <? 2)%nat; [reflexivity|]. now rewrite Hp.
Qed.

(** What the scanner does with the entries, given their cluster price. *)
Lemma find_mispriced_orders_as_computed
    (items : list (pyval F)) (entries : list (F * F)) (ratio min_size c : F) :
  Crypto5m.parse_entries (PList items) = Ok entries ->
  (2 <= List.length entries)%nat ->
  Crypto5m.cluster_price_of (Crypto5m.price_volume entries) = Ok c ->
  Crypto5m.find_mispriced_orders (PList items) ratio min_size
  = if existsb (passes c ratio min_size) entries && (c == $0)
    then Raise ZeroDivisionError
    else Ok (sorted_by Crypto5m.m_price
               (map (reported c) (filter (passes c ratio min_size) entries))).
Proof.
  intros Hp Hlen Hc.
  rewrite (proj2 (find_mispriced_orders_of_entries items ratio min_size Hp) Hlen).
  rewrite Hc. cbn [bind]. rewrite flag_entries_as_computed.
  destruct (existsb _ _ && _); reflexivity.
Qed.

Lemma in_reports (c ratio min_size : F) (entries : list (F * F))
    (x : Crypto5m.mispriced_entry) :
  In x (sorted_by Crypto5m.m_price
          (map (reported c) (filter (passes c ratio min_size) entries)))
  <-> exists e, In e entries /\ flagged_as_computed c ratio min_size e /\ x = reported c e.
Proof.
  rewrite in_sorted_by, in_map_iff. split.
  - intros (e & <- & Hin). apply filter_In in Hin. destruct Hin as [Hin Hp].
    exists e. split; [exact Hin|]. split; [now apply passes_spec | reflexivity].
  - intros (e & Hin & Hf & ->). exists e. split; [reflexivity|].
    apply filter_In. split; [exact Hin | now apply passes_spec].
Qed.


End FlaggedAsComputed.

(** The asks of the two examples of the specification, and a book with two
    levels of equal size. *)
Definition asks_097_004 {F : Type} `{PyFloat F} : pyval F :=
  PList [Examples.order "0.97" "100"; Examples.order "0.97" "50";
         Examples.order "0.04" "20"].

Definition asks_008_0039 {F : Type} `{PyFloat F} : pyval F :=
  PList [Examples.order "0.08" "100"; Examples.order "0.08" "50";
         Examples.order "0.039" "20"].

Definition asks_tied {F : Type} `{PyFloat F} : pyval F :=
  PList [Examples.order "0.97" "100"; Examples.order "0.04" "100"].

(** C4, as the code has it.  For every ask list of at least two orders that
    all read as numbers (no NaN among the prices and the level totals), in
    the arithmetic the code runs in: the cluster price is the price of the
    first entry of a level whose total size, the sizes of the level added in
    book order, is exceeded by that of no level, and the levels entered
    before it have a strictly smaller total; so among levels of equal total
    the one entered first is chosen.  Every entry the scanner returns is
    measured against that cluster price. *)
Theorem cluster_price_is_first_largest_level
    (F : Type) (H : PyFloat F) (FO : PyFloatOrder F)
    (items : list (pyval F)) (entries : list (F * F)) :
  Crypto5m.parse_entries (PList items) = Ok entries ->
  (2 <= List.length entries)%nat ->
  (forall e, In e entries ->
     is_number (fst e) /\ is_number (level_volume (fst e) entries)) ->
  exists c pre s post,
    Crypto5m.cluster_price_of (Crypto5m.price_volume entries) = Ok c /\
    entries = pre ++ (c, s) :: post /\
    (forall e, In e entries ->
       fltb (level_volume c entries) (level_volume (fst e) entries) = false) /\
    (forall e, In e pre ->
       fltb (level_volume (fst e) entries) (level_volume c entries) = true) /\
    (forall ratio min_size out,
       Crypto5m.find_mispriced_orders (PList items) ratio min_size = Ok out ->
       forall x, In x out -> Crypto5m.m_cluster_price x = c).
Proof.
  intros Hp Hlen Hnum.
  assert (Hne : entries <> []) by (intros ->; cbn in Hlen; lia).
  assert (Hprice : forall e, In e entries -> is_number (fst e))
    by (intros e He; apply (Hnum e He)).
  unfold Crypto5m.cluster_price_of. rewrite keys_of_price_volume.
  destruct (first_levels entries) as [|x xs] eqn:EL.
  { destruct entries as [|[p s] rest]; [contradiction | discriminate EL]. }
  destruct (@max_by_keeps_first F H FO F
              (fun k => dict_get k (Crypto5m.price_volume entries) (lit 0)) x xs)
    as (K1 & c & K2 & Hc & Hs & H1 & H2).
  { intros a Ha. rewrite volume_of_price_volume. rewrite <- EL in Ha.
    destruct (first_levels_of_entries entries a Ha) as [s Hs].
    exact (proj2 (Hnum (a, s) Hs)). }
  rewrite <- EL in Hs.
  destruct (first_level_position entries Hprice K1 c K2 Hs)
    as (pre & s & post & Es & Hpre).
  exists c, pre, s, post. split; [exact Hc|]. split; [exact Es|].
  assert (Vol : forall k, dict_get k (Crypto5m.price_volume entries) (lit 0)
                          = level_volume k entries)
    by (intros k; apply volume_of_price_volume).
  split; [|split].
  - intros e Hin.
    destruct (every_entry_has_a_level entries e Hprice Hin) as (k & Hk & Ek).
    rewrite <- (level_volume_same k (fst e) entries Ek), <- !Vol.
    rewrite Hs in Hk. apply in_app_or in Hk. destruct Hk as [Hk | [<- | Hk]].
    + destruct (fltb _ _) eqn:E; [|reflexivity].
      pose proof (fltb_trans _ _ _ E (H1 k Hk)) as X.
      rewrite fltb_irrefl in X. discriminate X.
    + apply fltb_irrefl.
    + now apply H2.
  - intros e Hin. destruct (Hpre e Hin) as (k & Hk & Ek).
    rewrite <- (level_volume_same k (fst e) entries Ek), <- !Vol. now apply H1.
  - intros ratio min_size out Hout y Hy.
    rewrite (proj2 (find_mispriced_orders_of_entries items ratio min_size Hp) Hlen)
      in Hout.
    unfold Crypto5m.cluster_price_of in Hout.
    rewrite keys_of_price_volume, Hs in Hout. rewrite <- Hs, EL, Hc in Hout.
    cbn [bind] in Hout. rewrite flag_entries_as_computed in Hout.
    destruct (existsb _ _ && _); [discriminate Hout|].
    cbn [bind] in Hout. injection Hout as <-.
    apply in_reports in Hy. destruct Hy as (e & _ & _ & ->). reflexivity.
Qed.

(** A book whose level at 0.04 holds 10.1 and 20.2 and whose level at 0.97
    holds 30.3. *)
Definition asks_summing_to_30_3 {F : Type} `{PyFloat F} : list (pyval F) :=
  [Examples.order "0.04" "10.1"; Examples.order "0.04" "20.2";
   Examples.order "0.97" "30.3"].

Definition entries_summing_to_30_3 : list (float * float) :=
  [(lit 0.04, lit 10.1); (lit 0.04, lit 20.2); (lit 0.97, lit 30.3)].

Lemma cluster_price_is_first_largest_level_witness :
  exists c pre s post,
    Crypto5m.cluster_price_of (Crypto5m.price_volume entries_summing_to_30_3) = Ok c /\
    entries_summing_to_30_3 = pre ++ (c, s) :: post /\
    (forall e, In e entries_summing_to_30_3 ->
       fltb (level_volume c entries_summing_to_30_3)
         (level_volume (fst e) entries_summing_to_30_3) = false) /\
    (forall e, In e pre ->
       fltb (level_volume (fst e) entries_summing_to_30_3)
         (level_volume c entries_summing_to_30_3) = true) /\
    (forall ratio min_size out,
       Crypto5m.find_mispriced_orders (PList asks_summing_to_30_3) ratio min_size = Ok out ->
       forall x, In x out -> Crypto5m.m_cluster_price x = c).
Proof.
  refine (@cluster_price_is_first_largest_level float Float64 Float64Order
            asks_summing_to_30_3 entries_summing_to_30_3 _ _ _).
  - vm_compute. reflexivity.
  - cbn. lia.
  - intros e [<- | [<- | [<- | []]]]; split; vm_compute; reflexivity.
Defined.

(** The sums are those of the arithmetic: on that book the two levels tie in
    exact arithmetic, where the level entered first, 0.04, is the cluster;
    on doubles [10.1 + 20.2] is [30.299999999999997], below [30.3], and the
    cluster is 0.97. *)
Example cluster_price_follows_the_rounded_sums :
  Crypto5m.cluster_price_of (F := float)
    (Crypto5m.price_volume entries_summing_to_30_3) = Ok (lit 0.97) /\
  PrimFloat.ltb (level_volume (lit 0.04) entries_summing_to_30_3)
    (level_volume (lit 0.97) entries_summing_to_30_3) = true /\
  Crypto5m.cluster_price_of (F := Q)
    (Crypto5m.price_volume [(0.04, 10.1); (0.04, 20.2); (0.97, 30.3)]) = Ok 0.04 /\
  level_volume (F := Q) 0.04 [(0.04, 10.1); (0.04, 20.2); (0.97, 30.3)]
  == level_volume (F := Q) 0.97 [(0.04, 10.1); (0.04, 20.2); (0.97, 30.3)].
Proof. repeat split; vm_compute; reflexivity. Qed.

(** C4 fails as stated: with 100 resting at 0.97 and 100 at 0.04 the two
    levels tie, and the cluster price is 0.97, the level entered first, not
    the lowest price 0.04; so the scanner flags the ask at 0.04 against a
    cluster at 0.97, on rationals and on doubles. *)
Lemma tie_goes_to_the_first_level_not_the_lowest :
  Crypto5m.cluster_price_of (F := Q)
    (Crypto5m.price_volume [(0.97, 100); (0.04, 100)]) = Ok 0.97 /\
  Spec.level_size 0.97 [(0.97, 100); (0.04, 100)] == 100 /\
  Spec.level_size 0.04 [(0.97, 100); (0.04, 100)] == 100 /\
  0.04 < 0.97 /\
  (exists x,
     Crypto5m.find_mispriced_orders (F := Q) asks_tied 0.5 10 = Ok [x] /\
     Crypto5m.m_price x = 0.04 /\ Crypto5m.m_cluster_price x = 0.97) /\
  (exists x,
     Crypto5m.find_mispriced_orders (F := float) asks_tied (lit 0.5) (lit 10) = Ok [x] /\
     Crypto5m.m_price x = lit 0.04 /\ Crypto5m.m_cluster_price x = lit 0.97).
Proof.
  split; [vm_compute; reflexivity|].
  split; [vm_compute; reflexivity|].
  split; [vm_compute; reflexivity|].
  split; [reflexivity|].
  split; eexists; (split; [vm_compute; reflexivity|]); split; vm_compute; reflexivity.
Qed.


(** The asks [(0.14,100), (0.14,50), (0.04,20)]. *)
Definition asks_014_004 {F : Type} `{PyFloat F} : list (pyval F) :=
  [Examples.order "0.14" "100"; Examples.order "0.14" "50"; Examples.order "0.04" "20"].

(** C5.  Whatever the arithmetic (exact, or binary64 with its rounding), for
    every ask list: a list one of whose orders does not read as numbers, or
    of fewer than two orders, flags nothing; otherwise, the prices being
    numbers and [c] being the cluster price of the list, the scanner returns
    the reports of exactly the entries with [not (size < min_size)],
    [price <= c * mispriced_ratio] and [price < c - 0.10], the product and
    the difference being the values the arithmetic computes, unless [c] is
    zero and an entry passes, which takes a negative price, where the
    division of the discount raises.  For a size and a minimal size that are
    numbers the first test is [size >= min_size].  On the asks
    [(0.97,100), (0.97,50), (0.04,20)] with ratio 0.5 and minimal size 10 the
    scanner flags exactly the entry at 0.04, with cluster price 0.97 and a
    discount of 95.9 percent to the first decimal; on
    [(0.08,100), (0.08,50), (0.039,20)] it flags nothing, though
    [0.039 <= 0.08 * 0.5]; both on rationals and on doubles. *)
Theorem flagged_iff_three_tests_as_computed :
  (forall (F : Type) (H : PyFloat F) (items : list (pyval F)) (ratio min_size : F),
     (forall err, Crypto5m.parse_entries (PList items) = Raise err ->
        Crypto5m.find_mispriced_orders (PList items) ratio min_size = Ok []) /\
     (forall entries, Crypto5m.parse_entries (PList items) = Ok entries ->
        ((List.length entries < 2)%nat ->
         Crypto5m.find_mispriced_orders (PList items) ratio min_size = Ok []) /\
        ((2 <= List.length entries)%nat ->
         (forall e, In e entries -> is_number (fst e)) ->
         exists c,
           Crypto5m.cluster_price_of (Crypto5m.price_volume entries) = Ok c /\
           (feqb c (lit 0) = true ->
            (exists e, In e entries /\ flagged_as_computed c ratio min_size e) ->
            Crypto5m.find_mispriced_orders (PList items) ratio min_size
            = Raise ZeroDivisionError) /\
           (feqb c (lit 0) = false \/
            ~ (exists e, In e entries /\ flagged_as_computed c ratio min_size e) ->
            exists out,
              Crypto5m.find_mispriced_orders (PList items) ratio min_size = Ok out /\
              forall x, In x out <->
                exists e, In e entries /\ flagged_as_computed c ratio min_size e /\
                          x = reported c e)))) /\
  (forall (F : Type) (H : PyFloat F) (FO : PyFloatOrder F) (c ratio min_size : F)
          (e : F * F),
     is_number (snd e) -> is_number min_size ->
     (flagged_as_computed c ratio min_size e <->
      fleb min_size (snd e) = true /\
      fleb (fst e) (fmul c ratio) = true /\
      fltb (fst e) (fsub c (lit 0.10)) = true)) /\
  (exists x,
     Crypto5m.find_mispriced_orders (F := Q) asks_097_004 0.5 10 = Ok [x] /\
     Crypto5m.m_price x = 0.04 /\ Crypto5m.m_cluster_price x = 0.97 /\
     95.85 < Crypto5m.m_discount_pct x < 95.95) /\
  (exists x,
     Crypto5m.find_mispriced_orders (F := float) asks_097_004 (lit 0.5) (lit 10) = Ok [x] /\
     Crypto5m.m_price x = lit 0.04 /\ Crypto5m.m_cluster_price x = lit 0.97 /\
     close_to (Crypto5m.m_discount_pct x) (lit 95.9) (lit 0.05) = true) /\
  Crypto5m.find_mispriced_orders (F := Q) asks_008_0039 0.5 10 = Ok [] /\
  Crypto5m.find_mispriced_orders (F := float) asks_008_0039 (lit 0.5) (lit 10) = Ok [] /\
  0.039 <= 0.08 * 0.5 /\ ~ 0.039 < 0.08 - 0.10 /\
  PrimFloat.leb (lit 0.039) (PrimFloat.mul (lit 0.08) (lit 0.5)) = true /\
  PrimFloat.ltb (lit 0.039) (PrimFloat.sub (lit 0.08) (lit 0.10)) = false.
Proof.
  split.
  { intros F H items ratio min_size. split.
    - intros err Hp. exact (find_mispriced_orders_unreadable items ratio min_size Hp).
    - intros entries Hp.
      destruct (find_mispriced_orders_of_entries items ratio min_size Hp) as [Hshort _].
      split; [exact Hshort|]. intros Hlen _.
      destruct (@cluster_price_exists F H entries) as [c Hc].
      { intros ->. cbn in Hlen. lia. }
      exists c. split; [exact Hc|].
      rewrite (find_mispriced_orders_as_computed items ratio min_size Hp Hlen Hc).
      split.
      + intros E0 (e & Hin & Hf).
        assert (existsb (passes c ratio min_size) entries = true) as ->.
        { apply existsb_exists. exists e. split; [exact Hin | now apply passes_spec]. }
        now rewrite E0.
      + intros Hok.
        assert (E : existsb (passes c ratio min_size) entries && feqb c (lit 0) = false).
        { destruct Hok as [E0 | Hn]; [now rewrite E0, andb_false_r|].
          destruct (existsb (passes c ratio min_size) entries) eqn:Ex; [|reflexivity].
          exfalso. apply Hn. apply existsb_exists in Ex. destruct Ex as (e & Hin & Hpass).
          exists e. split; [exact Hin | now apply passes_spec]. }
        rewrite E. eexists. split; [reflexivity|]. intros x. apply in_reports. }
  split.
  { intros F H FO c ratio min_size e Ns Nm. unfold flagged_as_computed.
    rewrite (fleb_fltb _ _ Nm Ns), negb_true_iff. tauto. }
  split.
  { eexists. split; [vm_compute; reflexivity|].
    split; [reflexivity|]. split; [reflexivity|]. split; vm_compute; reflexivity. }
  split.
  { eexists. split; [vm_compute; reflexivity|].
    split; [vm_compute; reflexivity|]. split; vm_compute; reflexivity. }
  split; [vm_compute; reflexivity|].
  split; [vm_compute; reflexivity|].
  split; [vm_compute; discriminate|].
  split; [vm_compute; discriminate|].
  split; vm_compute; reflexivity.
Qed.

(** The scanner on doubles, on the asks [(0.14,100), (0.14,50), (0.04,20)]. *)
Lemma flagged_iff_three_tests_as_computed_witness :
  exists c out,
    Crypto5m.cluster_price_of
      (Crypto5m.price_volume
         [(lit 0.14, lit 100); (lit 0.14, lit 50); (lit 0.04, lit 20)]) = Ok c /\
    Crypto5m.find_mispriced_orders (F := float) (PList asks_014_004) (lit 0.5) (lit 10)
    = Ok out /\
    forall x, In x out <->
      exists e, In e [(lit 0.14, lit 100); (lit 0.14, lit 50); (lit 0.04, lit 20)] /\
                flagged_as_computed c (lit 0.5) (lit 10) e /\ x = reported c e.
Proof.
  destruct (proj2 (proj1 flagged_iff_three_tests_as_computed float Float64
                     asks_014_004 (lit 0.5) (lit 10))
              [(lit 0.14, lit 100); (lit 0.14, lit 50); (lit 0.04, lit 20)])
    as [_ Hlong].
  - vm_compute. reflexivity.
  - destruct Hlong as (c & Hc & _ & Hok);
      [cbn; lia | intros e [<- | [<- | [<- | []]]]; vm_compute; reflexivity|].
    exists c.
    assert (Ec : c = lit 0.14).
    { vm_compute in Hc. injection Hc as <-. vm_compute. reflexivity. }
    destruct Hok as (out & Hout & Hx).
    + left. rewrite Ec. vm_compute. reflexivity.
    + exists out. split; [exact Hc|]. split; [exact Hout | exact Hx].
Defined.

(** The three tests next to a rounding.  On doubles the difference
    [0.14 - 0.10] is [0.04000000000000001], so the ask at 0.04 under a
    cluster at 0.14 passes [price < cluster_price - 0.10] as the code
    evaluates it and is flagged (ratio 0.5, minimal size 10); in exact
    arithmetic 0.04 is not below [0.14 - 0.10], and nothing is flagged. *)
Example rounded_guard_flags_004_under_014 :
  (exists x,
     Crypto5m.find_mispriced_orders (F := float) (PList asks_014_004) (lit 0.5) (lit 10)
     = Ok [x] /\
     Crypto5m.m_price x = lit 0.04 /\ Crypto5m.m_cluster_price x = lit 0.14) /\
  flagged_as_computed (F := float) (lit 0.14) (lit 0.5) (lit 10) (lit 0.04, lit 20) /\
  PrimFloat.ltb (lit 0.04) (PrimFloat.sub (lit 0.14) (lit 0.10)) = true /\
  ~ Spec.flag_condition 0.14 0.5 10 (0.04, 20) /\
  0.14 - 0.10 == 0.04 /\
  Crypto5m.find_mispriced_orders (F := Q) (PList asks_014_004) 0.5 10 = Ok [].
Proof.
  split.
  { eexists. split; [vm_compute; reflexivity|]. split; vm_compute; reflexivity. }
  split; [repeat split; vm_compute; reflexivity|].
  split; [vm_compute; reflexivity|].
  split.
  { intros (_ & _ & L). vm_compute in L. discriminate L. }
  split; vm_compute; reflexivity.
Qed.




(** ** The flagged entries on the rationals *)

(** What the detector reports for the ask [(p, s)] under the cluster [c]. *)
Definition report (c : Q) (e : Q * Q) : Crypto5m.mispriced_entry (F := Q) :=
  {| Crypto5m.m_price := fst e;
     Crypto5m.m_size := snd e;
     Crypto5m.m_cluster_price := c;
     Crypto5m.m_discount_pct := (c - fst e) / c * 100;
     Crypto5m.m_est_profit_per_share := c - fst e |}.

Lemma flag_test (c ratio min_size : Q) (e : Q * Q) :
  (negb (negb (Qle_bool min_size (snd e)))
   && (Qle_bool (fst e) (c * ratio) && negb (Qle_bool (c - 0.10) (fst e))) = true)
  <-> Spec.flag_condition c ratio min_size e.
Proof.
  unfold Spec.flag_condition. rewrite negb_involutive, !andb_true_iff.
  rewrite !Qle_bool_iff, Qltb_true. tauto.
Qed.

(** The loop over the entries: when it ends without raising, it has collected
    the reports of exactly the entries that meet the three conditions, and a
    cluster price of zero has not been divided by. *)
Lemma flag_entries_collects (entries : list (Q * Q)) (c ratio min_size : Q)
    (l : list Crypto5m.mispriced_entry) :
  Crypto5m.flag_entries entries c ratio min_size = Ok l ->
  (forall x, In x l <->
     exists e, In e entries /\ Spec.flag_condition c ratio min_size e /\ x = report c e) /\
  (l <> [] -> ~ c == 0).
Proof.
  revert l. induction entries as [|[p s] rest IH]; intros l E; cbn [Crypto5m.flag_entries] in E.
  - injection E as <-. split; [|intros N; now contradiction N].
    intros x. split; [intros [] | intros (e & [] & _)].
  - cbn [fltb fleb fsub fmul lit QFloat] in E.
    pose proof (flag_test c ratio min_size (p, s)) as T. cbn [fst snd] in T.
    destruct (negb (Qle_bool min_size s)) eqn:E1.
    + destruct (IH l E) as [IH1 IH2]. split; [|exact IH2].
      intros x. rewrite IH1. split.
      * intros (e & Hin & Hc & Hx). exists e. split; [now right | auto].
      * intros (e & [<- | Hin] & Hc & Hx).
        -- apply T in Hc. discriminate Hc.
        -- exists e. auto.
    + cbn [negb andb] in T.
      destruct (Qle_bool p (c * ratio) && negb (Qle_bool (c - 0.10) p)) eqn:E2.
      * unfold pydiv in E. cbn [feqb fdiv lit QFloat] in E.
        destruct (Qeq_bool c 0) eqn:Ec; [discriminate E|]. cbn [bind] in E.
        destruct (Crypto5m.flag_entries rest c ratio min_size) as [more|err];
          [|discriminate E].
        cbn [bind] in E. injection E as <-.
        destruct (IH more eq_refl) as [IH1 _]. split.
        -- intros x. cbn [In]. rewrite IH1. split.
           ++ intros [<- | (e & Hin & Hc & Hx)].
              ** exists (p, s). split; [now left|]. split; [now apply T | reflexivity].
              ** exists e. split; [now right | auto].
           ++ intros (e & [<- | Hin] & Hc & Hx).
              ** left. now rewrite Hx.
              ** right. exists e. auto.
        -- intros _. now apply Qeqb_false.
      * destruct (IH l E) as [IH1 IH2]. split; [|exact IH2].
        intros x. rewrite IH1. split.
        -- intros (e & Hin & Hc & Hx). exists e. split; [now right | auto].
        -- intros (e & [<- | Hin] & Hc & Hx).
           ++ apply T in Hc. discriminate Hc.
           ++ exists e. auto.
Qed.

(** With no negative price in the book the loop does not raise. *)

(** * Further properties of the two bots

    Properties of functions the sections above only pass through: the
    period grid, the fee model, the book accessors, the shaping of fetched
    books, the simulator and the scan. *)

(* ================================================================== *)
(** * Further properties: the period grid and the clock *)
(* ================================================================== *)

Section PeriodGrid.
Context {F : Type} `{PyFloat F}.

Lemma get_period_start_bounds (ts : F) :
  let t := ftrunc ts in
  let start := Crypto5m.get_period_start ts in
  (start mod 300 = 0)%Z /\ (start <= t < start + 300)%Z.
Proof.
  intros t start. unfold start, Crypto5m.get_period_start, Crypto5m.PERIOD_SECS. fold t.
  split; [apply Z.mod_mul; lia|].
  pose proof (Z.mod_pos_bound t 300); pose proof (Z.div_mod t 300); lia.
Qed.

(** The period start is the one multiple of 300 that lies at most 299
    seconds before the whole second of the clock, whatever the reading. *)
Theorem period_start_is_the_grid_point_below (ts : F) :
  let t := ftrunc ts in
  let start := Crypto5m.get_period_start ts in
  (start mod 300 = 0)%Z /\
  (start <= t < Crypto5m.get_period_end start)%Z /\
  (forall z, (z mod 300 = 0)%Z -> (z <= t < z + 300)%Z -> z = start).
Proof.
  intros t start. unfold start, Crypto5m.get_period_start, Crypto5m.get_period_end,
    Crypto5m.PERIOD_SECS. fold t.
  split; [apply Z.mod_mul; lia|].
  split; [pose proof (Z.mod_pos_bound t 300); pose proof (Z.div_mod t 300); lia|].
  intros z Hz Hb.
  assert (Ez : z = (300 * (z / 300))%Z).
  { pose proof (Z.div_mod z 300). lia. }
  assert (Hq : (z / 300 = t / 300)%Z).
  { apply (Z.div_unique t 300 (z / 300) (t - z)); lia. }
  lia.
Qed.

End PeriodGrid.

(** ** The clock on the rationals *)

Lemma pymax_Q (a b : Q) : a <= pymax a b /\ b <= pymax a b /\ (pymax a b = a \/ pymax a b = b).
Proof.
  unfold pymax. cbn [fltb QFloat].
  destruct (negb (Qle_bool b a)) eqn:E; qprops; repeat split; auto; lra.
Qed.

Lemma pymin_Q (a b : Q) : pymin a b <= a /\ pymin a b <= b /\ (pymin a b = a \/ pymin a b = b).
Proof.
  unfold pymin. cbn [fltb QFloat].
  destruct (negb (Qle_bool a b)) eqn:E; qprops; repeat split; auto; lra.
Qed.

Lemma ftrunc_Q_nonneg (q : Q) :
  0 <= q -> inject_Z (ftrunc q) <= q /\ q < inject_Z (ftrunc q + 1).
Proof.
  intros Hq. cbn [ftrunc QFloat].
  assert (Hn : (0 <= Qnum q)%Z).
  { unfold Qle in Hq. cbn in Hq. lia. }
  rewrite Z.quot_div_nonneg by lia.
  destruct q as [n d]. cbn [Qnum Qden].
  change (n / Z.pos d)%Z with (Qfloor (n # d)).
  split; [apply Qfloor_le | apply Qlt_floor].
Qed.

(** Read at a clock that is not negative, the period that
    [get_period_start] names is the running one: between 0 (excluded) and 300
    seconds are left of it, the elapsed fraction is at least 0 and below 1,
    and the two add up to the whole period. *)
Theorem running_period_has_time_left (now : Q) :
  0 <= now ->
  let start := Crypto5m.get_period_start now in
  let left := Crypto5m.time_left_in_period start now in
  let frac := Crypto5m.period_elapsed_frac start now in
  0 < left /\ left <= 300 /\ 0 <= frac /\ frac < 1 /\ frac * 300 + left == 300.
Proof.
  intros Hnow start left frac.
  destruct (@ftrunc_Q_nonneg now Hnow) as [Hlo Hhi].
  destruct (@get_period_start_bounds Q _ now) as (_ & [Hs He]).
  fold start in Hs, He. unfold Crypto5m.get_period_end, Crypto5m.PERIOD_SECS in He.
  assert (B1 : inject_Z start <= now).
  { apply Qle_trans with (inject_Z (ftrunc now)); [|exact Hlo].
    rewrite <- Zle_Qle. exact Hs. }
  assert (B2 : now < inject_Z start + 300).
  { apply Qlt_le_trans with (inject_Z (ftrunc now + 1)); [exact Hhi|].
    change 300 with (inject_Z 300). rewrite <- inject_Z_plus, <- Zle_Qle. lia. }
  assert (El : left == inject_Z start + 300 - now).
  { unfold left, Crypto5m.time_left_in_period, Crypto5m.get_period_end,
      Crypto5m.of_int, Crypto5m.PERIOD_SECS, pymax.
    cbn [fltb fsub lit QFloat]. rewrite inject_Z_plus.
    change (inject_Z 300) with 300.
    destruct (negb (Qle_bool (inject_Z start + 300 - now) 0.0)) eqn:E; qprops;
      [reflexivity | lra]. }
  assert (Ef : frac == (now - inject_Z start) / 300).
  { unfold frac, Crypto5m.period_elapsed_frac, Crypto5m.of_int, Crypto5m.PERIOD_SECS,
      pymin, pymax.
    cbn [fltb fsub fdiv lit QFloat]. change (inject_Z 300) with 300.
    set (x := (now - inject_Z start) / 300).
    assert (Hx : 0 <= x /\ x < 1).
    { unfold x. split.
      - apply Qle_shift_div_l; [reflexivity | lra].
      - apply Qlt_shift_div_r; [reflexivity | lra]. }
    destruct (negb (Qle_bool x 0.0)) eqn:E1; qprops.
    - destruct (negb (Qle_bool 1.0 x)) eqn:E2; qprops; [reflexivity | lra].
    - destruct (negb (Qle_bool 1.0 0.0)) eqn:E2; qprops; lra. }
  rewrite El, Ef.
  assert (Hx : 0 <= (now - inject_Z start) / 300 /\ (now - inject_Z start) / 300 < 1).
  { split.
    - apply Qle_shift_div_l; [reflexivity | lra].
    - apply Qlt_shift_div_r; [reflexivity | lra]. }
  repeat split; try lra. field.
Qed.

Lemma running_period_has_time_left_witness :
  let start := Crypto5m.get_period_start (F := Q) 1700000123.75 in
  let left := Crypto5m.time_left_in_period start 1700000123.75 in
  let frac := Crypto5m.period_elapsed_frac start 1700000123.75 in
  0 < left /\ left <= 300 /\ 0 <= frac /\ frac < 1 /\ frac * 300 + left == 300.
Proof.
  refine (@running_period_has_time_left 1700000123.75 _). discriminate.
Defined.

(** Whenever it is read, the time left is never negative and the elapsed
    fraction stays between 0 and 1; once the clock has passed the end of the
    period they are 0 and 1. *)
Theorem time_left_and_elapsed_are_clamped (start : Z) (now : Q) :
  let left := Crypto5m.time_left_in_period start now in
  let frac := Crypto5m.period_elapsed_frac start now in
  0 <= left /\ 0 <= frac /\ frac <= 1 /\
  (inject_Z (Crypto5m.get_period_end start) <= now -> left == 0 /\ frac == 1).
Proof.
  intros left frac.
  unfold left, frac, Crypto5m.time_left_in_period, Crypto5m.period_elapsed_frac,
    Crypto5m.get_period_end, Crypto5m.of_int, Crypto5m.PERIOD_SECS.
  cbn [fsub fdiv lit QFloat]. rewrite inject_Z_plus. change (inject_Z 300) with 300.
  set (x := (now - inject_Z start) / 300).
  destruct (pymax_Q 0.0 (inject_Z start + 300 - now)) as (A1 & A2 & A3).
  destruct (pymax_Q 0.0 x) as (B1 & B2 & B3).
  destruct (pymin_Q 1.0 (pymax 0.0 x)) as (C1 & C2 & C3).
  assert (Hx : inject_Z start + 300 <= now -> 1 <= x).
  { intros Hend. unfold x. apply Qle_shift_div_l; [reflexivity | lra]. }
  clearbody x.
  split; [lra|]. split; [destruct C3 as [E | E]; rewrite E; lra|].
  split; [apply Qle_trans with 1.0; [exact C1 | discriminate]|].
  intros Hend. specialize (Hx Hend).
  split.
  - destruct A3 as [E | E]; rewrite E in *; [reflexivity | lra].
  - destruct C3 as [E | E]; rewrite E in *; [reflexivity|].
    destruct B3 as [E' | E']; rewrite E' in *; lra.
Qed.

Lemma time_left_and_elapsed_are_clamped_witness :
  inject_Z (Crypto5m.get_period_end 1700000100) <= 1700000999 /\
  Crypto5m.time_left_in_period (F := Q) 1700000100 1700000999 == 0 /\
  Crypto5m.period_elapsed_frac (F := Q) 1700000100 1700000999 == 1.
Proof.
  split; [discriminate|].
  refine (proj2 (proj2 (proj2
            (@time_left_and_elapsed_are_clamped 1700000100 1700000999))) _).
  discriminate.
Defined.

(* ================================================================== *)
(** * Further properties: the cost model and the arbitrage detector *)
(* ================================================================== *)

(** Fee parameters none of which is negative. *)
Definition fees_nonnegative (p : Crypto5m.params (F := Q)) : Prop :=
  0 <= Crypto5m.clob_fee_pct p /\ 0 <= Crypto5m.gas_merge_usd p /\
  0 <= Crypto5m.swap_spread_pct p /\ 0 <= Crypto5m.buffer_bps p.

Lemma gas_fraction_nonneg (gas size : Q) : 0 <= gas -> 0 < size -> 0 <= gas / size.
Proof. intros Hg Hs. apply Qle_shift_div_l; [exact Hs | lra]. Qed.

Lemma gas_fraction_shrinks (gas s1 s2 : Q) :
  0 <= gas -> 0 < s1 -> s1 <= s2 -> gas / s2 <= gas / s1.
Proof.
  intros Hg H1 H12.
  assert (H2 : 0 < s2) by lra.
  apply Qle_shift_div_l; [exact H1|].
  assert (E : gas / s2 * s1 == gas * (s1 / s2)) by (field; lra).
  rewrite E.
  assert (Hr : s1 / s2 <= 1) by (apply Qle_shift_div_r; [exact H2 | lra]).
  assert (Hr0 : 0 <= s1 / s2) by (apply Qle_shift_div_l; [exact H2 | lra]).
  nra.
Qed.

(** With fee parameters that are not negative, the fee fraction is never
    negative, and for positive trade sizes it shrinks as the size grows; the
    raw edge is [1 - (yes + no)] and the net edge never exceeds it, in
    [compute_arb_edge] as in [compute_edge]. *)
Theorem fees_only_ever_lower_the_edge (p : Crypto5m.params (F := Q)) :
  fees_nonnegative p ->
  (forall size, 0 <= Crypto5m.total_fees size p) /\
  (forall s1 s2, 0 < s1 -> s1 <= s2 ->
     Crypto5m.total_fees s2 p <= Crypto5m.total_fees s1 p) /\
  (forall yes no size,
     fst (Crypto5m.compute_arb_edge yes no size p) == 1 - (yes + no) /\
     snd (Crypto5m.compute_arb_edge yes no size p)
     <= fst (Crypto5m.compute_arb_edge yes no size p)) /\
  (forall yes no size,
     snd (PolymarketGPT.compute_edge yes no (Crypto5m.clob_fee_pct p)
            (Crypto5m.gas_merge_usd p) (Crypto5m.swap_spread_pct p)
            (Crypto5m.buffer_bps p) size)
     <= fst (PolymarketGPT.compute_edge yes no (Crypto5m.clob_fee_pct p)
               (Crypto5m.gas_merge_usd p) (Crypto5m.swap_spread_pct p)
               (Crypto5m.buffer_bps p) size)).
Proof.
  intros (Hc & Hg & Hs & Hb).
  assert (Hbuf : 0 <= Crypto5m.buffer_bps p / 10000)
    by (apply Qle_shift_div_l; [reflexivity | lra]).
  assert (Hfees : forall size, 0 <= Crypto5m.total_fees size p).
  { intros size. unfold Crypto5m.total_fees. cbn [fadd fmul fdiv fltb lit QFloat].
    destruct (negb (Qle_bool size 0)) eqn:E; qprops.
    - pose proof (gas_fraction_nonneg Hg E). lra.
    - lra. }
  split; [exact Hfees|]. split; [|split].
  - intros s1 s2 H1 H12. unfold Crypto5m.total_fees.
    cbn [fadd fmul fdiv fltb lit QFloat].
    assert (E1 : negb (Qle_bool s1 0) = true) by (apply Qltb_true; exact H1).
    assert (E2 : negb (Qle_bool s2 0) = true) by (apply Qltb_true; lra).
    rewrite E1, E2.
    pose proof (gas_fraction_shrinks Hg H1 H12). lra.
  - intros yes no size. unfold Crypto5m.compute_arb_edge. cbn [fst snd].
    specialize (Hfees size). cbn [fadd fsub lit QFloat] in *.
    split; lra.
  - intros yes no size. unfold PolymarketGPT.compute_edge. cbn [fst snd].
    cbn [fadd fsub fmul fdiv fltb lit QFloat].
    destruct (negb (Qle_bool size 0)) eqn:E; qprops.
    + pose proof (gas_fraction_nonneg Hg E). lra.
    + lra.
Qed.

Lemma fees_only_ever_lower_the_edge_witness :
  (forall size, 0 <= Crypto5m.total_fees (F := Q) size Crypto5m.DEFAULT_PARAMS) /\
  (forall s1 s2, 0 < s1 -> s1 <= s2 ->
     Crypto5m.total_fees (F := Q) s2 Crypto5m.DEFAULT_PARAMS
     <= Crypto5m.total_fees s1 Crypto5m.DEFAULT_PARAMS) /\
  (forall yes no size,
     fst (Crypto5m.compute_arb_edge (F := Q) yes no size Crypto5m.DEFAULT_PARAMS)
     == 1 - (yes + no) /\
     snd (Crypto5m.compute_arb_edge yes no size Crypto5m.DEFAULT_PARAMS)
     <= fst (Crypto5m.compute_arb_edge yes no size Crypto5m.DEFAULT_PARAMS)) /\
  (forall yes no size,
     snd (PolymarketGPT.compute_edge yes no 0.00075 0.50 0.0002 10 size)
     <= fst (PolymarketGPT.compute_edge yes no 0.00075 0.50 0.0002 10 size)).
Proof.
  refine (@fees_only_ever_lower_the_edge Crypto5m.DEFAULT_PARAMS _).
  repeat split; discriminate.
Defined.



(* ================================================================== *)
(** * Further properties: what the accessors return *)
(* ================================================================== *)

Lemma fold_pymin_least (xs : list Q) (x : Q) :
  In (fold_left pymin xs x) (x :: xs) /\
  forall y, In y (x :: xs) -> fold_left pymin xs x <= y.
Proof.
  revert x. induction xs as [|z xs IH]; intros x; cbn [fold_left].
  - split; [now left|]. intros y [<- | []]. apply Qle_refl.
  - destruct (IH (pymin x z)) as [Hin Hle].
    destruct (pymin_Q x z) as (L1 & L2 & L3).
    split.
    + destruct Hin as [E | Hin]; [|right; right; exact Hin].
      rewrite <- E. destruct L3 as [-> | ->]; [left | right; left]; reflexivity.
    + intros y [<- | [<- | Hy]].
      * apply Qle_trans with (pymin x z); [apply Hle; now left | exact L1].
      * apply Qle_trans with (pymin x z); [apply Hle; now left | exact L2].
      * apply Hle. now right.
Qed.

Lemma fold_pymax_greatest (xs : list Q) (x : Q) :
  In (fold_left pymax xs x) (x :: xs) /\
  forall y, In y (x :: xs) -> y <= fold_left pymax xs x.
Proof.
  revert x. induction xs as [|z xs IH]; intros x; cbn [fold_left].
  - split; [now left|]. intros y [<- | []]. apply Qle_refl.
  - destruct (IH (pymax x z)) as [Hin Hle].
    destruct (pymax_Q x z) as (L1 & L2 & L3).
    split.
    + destruct Hin as [E | Hin]; [|right; right; exact Hin].
      rewrite <- E. destruct L3 as [-> | ->]; [left | right; left]; reflexivity.
    + intros y [<- | [<- | Hy]].
      * apply Qle_trans with (pymax x z); [exact L1 | apply Hle; now left].
      * apply Qle_trans with (pymax x z); [exact L2 | apply Hle; now left].
      * apply Hle. now right.
Qed.

Lemma field_floats_nonempty (items : list (pyval Q)) :
  items <> [] -> Crypto5m.field_floats "price" items <> Ok [].
Proof.
  intros Hne Hp. destruct items as [|i items]; [contradiction|]. cbn in Hp.
  destruct (py_getitem i "price") as [v|]; cbn in Hp; [|discriminate Hp].
  destruct (py_float v); cbn in Hp; [|discriminate Hp].
  destruct (mapM _ items); discriminate Hp.
Qed.

(** [best_ask_price] and [best_bid_price] of crypto5m_bot are all or
    nothing: on a side that is a list, not empty, whose orders all carry a
    price that reads as a number, they return the least ask and the greatest
    bid; one order whose price does not read makes them return [None] for the
    whole side. *)
Theorem best_prices_are_extremal_or_none
    (d : list (string * pyval Q)) (asks bids : list (pyval Q)) :
  (lookup "asks" d = Some (PList asks) -> asks <> [] ->
   (forall prices, Crypto5m.field_floats "price" asks = Ok prices ->
      exists m, Crypto5m.best_ask_price (PDict d) = Ok (Some m) /\ In m prices /\
                forall x, In x prices -> m <= x) /\
   (forall e, Crypto5m.field_floats "price" asks = Raise e ->
      Crypto5m.best_ask_price (PDict d) = Ok None)) /\
  (lookup "bids" d = Some (PList bids) -> bids <> [] ->
   (forall prices, Crypto5m.field_floats "price" bids = Ok prices ->
      exists m, Crypto5m.best_bid_price (PDict d) = Ok (Some m) /\ In m prices /\
                forall x, In x prices -> x <= m) /\
   (forall e, Crypto5m.field_floats "price" bids = Raise e ->
      Crypto5m.best_bid_price (PDict d) = Ok None)).
Proof.
  split; intros Hl Hne.
  - assert (Hd : truthy (PDict d) = true).
    { destruct d; [discriminate Hl | reflexivity]. }
    assert (Hi : truthy (PList asks) = true).
    { destruct asks; [contradiction | reflexivity]. }
    unfold Crypto5m.best_ask_price.
    rewrite Hd; cbn [negb py_get bind]; rewrite Hl, Hi; cbn [negb py_iter bind].
    split; [intros prices Hp | intros e Hp]; rewrite Hp; cbn [bind try_except];
      [|reflexivity].
    destruct prices as [|x xs]; [now apply field_floats_nonempty in Hp|].
    cbn [min_seq bind try_except]. eexists. split; [reflexivity|].
    apply fold_pymin_least.
  - assert (Hd : truthy (PDict d) = true).
    { destruct d; [discriminate Hl | reflexivity]. }
    assert (Hi : truthy (PList bids) = true).
    { destruct bids; [contradiction | reflexivity]. }
    unfold Crypto5m.best_bid_price.
    rewrite Hd; cbn [negb py_get bind]; rewrite Hl, Hi; cbn [negb py_iter bind].
    split; [intros prices Hp | intros e Hp]; rewrite Hp; cbn [bind try_except];
      [|reflexivity].
    destruct prices as [|x xs]; [now apply field_floats_nonempty in Hp|].
    cbn [max_seq bind try_except]. eexists. split; [reflexivity|].
    apply fold_pymax_greatest.
Qed.

(** A book with asks at 0.52 and 0.48, and with bids one of which has no
    price. *)
Definition half_ragged_book : pyval Q :=
  PDict [("asks"%string, PList [Examples.order "0.52" "40"; Examples.order "0.48" "25"]);
         ("bids"%string, PList [Examples.order "0.45" "30";
                                PDict [("size"%string, PStr "10")]])].

Lemma best_prices_are_extremal_or_none_witness :
  (exists m, Crypto5m.best_ask_price half_ragged_book = Ok (Some m) /\
             In m [0.52; 0.48] /\ forall x, In x [0.52; 0.48] -> m <= x) /\
  Crypto5m.best_bid_price half_ragged_book = Ok None.
Proof.
  destruct (@best_prices_are_extremal_or_none
              [("asks"%string, PList [Examples.order "0.52" "40"; Examples.order "0.48" "25"]);
               ("bids"%string, PList [Examples.order "0.45" "30";
                                      PDict [("size"%string, PStr "10")]])]
              [Examples.order "0.52" "40"; Examples.order "0.48" "25"]
              [Examples.order "0.45" "30"; PDict [("size"%string, PStr "10")]])
    as [Ha Hb].
  split.
  - refine (proj1 (Ha eq_refl _) [0.52; 0.48] _); [discriminate | reflexivity].
  - refine (proj2 (Hb eq_refl _) KeyError _); [discriminate | reflexivity].
Defined.

Section GptBestPrices.
Context {F : Type} `{PyFloat F} {FO : PyFloatOrder F}.
Local Open Scope py_scope.

(** [min] and [max] over numbers: the result is one of them, and none of
    them is below (resp. above) it. *)
Lemma fold_pymin_numbers (xs : list F) (x : F) :
  (forall y, In y (x :: xs) -> is_number y) ->
  In (fold_left pymin xs x) (x :: xs) /\
  forall y, In y (x :: xs) -> (y <? fold_left pymin xs x) = false.
Proof.
  revert x. induction xs as [|z xs IH]; intros x Hnum; cbn [fold_left].
  - split; [now left|]. intros y [<- | []]. apply fltb_irrefl.
  - assert (Hm : pymin x z = x \/ pymin x z = z)
      by (unfold pymin; destruct (z <? x); auto).
    destruct (IH (pymin x z)) as [Hin Hle].
    { intros y [<- | Hy]; [|apply Hnum; right; right; exact Hy].
      destruct Hm as [-> | ->]; apply Hnum; [left | right; left]; reflexivity. }
    set (res := fold_left pymin xs (pymin x z)) in *.
    assert (Hres : (pymin x z <? res) = false) by (apply Hle; now left).
    split.
    + destruct Hin as [E | Hin]; [|right; right; exact Hin].
      rewrite <- E. destruct Hm as [-> | ->]; [left | right; left]; reflexivity.
    + intros y [<- | [<- | Hy]]; [| |apply Hle; now right].
      * unfold pymin in Hres. destruct (z <? x) eqn:L; [|exact Hres].
        destruct (x <? res) eqn:G; [|reflexivity].
        rewrite (fltb_trans _ _ _ L G) in Hres. discriminate Hres.
      * unfold pymin in Hres. destruct (z <? x) eqn:L; [exact Hres|].
        destruct (z <? res) eqn:G; [|reflexivity].
        assert (Nx : is_number x) by (apply Hnum; now left).
        rewrite (fltb_below _ _ _ Nx G L) in Hres. discriminate Hres.
Qed.

Lemma fold_pymax_numbers (xs : list F) (x : F) :
  (forall y, In y (x :: xs) -> is_number y) ->
  In (fold_left pymax xs x) (x :: xs) /\
  forall y, In y (x :: xs) -> (fold_left pymax xs x <? y) = false.
Proof.
  revert x. induction xs as [|z xs IH]; intros x Hnum; cbn [fold_left].
  - split; [now left|]. intros y [<- | []]. apply fltb_irrefl.
  - assert (Hm : pymax x z = x \/ pymax x z = z)
      by (unfold pymax; destruct (z >? x); auto).
    destruct (IH (pymax x z)) as [Hin Hle].
    { intros y [<- | Hy]; [|apply Hnum; right; right; exact Hy].
      destruct Hm as [-> | ->]; apply Hnum; [left | right; left]; reflexivity. }
    set (res := fold_left pymax xs (pymax x z)) in *.
    assert (Hres : (res <? pymax x z) = false) by (apply Hle; now left).
    split.
    + destruct Hin as [E | Hin]; [|right; right; exact Hin].
      rewrite <- E. destruct Hm as [-> | ->]; [left | right; left]; reflexivity.
    + intros y [<- | [<- | Hy]]; [| |apply Hle; now right].
      * unfold pymax in Hres. destruct (z >? x) eqn:L; [|exact Hres].
        destruct (res <? x) eqn:G; [|reflexivity].
        rewrite (fltb_trans _ _ _ G L) in Hres. discriminate Hres.
      * unfold pymax in Hres. destruct (z >? x) eqn:L; [exact Hres|].
        destruct (res <? z) eqn:G; [|reflexivity].
        assert (Nx : is_number x) by (apply Hnum; now left).
        assert (B : (res <? x) = true).
        { destruct (res <? x) eqn:B; [reflexivity|].
          (* res < z, not res < x, x a number: x < z *)
          rewrite (fltb_below _ _ _ Nx G B) in L. discriminate L. }
        rewrite B in Hres. discriminate Hres.
Qed.

(** What [o.get(k, o.get(k', 0))] holds, for an order that is the dictionary
    [d]. *)
Definition field_of (d : list (string * pyval F)) (k k' : string) : pyval F :=
  match lookup k d with
  | Some v => v
  | None => match lookup k' d with Some v => v | None => PNum $0 end
  end.

(** The order [o] counts, at the price [p]: it is a dictionary, [float]
    reads its ["price"] (or else its ["p"]) as [p] and its ["size"] (or else
    its ["s"]) as some [s], and both are above zero. *)
Definition counts (o : pyval F) (p : F) : Prop :=
  exists d s,
    o = PDict d /\
    py_float (field_of d "price" "p") = Ok p /\
    py_float (field_of d "size" "s") = Ok s /\
    (p >? $0) = true /\ (s >? $0) = true.

Lemma order_price_counts (o : pyval F) :
  (PolymarketGPT.order_price o = [] /\ forall p, ~ counts o p) \/
  (exists p, PolymarketGPT.order_price o = [p] /\ counts o p /\
             forall q, counts o q -> q = p).
Proof.
  unfold PolymarketGPT.order_price, counts.
  destruct o as [ | b | x | s | l | d];
    try (left; split; [reflexivity | intros p (d' & s' & E & _); discriminate E]).
  cbn [py_get bind].
  change (match lookup "price" d with
          | Some x => x
          | None => match lookup "p" d with Some x => x | None => PNum $0 end
          end) with (field_of d "price" "p").
  change (match lookup "size" d with
          | Some x => x
          | None => match lookup "s" d with Some x => x | None => PNum $0 end
          end) with (field_of d "size" "s").
  destruct (py_float (field_of d "price" "p")) as [p|e] eqn:Ep; cbn [bind try_except].
  - destruct (py_float (field_of d "size" "s")) as [s|e] eqn:Es; cbn [bind try_except].
    + destruct (p >? $0) eqn:Pp; cbn [andb].
      * destruct (s >? $0) eqn:Ps.
        -- right. exists p. split; [reflexivity|]. split.
           ++ exists d, s. auto.
           ++ intros q (d' & s' & E & Eq & _). injection E as <-.
              rewrite Ep in Eq. now injection Eq as <-.
        -- left. split; [reflexivity|].
           intros q (d' & s' & E & _ & Es' & _ & Ps'). injection E as <-.
           rewrite Es in Es'. injection Es' as <-. rewrite Ps in Ps'. discriminate Ps'.
      * left. split; [reflexivity|].
        intros q (d' & s' & E & Eq & _ & Pq & _). injection E as <-.
        rewrite Ep in Eq. injection Eq as <-. rewrite Pp in Pq. discriminate Pq.
    + left. split; [reflexivity|].
      intros q (d' & s' & E & _ & Es' & _). injection E as <-.
      rewrite Es in Es'. discriminate Es'.
  - left. split; [reflexivity|].
    intros q (d' & s' & E & Eq & _). injection E as <-.
    rewrite Ep in Eq. discriminate Eq.
Qed.

Lemma in_counted_prices (items : list (pyval F)) (p : F) :
  In p (flat_map PolymarketGPT.order_price items) <->
  exists o, In o items /\ counts o p.
Proof.
  rewrite in_flat_map. split; intros (o & Ho & Hp); exists o; (split; [exact Ho|]).
  - destruct (order_price_counts o) as [[E _] | (q & E & C & _)]; rewrite E in Hp.
    + contradiction.
    + destruct Hp as [<- | []]. exact C.
  - destruct (order_price_counts o) as [[_ N] | (q & E & _ & U)].
    + exfalso. exact (N p Hp).
    + rewrite E, (U p Hp). now left.
Qed.

Lemma counted_prices_are_numbers (items : list (pyval F)) (p : F) :
  In p (flat_map PolymarketGPT.order_price items) -> is_number p /\ (p >? $0) = true.
Proof.
  intros Hin. apply in_counted_prices in Hin.
  destruct Hin as (o & _ & d & s & _ & _ & _ & Pp & _).
  split; [exact (proj2 (fltb_numbers _ _ Pp)) | exact Pp].
Qed.

(** [best_ask] and [best_bid] of polymarketGPT skip what they cannot use.  On
    a side that is a list, an order counts when it is a dictionary whose
    price (under ["price"], or else ["p"]) and size (under ["size"], or else
    ["s"]) both read as numbers above zero; the accessors answer [None]
    exactly when no order counts, and otherwise the price of an order that
    counts, such that no order that counts has a lower (resp. higher)
    price. *)
Theorem gpt_best_prices_skip_bad_orders
    (d : list (string * pyval F)) (asks bids : list (pyval F)) :
  (lookup "asks" d = Some (PList asks) ->
   exists r,
     PolymarketGPT.best_ask (PDict d) = Ok r /\
     (r = None <-> forall o p, In o asks -> ~ counts o p) /\
     (forall m, r = Some m ->
        (m >? $0) = true /\
        (exists o, In o asks /\ counts o m) /\
        (forall o p, In o asks -> counts o p -> (p <? m) = false))) /\
  (lookup "bids" d = Some (PList bids) ->
   exists r,
     PolymarketGPT.best_bid (PDict d) = Ok r /\
     (r = None <-> forall o p, In o bids -> ~ counts o p) /\
     (forall m, r = Some m ->
        (m >? $0) = true /\
        (exists o, In o bids /\ counts o m) /\
        (forall o p, In o bids -> counts o p -> (p >? m) = false))).
Proof.
  split; intros Hl;
    (assert (Hd : truthy (PDict d) = true)
      by (destruct d; [discriminate Hl | reflexivity]));
    [unfold PolymarketGPT.best_ask | unfold PolymarketGPT.best_bid];
    rewrite Hd; cbn [negb py_get bind]; rewrite Hl; cbn [py_iter bind].
  - destruct (flat_map PolymarketGPT.order_price asks) as [|x xs] eqn:E.
    + exists None. split; [reflexivity|]. split; [|intros m Hm; discriminate Hm].
      split; [|reflexivity]. intros _ o p Ho C.
      assert (Hin : In p (flat_map PolymarketGPT.order_price asks))
        by (apply in_counted_prices; now exists o).
      rewrite E in Hin. contradiction.
    + cbn [min_seq bind]. eexists. split; [reflexivity|].
      destruct (@fold_pymin_numbers xs x) as [Hin Hle].
      { intros y Hy. rewrite <- E in Hy. now apply (counted_prices_are_numbers asks). }
      rewrite <- E in Hin, Hle.
      split.
      * split; [discriminate|]. intros Hall. exfalso.
        apply in_counted_prices in Hin. destruct Hin as (o & Ho & C).
        exact (Hall o _ Ho C).
      * intros m Hm. injection Hm as <-.
        split; [exact (proj2 (counted_prices_are_numbers asks _ Hin))|].
        split; [now apply in_counted_prices|].
        intros o p Ho C. apply Hle. apply in_counted_prices. now exists o.
  - destruct (flat_map PolymarketGPT.order_price bids) as [|x xs] eqn:E.
    + exists None. split; [reflexivity|]. split; [|intros m Hm; discriminate Hm].
      split; [|reflexivity]. intros _ o p Ho C.
      assert (Hin : In p (flat_map PolymarketGPT.order_price bids))
        by (apply in_counted_prices; now exists o).
      rewrite E in Hin. contradiction.
    + cbn [max_seq bind]. eexists. split; [reflexivity|].
      destruct (@fold_pymax_numbers xs x) as [Hin Hle].
      { intros y Hy. rewrite <- E in Hy. now apply (counted_prices_are_numbers bids). }
      rewrite <- E in Hin, Hle.
      split.
      * split; [discriminate|]. intros Hall. exfalso.
        apply in_counted_prices in Hin. destruct Hin as (o & Ho & C).
        exact (Hall o _ Ho C).
      * intros m Hm. injection Hm as <-.
        split; [exact (proj2 (counted_prices_are_numbers bids _ Hin))|].
        split; [now apply in_counted_prices|].
        intros o p Ho C. apply Hle. apply in_counted_prices. now exists o.
Qed.

End GptBestPrices.

Definition ragged_asks {F : Type} `{PyFloat F} : list (pyval F) :=
  [PDict [("size"%string, PStr "10")];
   PDict [("price"%string, PStr "n/a"); ("size"%string, PStr "10")];
   PStr "0.47";
   Examples.order "0.48" "25"].

(** On the ragged book, on doubles: the answer is 0.48, the price of the one
    order that counts; the order without a price, read as priced 0, the one
    priced ["n/a"] and the bare string do not count. *)
Lemma gpt_best_prices_skip_bad_orders_witness :
  PolymarketGPT.best_ask (F := float) ragged_book = Ok (Some (lit 0.48)) /\
  (exists o, In o (ragged_asks (F := float)) /\ counts o (lit 0.48)) /\
  (exists o1 o2 o3 o4,
     ragged_asks (F := float) = [o1; o2; o3; o4] /\
     PolymarketGPT.order_price o1 = [] /\ PolymarketGPT.order_price o2 = [] /\
     PolymarketGPT.order_price o3 = [] /\ PolymarketGPT.order_price o4 = [lit 0.48]).
Proof.
  destruct (proj1 (@gpt_best_prices_skip_bad_orders float Float64 Float64Order
                     [("asks"%string, PList ragged_asks)] ragged_asks []) eq_refl)
    as (r & Hr & _ & Hsome).
  assert (Er : r = Some (lit 0.48)).
  { vm_compute in Hr. injection Hr as <-. vm_compute. reflexivity. }
  split; [vm_compute; reflexivity|].
  split; [exact (proj1 (proj2 (Hsome _ Er)))|].
  do 4 eexists. split; [reflexivity|]. repeat split; vm_compute; reflexivity.
Defined.

Section RaisingAccessors.
Context {F : Type} `{PyFloat F}.

(** When the accessors of polymarketGPT raise: on a dictionary, exactly when
    the side is there and is no sequence (JSON [null], a boolean, a number),
    and what they raise is then a [TypeError]; the accessors of crypto5m_bot
    answer [None] on the same books. *)
Theorem gpt_best_ask_raises_on_a_side_that_is_no_list (d : list (string * pyval F)) :
  ((exists e, PolymarketGPT.best_ask (PDict d) = Raise e) <->
   exists v, lookup "asks" d = Some v /\ not_iterable v) /\
  (forall e, PolymarketGPT.best_ask (PDict d) = Raise e -> e = TypeError) /\
  (forall v, lookup "asks" d = Some v -> not_iterable v ->
     Crypto5m.best_ask_price (PDict d) = Ok None).
Proof.
  unfold PolymarketGPT.best_ask.
  destruct d as [|kv d'] eqn:Ed.
  { cbn. split; [|split].
    - split; [intros [e He]; discriminate He | intros (v & Hv & _); discriminate Hv].
    - intros e He. discriminate He.
    - intros v Hv. discriminate Hv. }
  rewrite <- Ed. assert (Hd : truthy (PDict d) = true) by (rewrite Ed; reflexivity).
  rewrite Hd. cbn [negb py_get bind]. clear Ed.
  destruct (lookup "asks" d) as [v|] eqn:El.
  - assert (Hcase : (exists l, py_iter v = Ok l) \/ py_iter v = Raise TypeError).
    { destruct v; cbn; eauto. }
    split; [|split].
    + split.
      * intros [e He]. exists v. split; [reflexivity|]. apply py_iter_raises.
        destruct Hcase as [[l Hl] | Hr]; [|eauto].
        rewrite Hl in He. cbn [bind] in He.
        destruct (flat_map PolymarketGPT.order_price l); discriminate He.
      * intros (v' & Hv & Hn). injection Hv as <-. apply py_iter_raises in Hn.
        destruct Hn as [e He]. exists e. rewrite He. reflexivity.
    + intros e He. destruct Hcase as [[l Hl] | Hr].
      * rewrite Hl in He. cbn [bind] in He.
        destruct (flat_map PolymarketGPT.order_price l); discriminate He.
      * rewrite Hr in He. cbn [bind] in He. now injection He as <-.
    + intros v' Hv Hn. injection Hv as <-. unfold Crypto5m.best_ask_price.
      rewrite Hd. cbn [negb py_get bind]. rewrite El.
      destruct Hn as [-> | [[b ->] | [x ->]]]; [reflexivity | now destruct b |].
      cbn [truthy]. now destruct (negb (feqb x (lit 0))).
  - cbn [py_iter bind flat_map]. split; [|split].
    + split; [intros [e He]; discriminate He | intros (v & Hv & _); discriminate Hv].
    + intros e He. discriminate He.
    + intros v Hv. discriminate Hv.
Qed.

End RaisingAccessors.

(** A book whose asks are JSON [null]: polymarketGPT raises a [TypeError],
    crypto5m_bot answers [None]. *)
Definition null_asks_book : list (string * pyval Q) :=
  [("asks"%string, PNone); ("bids"%string, PList [Examples.order "0.45" "10"])].

Lemma gpt_best_ask_raises_on_a_side_that_is_no_list_witness :
  (exists e, PolymarketGPT.best_ask (PDict null_asks_book) = Raise e) /\
  Crypto5m.best_ask_price (PDict null_asks_book) = Ok None.
Proof.
  destruct (gpt_best_ask_raises_on_a_side_that_is_no_list null_asks_book)
    as (Hr & _ & Hn).
  split.
  - apply Hr. exists PNone. split; [reflexivity | now left].
  - apply (Hn PNone); [reflexivity | now left].
Defined.

Section ShapedResponse.
Context {F : Type} `{PyFloat F}.

(** The side a shaped book holds under [key]. *)
Definition side_of (key : string) (ob : pyval F) : option (pyval F) :=
  match ob with
  | PDict d => lookup key d
  | _ => None
  end.

(** What [fetch_orderbook] makes of the decoded answer of the endpoint: an
    answer that is falsy (JSON [null], an empty object) gives a book with two
    empty sides; a non-empty object gives a book with exactly the two keys,
    the asks taken under ["asks"], under ["sells"] when there are no
    ["asks"], and empty when there is neither; an answer of any other kind
    gives [None]. Both bots shape the same book, and the accessors of
    crypto5m_bot never raise on what comes out. *)
Theorem fetched_book_has_both_sides (json : pyval F) :
  (truthy json = false ->
   Crypto5m.orderbook_of_response json =
     PDict [("asks"%string, PList []); ("bids"%string, PList [])]) /\
  (forall d, json = PDict d -> truthy json = true ->
     exists asks bids,
       Crypto5m.orderbook_of_response json =
         PDict [("asks"%string, asks); ("bids"%string, bids)] /\
       (forall a, lookup "asks" d = Some a -> asks = a) /\
       (forall s, lookup "asks" d = None -> lookup "sells" d = Some s -> asks = s) /\
       (lookup "asks" d = None -> lookup "sells" d = None -> asks = PList []) /\
       (forall b, lookup "bids" d = Some b -> bids = b) /\
       (lookup "bids" d = None -> bids = PList [])) /\
  (truthy json = true -> (forall d, json <> PDict d) ->
   Crypto5m.orderbook_of_response json = PNone) /\
  (side_of "asks" (PolymarketGPT.orderbook_of_response json) =
     side_of "asks" (Crypto5m.orderbook_of_response json) /\
   side_of "bids" (PolymarketGPT.orderbook_of_response json) =
     side_of "bids" (Crypto5m.orderbook_of_response json)) /\
  ((exists r, Crypto5m.best_ask_price (Crypto5m.orderbook_of_response json) = Ok r) /\
   (exists r, Crypto5m.best_bid_price (Crypto5m.orderbook_of_response json) = Ok r)).
Proof.
  assert (Hshape : Crypto5m.orderbook_of_response json = PNone \/
                   exists d, Crypto5m.orderbook_of_response json = PDict d).
  { unfold Crypto5m.orderbook_of_response.
    destruct (truthy json); [|right; now eexists].
    destruct json; cbn; eauto. }
  split; [|split; [|split; [|split]]].
  - intros Hf. unfold Crypto5m.orderbook_of_response. rewrite Hf. reflexivity.
  - intros d -> Ht. unfold Crypto5m.orderbook_of_response. rewrite Ht.
    cbn [py_get bind try_except].
    do 2 eexists. split; [reflexivity|].
    repeat split.
    + intros a ->. reflexivity.
    + intros s -> ->. reflexivity.
    + intros -> ->. reflexivity.
    + intros b ->. reflexivity.
    + intros ->. reflexivity.
  - intros Ht Hn. unfold Crypto5m.orderbook_of_response. rewrite Ht.
    destruct json as [ | b | x | s | l | d]; try reflexivity. now destruct (Hn d).
  - unfold Crypto5m.orderbook_of_response, PolymarketGPT.orderbook_of_response.
    destruct (truthy json); [|split; reflexivity].
    destruct json; cbn; split; reflexivity.
  - destruct Hshape as [-> | [d ->]].
    + split; now eexists.
    + split; [apply best_ask_price_dict | apply best_bid_price_dict].
Qed.

End ShapedResponse.

(** An answer of the endpoint that lists its asks under ["sells"]. *)
Definition sells_response : list (string * pyval Q) :=
  [("market"%string, PStr "0xabc");
   ("sells"%string, PList [Examples.order "0.52" "40"; Examples.order "0.55" "10"]);
   ("bids"%string, PList [Examples.order "0.47" "30"])].

Lemma fetched_book_has_both_sides_witness :
  Crypto5m.orderbook_of_response (PDict sells_response) =
    PDict [("asks"%string,
            PList [Examples.order "0.52" "40"; Examples.order "0.55" "10"]);
           ("bids"%string, PList [Examples.order "0.47" "30"])] /\
  Crypto5m.best_ask_price (Crypto5m.orderbook_of_response (PDict sells_response)) =
    Ok (Some 0.52).
Proof.
  destruct (fetched_book_has_both_sides (PDict sells_response))
    as (_ & Hd & _ & _ & _).
  destruct (Hd sells_response eq_refl eq_refl)
    as (asks & bids & E & _ & Hs & _ & Hb & _).
  rewrite E.
  rewrite (Hs _ eq_refl eq_refl), (Hb _ eq_refl).
  split; reflexivity.
Defined.

(* ================================================================== *)
(** * Further properties: the order of the flagged entries *)
(* ================================================================== *)

Section StableSort.
Variable A : Type.
Variable key : A -> Q.

Definition by_key (a b : A) : Prop := key a <= key b.

Definition at_level (k : Q) (a : A) : bool := Qeq_bool (key a) k.

Lemma insert_by_sorted (x : A) (l : list A) :
  StronglySorted by_key l -> StronglySorted by_key (insert_by key x l).
Proof.
  induction 1 as [|y l Hs IH Hy]; cbn.
  - constructor; [constructor | constructor].
  - cbn [fltb QFloat]. destruct (negb (Qle_bool (key y) (key x))) eqn:E; qprops.
    + constructor; [constructor; assumption|].
      constructor; [unfold by_key; lra|].
      rewrite Forall_forall in Hy |- *. intros z Hz. specialize (Hy z Hz).
      unfold by_key in *. lra.
    + constructor; [exact IH|].
      rewrite Forall_forall in Hy |- *. intros z Hz.
      apply in_insert_by in Hz. destruct Hz as [-> | Hz]; [exact E | exact (Hy z Hz)].
Qed.

Lemma insert_by_permutation (x : A) (l : list A) :
  Permutation (insert_by key x l) (x :: l).
Proof.
  induction l as [|y l IH]; cbn; [reflexivity|].
  cbn [fltb QFloat]. destruct (negb _); [reflexivity|].
  rewrite IH. apply perm_swap.
Qed.

Lemma insert_by_stable (k : Q) (x : A) (l : list A) :
  StronglySorted by_key l ->
  filter (at_level k) (insert_by key x l)
  = filter (at_level k) l ++ (if at_level k x then [x] else []).
Proof.
  induction 1 as [|y l Hs IH Hy]; cbn [insert_by filter app].
  - reflexivity.
  - cbn [fltb QFloat]. destruct (negb (Qle_bool (key y) (key x))) eqn:E; qprops.
    + cbn [filter]. destruct (at_level k x) eqn:Ex; [|now rewrite app_nil_r].
      unfold at_level in Ex. apply Qeq_bool_iff in Ex.
      assert (Hy0 : at_level k y = false).
      { unfold at_level. apply Qeqb_false. lra. }
      assert (Hl : filter (at_level k) l = []).
      { clear IH Hs. induction l as [|z l IHl]; [reflexivity|].
        cbn. pose proof (Forall_inv Hy) as Hz. unfold by_key in Hz.
        assert (at_level k z = false) as -> by (unfold at_level; apply Qeqb_false; lra).
        apply IHl. exact (Forall_inv_tail Hy). }
      rewrite Hy0, Hl. reflexivity.
    + cbn [filter]. rewrite IH. destruct (at_level k y); reflexivity.
Qed.

Lemma sorted_from (xs acc : list A) :
  StronglySorted by_key acc ->
  let out := fold_left (fun acc x => insert_by key x acc) xs acc in
  StronglySorted by_key out /\
  Permutation out (acc ++ xs) /\
  forall k, filter (at_level k) out = filter (at_level k) acc ++ filter (at_level k) xs.
Proof.
  revert acc. induction xs as [|x xs IH]; intros acc Hs; cbn.
  - rewrite app_nil_r. split; [exact Hs|]. split; [reflexivity|].
    intros k. now rewrite app_nil_r.
  - destruct (IH _ (insert_by_sorted x Hs)) as (S1 & P1 & F1).
    split; [exact S1|]. split.
    + rewrite P1, insert_by_permutation. apply Permutation_middle.
    + intros k. rewrite F1, (insert_by_stable k x Hs), <- app_assoc.
      destruct (at_level k x); reflexivity.
Qed.

(** [sorted(xs, key=key)] is ascending, a rearrangement of [xs], and stable. *)
Lemma sorted_by_stable (xs : list A) :
  StronglySorted by_key (sorted_by key xs) /\
  Permutation (sorted_by key xs) xs /\
  forall k, filter (at_level k) (sorted_by key xs) = filter (at_level k) xs.
Proof.
  exact (@sorted_from xs [] (SSorted_nil _)).
Qed.

End StableSort.

(** What [find_mispriced_orders] returns is what its loop has flagged, in
    ascending order of price; entries at the same price stay in the order of
    the book; and all of them carry the one cluster price of the book. *)
Theorem flagged_entries_come_out_by_price
    (asks : pyval Q) (ratio min_size : Q) (out : list Crypto5m.mispriced_entry) :
  Crypto5m.find_mispriced_orders asks ratio min_size = Ok out ->
  StronglySorted (by_key Crypto5m.m_price) out /\
  (exists l,
     Permutation out l /\
     (forall k, filter (at_level Crypto5m.m_price k) out
                = filter (at_level Crypto5m.m_price k) l) /\
     (l = [] \/
      exists entries c,
        Crypto5m.parse_entries asks = Ok entries /\
        Crypto5m.cluster_price_of (Crypto5m.price_volume entries) = Ok c /\
        Crypto5m.flag_entries entries c ratio min_size = Ok l)) /\
  (forall x y, In x out -> In y out ->
     Crypto5m.m_cluster_price x = Crypto5m.m_cluster_price y).
Proof.
  intros Hout. unfold Crypto5m.find_mispriced_orders in Hout.
  assert (Hnil : out = [] ->
    StronglySorted (by_key Crypto5m.m_price) out /\
    (exists l,
       Permutation out l /\
       (forall k, filter (at_level Crypto5m.m_price k) out
                  = filter (at_level Crypto5m.m_price k) l) /\
       (l = [] \/
        exists entries c,
          Crypto5m.parse_entries asks = Ok entries /\
          Crypto5m.cluster_price_of (Crypto5m.price_volume entries) = Ok c /\
          Crypto5m.flag_entries entries c ratio min_size = Ok l)) /\
    (forall x y, In x out -> In y out ->
       Crypto5m.m_cluster_price x = Crypto5m.m_cluster_price y)).
  { intros ->. split; [constructor|]. split; [|intros x y []].
    exists []. split; [reflexivity|]. split; [reflexivity | now left]. }
  destruct (negb (truthy asks)); [injection Hout as <-; now apply Hnil|].
  destruct (py_len asks) as [n|err]; [|discriminate Hout]. cbn [bind] in Hout.
  destruct (n <? 2)%nat; [injection Hout as <-; now apply Hnil|].
  destruct (Crypto5m.parse_entries asks) as [entries|err] eqn:Ep;
    [|injection Hout as <-; now apply Hnil].
  destruct (Crypto5m.cluster_price_of (Crypto5m.price_volume entries)) as [c|err] eqn:Ec;
    [|discriminate Hout].
  cbn [bind] in Hout.
  destruct (Crypto5m.flag_entries entries c ratio min_size) as [l|err] eqn:El;
    [|discriminate Hout].
  cbn [bind] in Hout. injection Hout as <-. clear Hnil.
  destruct (sorted_by_stable Crypto5m.m_price l) as (S1 & P1 & F1).
  split; [exact S1|]. split.
  - exists l. split; [exact P1|]. split; [exact F1|]. right. now exists entries, c.
  - destruct (@flag_entries_collects _ _ _ _ _ El) as [Hl _].
    intros x y Hx Hy. apply in_sorted_by in Hx, Hy.
    apply Hl in Hx, Hy. destruct Hx as (e1 & _ & _ & ->). destruct Hy as (e2 & _ & _ & ->).
    reflexivity.
Qed.

(** A book clustered at 0.97 with three cheap asks out of order, two of them
    at the same price. *)
Definition asks_out_of_order : pyval Q :=
  PList [Examples.order "0.97" "100"; Examples.order "0.30" "20";
         Examples.order "0.97" "50"; Examples.order "0.04" "15";
         Examples.order "0.30" "12"].

Lemma flagged_entries_come_out_by_price_witness :
  exists out,
    Crypto5m.find_mispriced_orders asks_out_of_order 0.5 10 = Ok out /\
    map Crypto5m.m_price out = [0.04; 0.30; 0.30] /\
    map Crypto5m.m_size out = [15; 20; 12] /\
    StronglySorted (by_key Crypto5m.m_price) out.
Proof.
  eexists. split; [vm_compute; reflexivity|].
  split; [reflexivity|]. split; [reflexivity|].
  refine (proj1 (@flagged_entries_come_out_by_price asks_out_of_order 0.5 10 _ _)).
  vm_compute. reflexivity.
Defined.

(* ================================================================== *)
(** * Further properties: the simulator and its draws *)
(* ================================================================== *)

(** [random.uniform(a, b)] stays between its bounds for a draw in [0, 1]. *)
Lemma uniform_between (a b u : Q) :
  a <= b -> 0 <= u <= 1 -> a <= Crypto5m.uniform a b u <= b.
Proof.
  intros Hab [H0 H1]. unfold Crypto5m.uniform. cbn [fadd fsub fmul QFloat].
  assert (D0 : 0 <= (b - a) * u) by (apply Qmult_le_0_compat; lra).
  assert (D1 : 0 <= (b - a) * (1 - u)) by (apply Qmult_le_0_compat; lra).
  assert (E : (b - a) * (1 - u) == (b - a) - (b - a) * u) by ring.
  rewrite E in D1. split; lra.
Qed.

Lemma product_between (lo hi x f : Q) :
  0 <= lo -> lo <= x <= hi -> 3 # 4 <= f <= 1 -> (3 # 4) * lo <= x * f <= hi.
Proof.
  intros Hlo [Hx0 Hx1] [Hf0 Hf1].
  assert (A : 0 <= (x - lo) * f) by (apply Qmult_le_0_compat; lra).
  assert (B : 0 <= lo * (f - (3 # 4))) by (apply Qmult_le_0_compat; lra).
  assert (C : 0 <= x * (1 - f)) by (apply Qmult_le_0_compat; lra).
  assert (EA : (x - lo) * f == x * f - lo * f) by ring.
  assert (EB : lo * (f - (3 # 4)) == lo * f - (3 # 4) * lo) by ring.
  assert (EC : x * (1 - f) == x - x * f) by ring.
  rewrite EA in A. rewrite EB in B. rewrite EC in C. split; lra.
Qed.

(** The sizes and costs a session is run with. *)
Definition sane_sizes (p : Crypto5m.params (F := Q)) : Prop :=
  0 <= Crypto5m.slippage_pct p /\ 0 <= Crypto5m.gas_merge_usd p /\
  0 <= Crypto5m.min_trade_usd p /\
  Crypto5m.min_trade_usd p <= Crypto5m.max_trade_usd p /\
  Crypto5m.min_trade_usd p <= 1500.

(** An opportunity with a positive price (and, for a mispriced order, a size
    that is not negative). *)
Definition quoted (opp : Crypto5m.opportunity (F := Q)) : Prop :=
  0 < Spec.price_sum opp /\
  match opp with
  | Crypto5m.OppMispriced o => 0 <= Crypto5m.mis_size o
  | _ => True
  end.

Definition in_unit (u : Q) : Prop := 0 <= u <= 1.

(** [simulate_trade] on a quoted opportunity, for draws in [0, 1]: it
    returns; a filled trade pays between the quoted price and the price plus
    the largest slippage; its size in dollars is the shares times the cost,
    not negative, and within [max_trade_usd] and the cap of 1500; the net
    P&L is at most the gross.  An arbitrage or a snipe is filled for at least
    three quarters of [min_trade_usd], at a cost below 1 and a gross P&L that
    is not negative; a mispriced order for at most the size on offer. *)
Theorem filled_trade_stays_within_budget
    (opp : Crypto5m.opportunity) (p : Crypto5m.params) (u1 u2 u3 : Q) :
  in_unit u1 -> in_unit u2 -> in_unit u3 -> sane_sizes p -> quoted opp ->
  exists r,
    Crypto5m.simulate_trade opp p u1 u2 u3 = Ok r /\
    forall t, r = Crypto5m.Filled t ->
      Spec.price_sum opp <= Crypto5m.t_cost t /\
      Crypto5m.t_cost t <= Spec.price_sum opp + Crypto5m.slippage_pct p / 100 /\
      Crypto5m.t_shares t * Crypto5m.t_cost t == Crypto5m.t_size_usd t /\
      0 <= Crypto5m.t_size_usd t /\
      Crypto5m.t_size_usd t <= Crypto5m.max_trade_usd p /\
      Crypto5m.t_size_usd t <= 1500 /\
      Crypto5m.t_net_pnl t <= Crypto5m.t_gross_pnl t /\
      match opp with
      | Crypto5m.OppMispriced o =>
          0 <= Crypto5m.t_shares t /\ Crypto5m.t_shares t <= Crypto5m.mis_size o
      | _ =>
          (3 # 4) * Crypto5m.min_trade_usd p <= Crypto5m.t_size_usd t /\
          Crypto5m.t_cost t < 1 /\ 0 <= Crypto5m.t_gross_pnl t
      end.
Proof.
  intros U1 U2 U3 (Hs & Hg & Hm0 & Hmm & Hm15) [Hq Hsz].
  assert (Hcap : pymin (Crypto5m.max_trade_usd p) 1500 <= Crypto5m.max_trade_usd p /\
                 pymin (Crypto5m.max_trade_usd p) 1500 <= 1500 /\
                 Crypto5m.min_trade_usd p <= pymin (Crypto5m.max_trade_usd p) 1500).
  { destruct (pymin_Q (Crypto5m.max_trade_usd p) 1500) as (A & B & [E | E]);
      rewrite E in A, B |- *; repeat split; lra. }
  destruct Hcap as (Hc1 & Hc2 & Hc3).
  assert (Hslip : 0 <= Crypto5m.uniform 0 (Crypto5m.slippage_pct p / 100) u1
                  <= Crypto5m.slippage_pct p / 100).
  { apply uniform_between; [|exact U1].
    apply Qle_shift_div_l; [reflexivity | lra]. }
  assert (Hfill : 3 # 4 <= Crypto5m.uniform 0.75 1.0 u2 <= 1).
  { destruct (@uniform_between 0.75 1.0 u2) as [A B]; [discriminate | exact U2 |].
    split; lra. }
  pose proof (@uniform_between _ _ u3 Hc3 U3) as Hsize.
  pose proof (@product_between _ _ _ _ Hm0 Hsize Hfill) as Hbudget.
  destruct opp as [o | o | o]; unfold Crypto5m.simulate_trade;
    cbn [Spec.price_sum] in Hq |- *;
    cbn [lit fadd fsub fmul fdiv fleb feqb QFloat] in Hq |- *;
    set (slip := Crypto5m.uniform 0 (Crypto5m.slippage_pct p / 100) u1) in *;
    set (fill := Crypto5m.uniform 0.75 1.0 u2) in *;
    set (cap := pymin (Crypto5m.max_trade_usd p) 1500) in *;
    set (size := Crypto5m.uniform (Crypto5m.min_trade_usd p) cap u3) in *;
    match goal with
    | |- context [pydiv _ ?c] => set (cost := c) in *
    end;
    assert (Hcost : 0 < cost) by (unfold cost; lra);
    assert (Hdiv : size * fill / cost * cost == size * fill) by (field; lra);
    assert (Hq0 : 0 <= size * fill / cost)
      by (apply Qle_shift_div_l; [exact Hcost | lra]);
    assert (Hpd : pydiv (size * fill) cost = Ok (size * fill / cost))
      by (unfold pydiv; cbn [feqb fdiv lit QFloat];
          assert (Qeq_bool cost 0 = false) as -> by (apply Qeqb_false; lra);
          reflexivity).
  - destruct (Qle_bool 1.0 cost) eqn:E1; qprops.
    + eexists. split; [reflexivity|]. intros t Ht. discriminate Ht.
    + rewrite Hpd. cbn [bind].
      eexists. split; [reflexivity|]. intros t Ht. injection Ht as <-.
      cbn [Crypto5m.t_cost Crypto5m.t_shares Crypto5m.t_size_usd Crypto5m.t_net_pnl
             Crypto5m.t_gross_pnl].
      assert (Hgr : 0 <= size * fill / cost * (1.0 - cost)).
      { apply Qmult_le_0_compat; [exact Hq0 | lra]. }
      unfold cost in *. clearbody slip fill cap size.
      repeat split; try lra; try exact Hdiv; exact Hgr.
  - destruct (Qle_bool 1.0 cost) eqn:E1; qprops.
    + eexists. split; [reflexivity|]. intros t Ht. discriminate Ht.
    + rewrite Hpd. cbn [bind].
      eexists. split; [reflexivity|]. intros t Ht. injection Ht as <-.
      cbn [Crypto5m.t_cost Crypto5m.t_shares Crypto5m.t_size_usd Crypto5m.t_net_pnl
             Crypto5m.t_gross_pnl].
      assert (Hgr : 0 <= size * fill / cost * (1.0 - cost)).
      { apply Qmult_le_0_compat; [exact Hq0 | lra]. }
      assert (Hgas : 0 <= Crypto5m.gas_merge_usd p / 2).
      { apply Qle_shift_div_l; [reflexivity | lra]. }
      unfold cost in *. clearbody slip fill cap size.
      repeat split; try lra; try exact Hdiv; exact Hgr.
  - rewrite Hpd. cbn [bind].
    eexists. split; [reflexivity|]. intros t Ht. injection Ht as <-.
    cbn [Crypto5m.t_cost Crypto5m.t_shares Crypto5m.t_size_usd Crypto5m.t_net_pnl
           Crypto5m.t_gross_pnl].
    assert (Hav : 0 <= pymin (size * fill / cost) (Crypto5m.mis_size o) /\
                  pymin (size * fill / cost) (Crypto5m.mis_size o) <= size * fill / cost /\
                  pymin (size * fill / cost) (Crypto5m.mis_size o) <= Crypto5m.mis_size o).
    { destruct (pymin_Q (size * fill / cost) (Crypto5m.mis_size o)) as (A & B & [E | E]);
        rewrite E in A, B |- *; repeat split; lra. }
    set (avail := pymin (size * fill / cost) (Crypto5m.mis_size o)) in *.
    destruct Hav as (Ha0 & Ha1 & Ha2).
    assert (Hac : 0 <= avail * cost <= size * fill).
    { split; [apply Qmult_le_0_compat; lra|].
      rewrite <- Hdiv. apply Qmult_le_compat_r; lra. }
    assert (Hgas : 0 <= Crypto5m.gas_merge_usd p / 4).
    { apply Qle_shift_div_l; [reflexivity | lra]. }
    assert (Hcs : Crypto5m.mis_price o <= cost /\
                  cost <= Crypto5m.mis_price o + Crypto5m.slippage_pct p / 100)
      by (unfold cost; lra).
    clearbody slip fill cap size cost avail.
    repeat split; try lra; reflexivity.
Qed.

Lemma filled_trade_stays_within_budget_witness :
  exists t,
    Crypto5m.simulate_trade (F := Q) Examples.mispriced_045
      Crypto5m.DEFAULT_PARAMS 0.5 0.5 0.5 = Ok (Crypto5m.Filled t) /\
    0 <= Crypto5m.t_size_usd t /\ Crypto5m.t_size_usd t <= 1500 /\
    Crypto5m.t_shares t * Crypto5m.t_cost t == Crypto5m.t_size_usd t /\
    Crypto5m.t_shares t <= 20.
Proof.
  destruct (@filled_trade_stays_within_budget Examples.mispriced_045
              Crypto5m.DEFAULT_PARAMS 0.5 0.5 0.5) as (r & Hr & Ht).
  - split; discriminate.
  - split; discriminate.
  - split; discriminate.
  - repeat split; discriminate.
  - split; [reflexivity | discriminate].
  - assert (E : exists t, r = Crypto5m.Filled t).
    { vm_compute in Hr. injection Hr as <-. now eexists. }
    destruct E as [t ->]. exists t. split; [exact Hr|].
    destruct (Ht t eq_refl) as (_ & _ & A & B & _ & C & _ & _ & D).
    repeat split; assumption.
Defined.

(** The one way [simulate_trade] can fail: it raises exactly when the price
    of the opportunity plus the drawn slippage is zero, and what it raises is
    then the [ZeroDivisionError] of the division by the cost.  Neither the
    scan nor the simulator catches it. *)
Theorem simulator_raises_only_on_a_zero_cost
    (opp : Crypto5m.opportunity) (p : Crypto5m.params) (u1 u2 u3 : Q) :
  ((exists e, Crypto5m.simulate_trade opp p u1 u2 u3 = Raise e) <->
   Spec.drawn_cost opp p u1 == 0) /\
  (forall e, Crypto5m.simulate_trade opp p u1 u2 u3 = Raise e -> e = ZeroDivisionError).
Proof.
  unfold Spec.drawn_cost, Spec.drawn_slippage.
  destruct opp as [o | o | o]; unfold Crypto5m.simulate_trade, Crypto5m.uniform, pydiv;
    cbn [Spec.price_sum];
    cbn [lit fadd fsub fmul fdiv fleb feqb QFloat];
    match goal with
    | |- context [Qeq_bool ?c 0] => set (cost := c)
    end.
  - destruct (Qeq_bool cost 0) eqn:E0; qprops.
    + assert (Qle_bool 1.0 cost = false) as -> by (apply Qleb_false; rewrite E0; reflexivity).
      cbn [bind]. split.
      * split; [intros _; exact E0 | intros _; now eexists].
      * intros e He. now injection He as <-.
    + destruct (Qle_bool 1.0 cost); cbn [bind]; split;
        try (split; [intros [e He]; discriminate He | intros H; contradiction]);
        intros e He; discriminate He.
  - destruct (Qeq_bool cost 0) eqn:E0; qprops.
    + assert (Qle_bool 1.0 cost = false) as -> by (apply Qleb_false; rewrite E0; reflexivity).
      cbn [bind]. split.
      * split; [intros _; exact E0 | intros _; now eexists].
      * intros e He. now injection He as <-.
    + destruct (Qle_bool 1.0 cost); cbn [bind]; split;
        try (split; [intros [e He]; discriminate He | intros H; contradiction]);
        intros e He; discriminate He.
  - destruct (Qeq_bool cost 0) eqn:E0; qprops; cbn [bind]; split.
    + split; [intros _; exact E0 | intros _; now eexists].
    + intros e He. now injection He as <-.
    + split; [intros [e He]; discriminate He | intros H; contradiction].
    + intros e He. discriminate He.
Qed.

(** An ask at price zero under a cluster at 0.97, as the detector reports it. *)
Definition free_ask : Crypto5m.opportunity (F := Q) :=
  Crypto5m.OppMispriced
    {| Crypto5m.mis_crypto := Crypto5m.BTC;
       Crypto5m.mis_token := Crypto5m.YES;
       Crypto5m.mis_price := 0;
       Crypto5m.mis_size := 20;
       Crypto5m.mis_cluster_price := 0.97;
       Crypto5m.mis_discount_pct := 100;
       Crypto5m.mis_est_profit := 0.97 |}.

Lemma simulator_raises_only_on_a_zero_cost_witness :
  Crypto5m.simulate_trade free_ask Crypto5m.DEFAULT_PARAMS 0 0.5 0.5
  = Raise ZeroDivisionError /\
  (exists r, Crypto5m.simulate_trade free_ask Crypto5m.DEFAULT_PARAMS 0.5 0.5 0.5 = Ok r).
Proof.
  destruct (@simulator_raises_only_on_a_zero_cost free_ask Crypto5m.DEFAULT_PARAMS
              0 0.5 0.5) as [[_ Hr] He].
  destruct (Hr eq_refl) as [e H]. rewrite H, (He e H).
  split; [reflexivity|]. eexists. vm_compute. reflexivity.
Defined.

(* ================================================================== *)
(** * Further properties: the ledger a scan keeps *)
(* ================================================================== *)

Section Ledger.
Context {F : Type} `{PyFloat F}.
Import Crypto5m.

Definition strategy_eqb (a b : strategy) : bool :=
  match a, b with
  | StratArb, StratArb | StratSnipe, StratSnipe | StratMispriced, StratMispriced => true
  | _, _ => false
  end.

(** [strategy_stats[strat]] *)
Definition stats_of (s : strategy) (st : session (F := F)) : stats :=
  match s with
  | StratArb => stats_arb st
  | StratSnipe => stats_snipe st
  | StratMispriced => stats_mispriced st
  end.

(** The net P&L of the trades of a history, in the order they were booked. *)
Definition pnls (h : list (filled_trade (F := F) * F)) : list F :=
  map (fun x => t_net_pnl (fst x)) h.

(** The trades of one strategy, as the dashboard filters them. *)
Definition of_strategy (s : strategy) (h : list (filled_trade (F := F) * F))
  : list (filled_trade * F) :=
  filter (fun x => strategy_eqb (t_strategy (fst x)) s) h.

(** The float sum the code accumulates with [+=], from left to right. *)
Definition sum_from (a : F) (xs : list F) : F := fold_left fadd xs a.

(** The successive values of that sum. *)
Fixpoint totals_from (a : F) (xs : list F) : list F :=
  match xs with
  | [] => []
  | x :: xs' => fadd a x :: totals_from (fadd a x) xs'
  end.

(** The ledger agrees with the trade history: the counters count its trades,
    the totals are the sums of its P&L added in booking order, the series
    holds the running totals, and the opportunity log is within its bound. *)
Definition books_kept (st : session (F := F)) : Prop :=
  total_trades st = Z.of_nat (List.length (trade_history st)) /\
  total_pnl st = sum_from (lit 0.0) (pnls (trade_history st)) /\
  pnl_series st = totals_from (lit 0.0) (pnls (trade_history st)) /\
  (forall s,
     trades (stats_of s st) = Z.of_nat (List.length (of_strategy s (trade_history st))) /\
     pnl (stats_of s st) = sum_from (lit 0.0) (pnls (of_strategy s (trade_history st)))) /\
  (List.length (opportunities st) <= 200)%nat.

(** [sum(strategy_stats[s]["opps"] for s in strategy_stats)] *)
Definition opps_counted (st : session (F := F)) : Z :=
  (opps (stats_arb st) + opps (stats_snipe st) + opps (stats_mispriced st))%Z.

(** Everything of the ledger but the opportunity counters of the strategies. *)
Definition frozen (st st' : session (F := F)) : Prop :=
  opportunities st' = opportunities st /\
  trade_history st' = trade_history st /\
  pnl_series st' = pnl_series st /\
  total_pnl st' = total_pnl st /\
  total_trades st' = total_trades st /\
  total_opps st' = total_opps st /\
  forall s, trades (stats_of s st') = trades (stats_of s st) /\
            pnl (stats_of s st') = pnl (stats_of s st).

Lemma frozen_refl (st : session) : frozen st st.
Proof. repeat split. Qed.

Lemma frozen_trans (st1 st2 st3 : session) :
  frozen st1 st2 -> frozen st2 st3 -> frozen st1 st3.
Proof.
  intros (A1 & A2 & A3 & A4 & A5 & A6 & A7) (B1 & B2 & B3 & B4 & B5 & B6 & B7).
  repeat split; try congruence.
  - rewrite (proj1 (B7 s)). apply A7.
  - rewrite (proj2 (B7 s)). apply A7.
Qed.

Lemma frozen_books_kept (st st' : session) :
  frozen st st' -> books_kept st -> books_kept st'.
Proof.
  intros (A1 & A2 & A3 & A4 & A5 & A6 & A7) (B1 & B2 & B3 & B4 & B5).
  unfold books_kept. rewrite A1, A2, A3, A4, A5.
  repeat split; try assumption.
  - rewrite (proj1 (A7 s)). apply B4.
  - rewrite (proj2 (A7 s)). apply B4.
Qed.

Lemma frozen_count_opp (s : strategy) (st : session) :
  frozen st (snd (count_opp s st)) /\
  opps_counted (snd (count_opp s st)) = (opps_counted st + 1)%Z.
Proof.
  unfold opps_counted.
  destruct s; cbn; (split; [repeat split; destruct s; reflexivity | lia]).
Qed.

Lemma frozen_rotate_period (w : world) (now_start : Z) (st : session) :
  frozen st (rotate_period w now_start st) /\
  opps_counted (rotate_period w now_start st) = opps_counted st.
Proof.
  unfold rotate_period, refresh_market_data, refresh_orderbooks_only.
  destruct (negb _); [|destruct (market_data st)];
    (split; [repeat split; destruct s; reflexivity | reflexivity]).
Qed.

(** ** The detection loop: only the opportunity counters move *)

(** An action that extends the list of opportunities [acc], counting each
    one it adds; when it raises, the counters have not gone down. *)
Definition counting (m : M (list opportunity)) (acc : list (opportunity (F := F))) : Prop :=
  forall st,
    frozen st (snd (m st)) /\
    match fst (m st) with
    | Ok all =>
        exists new, all = acc ++ new /\
          opps_counted (snd (m st)) = (opps_counted st + Z.of_nat (List.length new))%Z
    | Raise _ => (opps_counted st <= opps_counted (snd (m st)))%Z
    end.

Lemma counting_ret (acc : list opportunity) : counting (ret acc) acc.
Proof.
  intros st. cbn. split; [apply frozen_refl|].
  exists []. rewrite app_nil_r. split; [reflexivity | cbn; lia].
Qed.

Lemma counting_add (s : strategy) (o : opportunity) (acc : list opportunity) :
  counting (bindM (count_opp s) (fun _ => ret (acc ++ [o]))) acc.
Proof.
  intros st. destruct (frozen_count_opp s st) as [Fz Hc].
  unfold bindM, ret. unfold count_opp, modify in *. cbn [fst snd] in *.
  split; [exact Fz|]. exists [o]. split; [reflexivity | exact Hc].
Qed.

Lemma counting_lift {A : Type} (r : result A) (k : A -> M (list opportunity))
    (acc : list opportunity) :
  (forall a, counting (k a) acc) -> counting (bindM (lift r) k) acc.
Proof.
  intros Hk st. unfold bindM, lift. destruct r as [a|e]; [apply Hk|].
  cbn. split; [apply frozen_refl | lia].
Qed.

Lemma counting_gets {A : Type} (f : session -> A) (k : A -> M (list opportunity))
    (acc : list opportunity) :
  (forall a, counting (k a) acc) -> counting (bindM (gets f) k) acc.
Proof. intros Hk st. unfold bindM, gets. apply Hk. Qed.

Lemma counting_bind (m : M (list opportunity)) (k : list opportunity -> M (list opportunity))
    (acc : list opportunity) :
  counting m acc -> (forall acc', counting (k acc') acc') -> counting (bindM m k) acc.
Proof.
  intros Hm Hk st. unfold bindM. specialize (Hm st).
  destruct (m st) as [[acc'|e] st1]; cbn [fst snd] in *; [|exact Hm].
  destruct Hm as [Fz (new & -> & Hc)]. specialize (Hk (acc ++ new) st1).
  destruct Hk as [Fz' Hk']. split; [exact (frozen_trans Fz Fz')|].
  destruct (fst (k (acc ++ new) st1)) as [all|e].
  - destruct Hk' as (new' & -> & Hc'). exists (new ++ new').
    split; [now rewrite app_assoc|]. rewrite length_app. lia.
  - lia.
Qed.

Lemma counting_foldM {A : Type} (body : list opportunity -> A -> M (list opportunity))
    (l : list A) (acc : list opportunity) :
  (forall acc x, counting (body acc x) acc) -> counting (foldM body l acc) acc.
Proof.
  intros Hb. revert acc. induction l as [|x l IH]; intros acc; cbn [foldM].
  - apply counting_ret.
  - apply counting_bind; [apply Hb | exact IH].
Qed.

Lemma counting_scan_symbol (time_left : F) (p : params)
    (all_opps : list opportunity) (sym : symbol) :
  counting (scan_symbol time_left p all_opps sym) all_opps.
Proof.
  unfold scan_symbol.
  apply counting_gets. intros ob.
  destruct (_ && _); [apply counting_ret|].
  apply counting_lift. intros arb.
  apply counting_bind.
  { destruct arb; [apply counting_add | apply counting_ret]. }
  intros all1.
  apply counting_lift. intros snipe.
  apply counting_bind.
  { destruct snipe; [apply counting_add | apply counting_ret]. }
  intros all2.
  apply counting_lift. intros mispx.
  apply counting_foldM. intros acc m. apply counting_add.
Qed.

(** ** The booking loop *)

(** One step of the ledger: it stays in agreement with the history, the
    history only grows, and the opportunity counters are left alone. *)
Definition booked (st st' : session (F := F)) : Prop :=
  (books_kept st -> books_kept st') /\
  (exists ts, trade_history st' = trade_history st ++ ts) /\
  total_opps st' = total_opps st /\
  opps_counted st' = opps_counted st.

Definition booking {A : Type} (m : M (F := F) A) : Prop :=
  forall st, booked st (snd (m st)).

Lemma booked_refl (st : session) : booked st st.
Proof.
  split; [auto|]. split; [exists []; now rewrite app_nil_r|]. split; reflexivity.
Qed.

Lemma booked_trans (st1 st2 st3 : session) :
  booked st1 st2 -> booked st2 st3 -> booked st1 st3.
Proof.
  intros (A1 & (ts & A2) & A3 & A4) (B1 & (ts' & B2) & B3 & B4).
  split; [auto|]. split; [|split; congruence].
  exists (ts ++ ts'). rewrite B2, A2. now rewrite app_assoc.
Qed.

Lemma frozen_booked (st st' : session) :
  frozen st st' -> opps_counted st' = opps_counted st -> booked st st'.
Proof.
  intros Fz Hc. split; [apply frozen_books_kept; exact Fz|].
  destruct Fz as (A1 & A2 & A3 & A4 & A5 & A6 & A7).
  split; [exists []; now rewrite app_nil_r|]. split; assumption.
Qed.

Lemma booking_ret {A : Type} (a : A) : booking (ret a).
Proof. intros st. apply booked_refl. Qed.

Lemma booking_bind {A B : Type} (m : M A) (k : A -> M B) :
  booking m -> (forall a, booking (k a)) -> booking (bindM m k).
Proof.
  intros Hm Hk st. unfold bindM. specialize (Hm st).
  destruct (m st) as [[a|e] st1]; cbn [snd] in *.
  - eapply booked_trans; [exact Hm | apply Hk].
  - exact Hm.
Qed.

Lemma booking_foldM {A B : Type} (body : B -> A -> M B) (l : list A) (acc : B) :
  (forall b a, booking (body b a)) -> booking (foldM body l acc).
Proof.
  intros Hb. revert acc. induction l as [|x l IH]; intros acc; cbn [foldM].
  - apply booking_ret.
  - apply booking_bind; [apply Hb | exact IH].
Qed.

Lemma sum_from_snoc (a : F) (xs : list F) (x : F) :
  sum_from a (xs ++ [x]) = fadd (sum_from a xs) x.
Proof. unfold sum_from. now rewrite fold_left_app. Qed.

Lemma totals_from_snoc (a : F) (xs : list F) (x : F) :
  totals_from a (xs ++ [x]) = totals_from a xs ++ [fadd (sum_from a xs) x].
Proof.
  revert a. induction xs as [|y xs IH]; intros a; cbn; [reflexivity|].
  now rewrite IH.
Qed.

(** A filled trade is of the strategy of its opportunity. *)
Lemma simulate_trade_strategy (opp : opportunity) (p : params) (u1 u2 u3 : F)
    (t : filled_trade) :
  simulate_trade opp p u1 u2 u3 = Ok (Filled t) -> t_strategy t = opp_strategy opp.
Proof.
  unfold simulate_trade. destruct opp as [o | o | o]; cbn [opp_strategy].
  - destruct (fleb _ _); [discriminate|].
    destruct (pydiv _ _); cbn [bind]; [|discriminate].
    intros E. injection E as <-. reflexivity.
  - destruct (fleb _ _); [discriminate|].
    destruct (pydiv _ _); cbn [bind]; [|discriminate].
    intros E. injection E as <-. reflexivity.
  - destruct (pydiv _ _); cbn [bind]; [|discriminate].
    intros E. injection E as <-. reflexivity.
Qed.

Lemma strategy_eqb_refl (s : strategy) : strategy_eqb s s = true.
Proof. now destruct s. Qed.

Lemma strategy_eqb_eq (a b : strategy) : strategy_eqb a b = true -> a = b.
Proof. destruct a, b; (reflexivity || discriminate). Qed.

Lemma stats_of_map_stats (s s' : strategy) (f : stats -> stats) (st : session) :
  stats_of s (map_stats s' f st)
  = if strategy_eqb s s' then f (stats_of s st) else stats_of s st.
Proof. destruct s, s'; reflexivity. Qed.

(** Booking the filled trade [t] of strategy [s]. *)
Definition book_trade (t : filled_trade (F := F)) (time_left : F) (st : session) : session :=
  map_stats (t_strategy t)
    (fun s => {| opps := opps s;
                 trades := trades s + 1;
                 pnl := fadd (pnl s) (t_net_pnl t) |})
    (with_ledger st (opportunities st)
       (trade_history st ++ [(t, time_left)])
       (pnl_series st ++ [fadd (total_pnl st) (t_net_pnl t)])
       (fadd (total_pnl st) (t_net_pnl t)) (total_trades st + 1) (total_opps st)
       (last_scan_ts st)).

Lemma booked_book_trade (t : filled_trade) (time_left : F) (st : session) :
  booked st (book_trade t time_left st).
Proof.
  split; [|split; [|split]].
  - intros (B1 & B2 & B3 & B4 & B5). unfold books_kept.
    assert (Eh : trade_history (book_trade t time_left st)
                 = trade_history st ++ [(t, time_left)])
      by (unfold book_trade; destruct (t_strategy t); reflexivity).
    assert (Et : total_trades (book_trade t time_left st) = (total_trades st + 1)%Z)
      by (unfold book_trade; destruct (t_strategy t); reflexivity).
    assert (Ep : total_pnl (book_trade t time_left st)
                 = fadd (total_pnl st) (t_net_pnl t))
      by (unfold book_trade; destruct (t_strategy t); reflexivity).
    assert (Es : pnl_series (book_trade t time_left st)
                 = pnl_series st ++ [fadd (total_pnl st) (t_net_pnl t)])
      by (unfold book_trade; destruct (t_strategy t); reflexivity).
    assert (Eo : opportunities (book_trade t time_left st) = opportunities st)
      by (unfold book_trade; destruct (t_strategy t); reflexivity).
    rewrite Eh, Et, Ep, Es, Eo. unfold pnls. rewrite map_app. cbn [map fst].
    fold (pnls (trade_history st)).
    rewrite sum_from_snoc, totals_from_snoc, <- B2, <- B3, length_app. cbn [List.length].
    split; [lia|]. split; [reflexivity|]. split; [reflexivity|]. split; [|exact B5].
    intros s. unfold book_trade. rewrite stats_of_map_stats.
    unfold of_strategy. rewrite filter_app. cbn [filter fst].
    fold (of_strategy s (trade_history st)).
    destruct (B4 s) as [C1 C2].
    assert (Ew : forall a b c d e f g,
               stats_of s (with_ledger st a b c d e f g) = stats_of s st)
      by (intros; destruct s; reflexivity).
    rewrite Ew.
    destruct (strategy_eqb (t_strategy t) s) eqn:E.
    + apply strategy_eqb_eq in E. subst s. rewrite strategy_eqb_refl. cbn [trades pnl].
      unfold pnls. rewrite map_app, length_app. cbn [map fst List.length].
      fold (pnls (of_strategy (t_strategy t) (trade_history st))).
      rewrite sum_from_snoc, C1, C2. split; [lia | reflexivity].
    + assert (strategy_eqb s (t_strategy t) = false) as ->
        by (destruct s, (t_strategy t); (reflexivity || discriminate)).
      rewrite app_nil_r. split; assumption.
  - exists [(t, time_left)]. unfold book_trade. destruct (t_strategy t); reflexivity.
  - unfold book_trade. destruct (t_strategy t); reflexivity.
  - unfold book_trade, opps_counted. destruct (t_strategy t); reflexivity.
Qed.

Lemma booking_record_and_simulate (w : world) (time_left : F) (p : params)
    (drawn : nat) (opp : opportunity) :
  booking (record_and_simulate w time_left p drawn opp).
Proof.
  intros st. unfold record_and_simulate, bindM, modify, lift, ret.
  set (st1 := with_ledger st (firstn 200 ((opp, time_left) :: opportunities st))
                (trade_history st) (pnl_series st) (total_pnl st) (total_trades st)
                (total_opps st) (last_scan_ts st)).
  assert (B1 : booked st st1).
  { split; [|split; [exists []; now rewrite app_nil_r | split; reflexivity]].
    intros (A1 & A2 & A3 & A4 & A5). unfold books_kept, st1.
    cbn [total_trades trade_history total_pnl pnl_series opportunities with_ledger].
    split; [exact A1|]. split; [exact A2|]. split; [exact A3|]. split.
    - intros s. destruct s.
      + exact (A4 StratArb).
      + exact (A4 StratSnipe).
      + exact (A4 StratMispriced).
    - apply firstn_le_length. }
  destruct (simulate_trade opp p _ _ _) as [[reason | t] | e] eqn:E; cbn [snd];
    try exact B1.
  apply (booked_trans B1).
  pose proof (simulate_trade_strategy _ _ _ _ _ E) as Hs. rewrite <- Hs.
  apply booked_book_trade.
Qed.

(** [run_scan], block by block. *)
Lemma run_scan_blocks (w : world) (st : session) :
  run_scan w st
  = let now_start := get_period_start (clock w 0) in
    let time_left := time_left_in_period now_start (clock w 1) in
    match foldM (scan_symbol time_left (s_params st)) CRYPTO_MARKETS []
            (rotate_period w now_start st) with
    | (Ok all_opps, st2) =>
        match foldM (record_and_simulate w time_left (s_params st)) all_opps 0%nat
                (with_ledger st2 (opportunities st2) (trade_history st2) (pnl_series st2)
                   (total_pnl st2) (total_trades st2)
                   (total_opps st2 + Z.of_nat (List.length all_opps))
                   (last_scan_ts st2)) with
        | (Ok _, st4) =>
            (Ok tt,
             with_ledger st4 (opportunities st4) (trade_history st4) (pnl_series st4)
               (total_pnl st4) (total_trades st4) (total_opps st4) (clock w 2))
        | (Raise e, st4) => (Raise e, st4)
        end
    | (Raise e, st2) => (Raise e, st2)
    end.
Proof. reflexivity. Qed.

(** The scan as one step of the ledger, up to the opportunity counters. *)
Lemma run_scan_books_kept (w : world) (st : session) :
  books_kept st ->
  books_kept (snd (run_scan w st)) /\
  exists ts, trade_history (snd (run_scan w st)) = trade_history st ++ ts.
Proof.
  intros Hk. rewrite run_scan_blocks. cbv zeta.
  set (now_start := get_period_start (clock w 0)).
  set (time_left := time_left_in_period now_start (clock w 1)).
  destruct (frozen_rotate_period w now_start st) as [Fz0 _].
  set (st1 := rotate_period w now_start st) in *.
  pose proof (@counting_foldM _ (scan_symbol time_left (s_params st)) CRYPTO_MARKETS []
                (counting_scan_symbol time_left (s_params st)) st1) as [Fz1 _].
  destruct (foldM (scan_symbol time_left (s_params st)) CRYPTO_MARKETS [] st1)
    as [[all_opps|e] st2]; cbn [fst snd] in Fz1 |- *;
    pose proof (frozen_trans Fz0 Fz1) as Fz2;
    pose proof (frozen_books_kept Fz2 Hk) as K2.
  - set (st3 := with_ledger st2 (opportunities st2) (trade_history st2) (pnl_series st2)
                  (total_pnl st2) (total_trades st2)
                  (total_opps st2 + Z.of_nat (List.length all_opps)) (last_scan_ts st2)).
    assert (K3 : books_kept st3).
    { destruct K2 as (A1 & A2 & A3 & A4 & A5). unfold books_kept, st3.
      cbn [total_trades trade_history total_pnl pnl_series opportunities with_ledger].
      split; [exact A1|]. split; [exact A2|]. split; [exact A3|]. split; [|exact A5].
      intros s. destruct s.
      - exact (A4 StratArb).
      - exact (A4 StratSnipe).
      - exact (A4 StratMispriced). }
    assert (H3 : trade_history st3 = trade_history st)
      by (destruct Fz2 as (_ & E & _); exact E).
    pose proof (@booking_foldM _ _ (record_and_simulate w time_left (s_params st))
                  all_opps 0%nat
                  (booking_record_and_simulate w time_left (s_params st)) st3)
      as (B1 & (ts & B2) & _).
    destruct (foldM (record_and_simulate w time_left (s_params st)) all_opps 0%nat st3)
      as [[n|e] st4]; cbn [fst snd] in B1, B2 |- *.
    + specialize (B1 K3). destruct B1 as (A1 & A2 & A3 & A4 & A5). split.
      * unfold books_kept.
        cbn [total_trades trade_history total_pnl pnl_series opportunities with_ledger].
        split; [exact A1|]. split; [exact A2|]. split; [exact A3|]. split; [|exact A5].
        intros s. destruct s.
        -- exact (A4 StratArb).
        -- exact (A4 StratSnipe).
        -- exact (A4 StratMispriced).
      * exists ts. cbn [trade_history with_ledger]. now rewrite B2, H3.
    + split; [exact (B1 K3) | exists ts; now rewrite B2, H3].
  - split; [exact K2|]. destruct Fz2 as (_ & E2 & _).
    exists []. now rewrite app_nil_r.
Qed.

(** The opportunity counters of one scan, whatever the world answers and
    whether the scan returns or raises: a ledger that agrees with its trade
    history still does afterwards, the history has only grown, [total_opps]
    has grown by at most what the three strategy counters have grown by, and
    by exactly that when the scan returns. *)
Theorem scan_keeps_the_ledger_in_step (w : world) (st : session) :
  books_kept st ->
  books_kept (snd (run_scan w st)) /\
  (exists ts, trade_history (snd (run_scan w st)) = trade_history st ++ ts) /\
  (0 <= total_opps (snd (run_scan w st)) - total_opps st
     <= opps_counted (snd (run_scan w st)) - opps_counted st)%Z /\
  (fst (run_scan w st) = Ok tt ->
   (total_opps (snd (run_scan w st)) - total_opps st
    = opps_counted (snd (run_scan w st)) - opps_counted st)%Z).
Proof.
  intros Hk. destruct (run_scan_books_kept w Hk) as [K' H'].
  split; [exact K'|]. split; [exact H'|]. clear K' H'.
  rewrite run_scan_blocks. cbv zeta.
  set (now_start := get_period_start (clock w 0)).
  set (time_left := time_left_in_period now_start (clock w 1)).
  destruct (frozen_rotate_period w now_start st) as [Fz0 Hc0].
  set (st1 := rotate_period w now_start st) in *.
  pose proof (@counting_foldM _ (scan_symbol time_left (s_params st)) CRYPTO_MARKETS []
                (counting_scan_symbol time_left (s_params st)) st1) as [Fz1 Hc1].
  destruct (foldM (scan_symbol time_left (s_params st)) CRYPTO_MARKETS [] st1)
    as [[all_opps|e] st2]; cbn [fst snd] in Fz1, Hc1 |- *;
    pose proof (frozen_trans Fz0 Fz1) as Fz2;
    destruct Fz2 as (_ & _ & _ & _ & _ & E6 & _).
  - destruct Hc1 as (new & Hn & Hc1). cbn [app] in Hn. subst new.
    set (st3 := with_ledger st2 (opportunities st2) (trade_history st2) (pnl_series st2)
                  (total_pnl st2) (total_trades st2)
                  (total_opps st2 + Z.of_nat (List.length all_opps)) (last_scan_ts st2)).
    assert (T3 : total_opps st3 = (total_opps st + Z.of_nat (List.length all_opps))%Z)
      by (unfold st3; cbn; now rewrite E6).
    assert (C3 : opps_counted st3 = (opps_counted st + Z.of_nat (List.length all_opps))%Z)
      by (unfold st3, opps_counted in *; cbn; lia).
    pose proof (@booking_foldM _ _ (record_and_simulate w time_left (s_params st))
                  all_opps 0%nat
                  (booking_record_and_simulate w time_left (s_params st)) st3)
      as (_ & _ & B3 & B4).
    destruct (foldM (record_and_simulate w time_left (s_params st)) all_opps 0%nat st3)
      as [[n|e] st4]; cbn [fst snd] in B3, B4 |- *.
    + unfold opps_counted in *. cbn. split; [lia | intros _; lia].
    + split; [lia | discriminate].
  - split; [lia | discriminate].
Qed.

End Ledger.

Lemma books_kept_init_state {F : Type} `{PyFloat F} :
  books_kept (Crypto5m.init_state (F := F)).
Proof.
  unfold books_kept. cbn.
  split; [reflexivity|]. split; [reflexivity|]. split; [reflexivity|].
  split; [intros s; destruct s; split; reflexivity | lia].
Qed.

(** From the initial session, in the world where only the BTC market exists
    and quotes 0.48 and 0.49: the scan returns, books one arbitrage trade and
    counts one opportunity on both counters. *)
Lemma scan_keeps_the_ledger_in_step_witness :
  books_kept (snd (Crypto5m.run_scan btc_only Crypto5m.init_state)) /\
  (exists ts,
     Crypto5m.trade_history (snd (Crypto5m.run_scan btc_only Crypto5m.init_state))
     = Crypto5m.trade_history (Crypto5m.init_state (F := Q)) ++ ts) /\
  (0 <= Crypto5m.total_opps (snd (Crypto5m.run_scan btc_only Crypto5m.init_state))
        - Crypto5m.total_opps (Crypto5m.init_state (F := Q))
     <= opps_counted (snd (Crypto5m.run_scan btc_only Crypto5m.init_state))
        - opps_counted (Crypto5m.init_state (F := Q)))%Z /\
  (fst (Crypto5m.run_scan btc_only Crypto5m.init_state) = Ok tt ->
   (Crypto5m.total_opps (snd (Crypto5m.run_scan btc_only Crypto5m.init_state))
    - Crypto5m.total_opps (Crypto5m.init_state (F := Q))
    = opps_counted (snd (Crypto5m.run_scan btc_only Crypto5m.init_state))
      - opps_counted (Crypto5m.init_state (F := Q)))%Z).
Proof.
  exact (@scan_keeps_the_ledger_in_step Q _ btc_only Crypto5m.init_state
           books_kept_init_state).
Defined.

(** ** The totals of the dashboard, in exact arithmetic *)

(** The session after the scans of the worlds [ws], one after the other. *)
Definition scans (ws : list (Crypto5m.world (F := Q))) (st : Crypto5m.session (F := Q))
  : Crypto5m.session :=
  fold_left (fun st w => snd (Crypto5m.run_scan w st)) ws st.

Lemma sum_from_shift (a : Q) (xs : list Q) : sum_from a xs == a + sum_from 0 xs.
Proof.
  unfold sum_from. revert a. induction xs as [|x xs IH]; intros a; cbn [fold_left].
  - lra.
  - rewrite (IH (fadd a x)), (IH (fadd 0 x)). cbn [fadd QFloat]. lra.
Qed.

Lemma sum_by_strategy (h : list (Crypto5m.filled_trade (F := Q) * Q)) :
  sum_from 0 (pnls h)
  == sum_from 0 (pnls (of_strategy Crypto5m.StratArb h))
     + sum_from 0 (pnls (of_strategy Crypto5m.StratSnipe h))
     + sum_from 0 (pnls (of_strategy Crypto5m.StratMispriced h)) /\
  List.length h
  = (List.length (of_strategy Crypto5m.StratArb h)
     + List.length (of_strategy Crypto5m.StratSnipe h)
     + List.length (of_strategy Crypto5m.StratMispriced h))%nat.
Proof.
  induction h as [|[t tl] h [IH1 IH2]]; [split; reflexivity|].
  unfold of_strategy, pnls in *. cbn [filter map fst].
  destruct (Crypto5m.t_strategy t); cbn [strategy_eqb map fst List.length];
    (split; [|lia]);
    change (fold_left fadd ?l ?a) with (sum_from a l) in *;
    unfold sum_from in *; cbn [fold_left];
    change (fold_left fadd ?l ?a) with (sum_from a l) in *;
    rewrite !(sum_from_shift (fadd 0 _)); cbn [fadd QFloat]; lra.
Qed.

Lemma totals_from_last_any (a d : Q) (xs : list Q) :
  last (totals_from a xs) d = match xs with [] => d | _ :: _ => sum_from a xs end.
Proof.
  unfold sum_from. revert a. induction xs as [|x xs IH]; intros a; [reflexivity|].
  cbn [totals_from fold_left]. specialize (IH (fadd a x)).
  destruct xs as [|y xs]; [reflexivity|].
  cbn [totals_from] in IH |- *. cbn [last] in IH |- *. exact IH.
Qed.

Lemma totals_from_last (a : Q) (xs : list Q) :
  List.length (totals_from a xs) = List.length xs /\
  last (totals_from a xs) a = sum_from a xs.
Proof.
  split.
  - revert a. induction xs as [|x xs IH]; intros a; [reflexivity|].
    cbn [totals_from List.length]. now rewrite IH.
  - rewrite totals_from_last_any. now destruct xs.
Qed.

(** After any number of scans, whatever the worlds answered and whether the
    scans returned or raised, the dashboard adds up: the total P&L is the sum
    of the P&L of the three strategies, the trade counter the sum of their
    trade counters and the length of the history and of the P&L series, whose
    last point is the total P&L. *)
Theorem dashboard_totals_add_up
    (ws : list Crypto5m.world) (st : Crypto5m.session (F := Q)) :
  books_kept st ->
  let st' := scans ws st in
  Crypto5m.total_pnl st'
  == Crypto5m.pnl (Crypto5m.stats_arb st') + Crypto5m.pnl (Crypto5m.stats_snipe st')
     + Crypto5m.pnl (Crypto5m.stats_mispriced st') /\
  (Crypto5m.total_trades st'
   = Crypto5m.trades (Crypto5m.stats_arb st') + Crypto5m.trades (Crypto5m.stats_snipe st')
     + Crypto5m.trades (Crypto5m.stats_mispriced st'))%Z /\
  Crypto5m.total_trades st' = Z.of_nat (List.length (Crypto5m.trade_history st')) /\
  List.length (Crypto5m.pnl_series st') = List.length (Crypto5m.trade_history st') /\
  last (Crypto5m.pnl_series st') 0.0 = Crypto5m.total_pnl st' /\
  (exists ts, Crypto5m.trade_history st' = Crypto5m.trade_history st ++ ts).
Proof.
  intros Hk st'.
  assert (K : books_kept st' /\
              exists ts, Crypto5m.trade_history st' = Crypto5m.trade_history st ++ ts).
  { unfold st', scans. clear st'. revert st Hk.
    induction ws as [|w ws IH]; intros st Hk; cbn [fold_left].
    - split; [exact Hk | exists []; now rewrite app_nil_r].
    - destruct (run_scan_books_kept w Hk) as [K1 [ts1 H1]].
      destruct (IH _ K1) as [K2 [ts2 H2]]. split; [exact K2|].
      exists (ts1 ++ ts2). now rewrite H2, H1, app_assoc. }
  destruct K as [(A1 & A2 & A3 & A4 & A5) Hh].
  destruct (sum_by_strategy (Crypto5m.trade_history st')) as [S1 S2].
  destruct (A4 Crypto5m.StratArb) as [Ta Pa].
  destruct (A4 Crypto5m.StratSnipe) as [Ts Ps].
  destruct (A4 Crypto5m.StratMispriced) as [Tm Pm].
  cbn [stats_of] in Ta, Pa, Ts, Ps, Tm, Pm.
  destruct (totals_from_last (lit 0.0) (pnls (Crypto5m.trade_history st'))) as [L1 L2].
  split; [|split; [|split; [|split; [|split]]]].
  - rewrite A2, Pa, Ps, Pm. rewrite !(sum_from_shift (lit 0.0)), S1.
    cbn [lit QFloat]. lra.
  - rewrite A1, Ta, Ts, Tm, S2. lia.
  - exact A1.
  - rewrite A3, L1. unfold pnls. apply length_map.
  - rewrite A3, A2. exact L2.
  - exact Hh.
Qed.

Lemma dashboard_totals_add_up_witness :
  let st' := scans [btc_only; btc_only] Crypto5m.init_state in
  Crypto5m.total_pnl st'
  == Crypto5m.pnl (Crypto5m.stats_arb st') + Crypto5m.pnl (Crypto5m.stats_snipe st')
     + Crypto5m.pnl (Crypto5m.stats_mispriced st') /\
  (Crypto5m.total_trades st'
   = Crypto5m.trades (Crypto5m.stats_arb st') + Crypto5m.trades (Crypto5m.stats_snipe st')
     + Crypto5m.trades (Crypto5m.stats_mispriced st'))%Z /\
  Crypto5m.total_trades st' = Z.of_nat (List.length (Crypto5m.trade_history st')) /\
  List.length (Crypto5m.pnl_series st') = List.length (Crypto5m.trade_history st') /\
  last (Crypto5m.pnl_series st') 0.0 = Crypto5m.total_pnl st' /\
  (exists ts,
     Crypto5m.trade_history st'
     = Crypto5m.trade_history (Crypto5m.init_state (F := Q)) ++ ts).
Proof.
  exact (@dashboard_totals_add_up [btc_only; btc_only] Crypto5m.init_state
           books_kept_init_state).
Defined.

(* ================================================================== *)
(** * Further properties: what a refresh does to each symbol *)
(* ================================================================== *)

Section Refresh.
Context {F : Type} `{PyFloat F}.
Import Crypto5m.

Lemma symbol_eqb_refl (s : symbol) : symbol_eqb s s = true.
Proof. now destruct s. Qed.

Lemma symbol_eqb_eq (a b : symbol) : symbol_eqb a b = true -> a = b.
Proof. destruct a, b; (reflexivity || discriminate). Qed.

Lemma sym_get_set {V : Type} (s k : symbol) (v : V) (d : list (symbol * V)) :
  sym_get s (sym_set k v d) = if symbol_eqb s k then Some v else sym_get s d.
Proof.
  induction d as [|[k' v'] d IH]; cbn [sym_set sym_get].
  - destruct (symbol_eqb s k); reflexivity.
  - destruct (symbol_eqb k k') eqn:E; cbn [sym_get].
    + apply symbol_eqb_eq in E. subst k'. destruct (symbol_eqb s k); reflexivity.
    + rewrite IH. destruct (symbol_eqb s k') eqn:E'; [|reflexivity].
      apply symbol_eqb_eq in E'. subst k'.
      destruct (symbol_eqb s k) eqn:E''; [|reflexivity].
      apply symbol_eqb_eq in E''. subst k. rewrite symbol_eqb_refl in E. discriminate E.
Qed.

(** A loop over distinct keys that sets, for each key, an entry computed
    from the entry the key has: every key of the loop ends with the entry
    computed for it, or with the one it had. *)
Lemma loop_per_key {V : Type} (g : symbol -> option V -> option V)
    (l : list symbol) (d : list (symbol * V)) (s : symbol) :
  NoDup l ->
  sym_get s
    (fold_left (fun d k => match g k (sym_get k d) with
                           | Some v => sym_set k v d
                           | None => d
                           end) l d)
  = if existsb (symbol_eqb s) l
    then match g s (sym_get s d) with Some v => Some v | None => sym_get s d end
    else sym_get s d.
Proof.
  intros Hnd. revert d. induction Hnd as [|k l Hk Hnd IH]; intros d; [reflexivity|].
  cbn [fold_left existsb]. rewrite IH.
  destruct (symbol_eqb s k) eqn:E; cbn [orb].
  - apply symbol_eqb_eq in E. subst k.
    assert (existsb (symbol_eqb s) l = false) as ->.
    { destruct (existsb (symbol_eqb s) l) eqn:Ex; [|reflexivity].
      apply existsb_exists in Ex. destruct Ex as (x & Hx & Ex).
      apply symbol_eqb_eq in Ex. subst x. contradiction. }
    destruct (g s (sym_get s d)); [|reflexivity].
    now rewrite sym_get_set, symbol_eqb_refl.
  - assert (Es : sym_get s (match g k (sym_get k d) with
                            | Some v => sym_set k v d
                            | None => d
                            end) = sym_get s d).
    { destruct (g k (sym_get k d)); [|reflexivity].
      now rewrite sym_get_set, E. }
    rewrite Es. reflexivity.
Qed.

Lemma fold_left_same {A B : Type} (f g : A -> B -> A) (l : list B) (a : A) :
  (forall a b, f a b = g a b) -> fold_left f l a = fold_left g l a.
Proof.
  intros E. revert a. induction l as [|b l IH]; intros a; [reflexivity|].
  cbn. now rewrite E, IH.
Qed.

Lemma every_symbol_is_scanned (s : symbol) :
  NoDup CRYPTO_MARKETS /\ existsb (symbol_eqb s) CRYPTO_MARKETS = true.
Proof.
  split; [|now destruct s].
  unfold CRYPTO_MARKETS.
  repeat constructor; cbn; intuition discriminate.
Qed.

Ltac per_key L :=
  match type of L with
  | sym_get ?sym (fold_left ?f _ _) = _ =>
      match goal with
      | |- sym_get sym (fold_left ?f' _ _) = _ =>
          let Ef := fresh "Ef" in
          assert (Ef : forall d k, f' d k = f d k);
          [ | rewrite (fold_left_same _ _ _ _ Ef), L ]
      end
  end.

(** [refresh_market_data] never drops a cached market: a market that is
    fetched replaces the cached one, a failed fetch marks the cached one
    closed and keeps it; then every symbol that has metadata gets the books
    fetched for its tokens, and a symbol without metadata keeps the books it
    had. *)
Theorem full_refresh_keeps_what_it_cannot_fetch
    (w : world (F := F)) (period_start : Z) (st : session (F := F)) (sym : symbol) :
  let full := refresh_market_data w period_start st in
  sym_get sym (market_data full)
  = match fetch_5m_market w (prefix sym) period_start with
    | Some md => Some md
    | None => option_map (fun old => set_closed old true) (sym_get sym (market_data st))
    end /\
  sym_get sym (orderbooks full)
  = match sym_get sym (market_data full) with
    | Some md => Some (books_of w md)
    | None => sym_get sym (orderbooks st)
    end /\
  (sym_get sym (market_data st) <> None -> sym_get sym (market_data full) <> None).
Proof.
  intros full.
  destruct (every_symbol_is_scanned sym) as [Hnd Hin].
  assert (Em : sym_get sym (market_data full)
               = match fetch_5m_market w (prefix sym) period_start with
                 | Some md => Some md
                 | None => option_map (fun old => set_closed old true)
                             (sym_get sym (market_data st))
                 end).
  { unfold full, refresh_market_data. cbn [market_data with_caches].
    unfold refresh_metadata.
    pose proof (@loop_per_key _
                  (fun k cur => match fetch_5m_market w (prefix k) period_start with
                                | Some md => Some md
                                | None => option_map (fun old => set_closed old true) cur
                                end)
                  CRYPTO_MARKETS (market_data st) sym Hnd) as L.
    rewrite Hin in L. cbn beta in L. per_key L.
    { intros d k. destruct (fetch_5m_market w (prefix k) period_start); [reflexivity|].
      destruct (sym_get k d); reflexivity. }
    destruct (fetch_5m_market w (prefix sym) period_start); [reflexivity|].
    destruct (sym_get sym (market_data st)); reflexivity. }
  split; [exact Em|]. split.
  - unfold full, refresh_market_data. cbn [market_data orderbooks with_caches].
    unfold refresh_books. cbn [andb].
    set (mdata := refresh_metadata w period_start (market_data st)).
    pose proof (@loop_per_key _
                  (fun k _ => option_map (books_of w) (sym_get k mdata))
                  CRYPTO_MARKETS (orderbooks st) sym Hnd) as L.
    rewrite Hin in L. cbn beta in L. per_key L.
    { intros d k. destruct (sym_get k mdata); reflexivity. }
    destruct (sym_get sym mdata); reflexivity.
  - rewrite Em. intros Hc.
    destruct (fetch_5m_market w (prefix sym) period_start); [discriminate|].
    destruct (sym_get sym (market_data st)); [discriminate | contradiction].
Qed.

(** [refresh_orderbooks_only] leaves the metadata as it is, fetches the books
    of the markets that are not closed, and leaves the books of a closed or
    unknown market as they were.  So within a period, once the metadata cache
    holds something, a scan leaves a closed market with the books it had:
    they are not refetched, and they are not dropped either. *)
Theorem fast_refresh_skips_closed_markets
    (w : world (F := F)) (st : session (F := F)) (sym : symbol) :
  let fast := refresh_orderbooks_only w st in
  market_data fast = market_data st /\
  sym_get sym (orderbooks fast)
  = match sym_get sym (market_data st) with
    | Some md => if md_closed md then sym_get sym (orderbooks st)
                 else Some (books_of w md)
    | None => sym_get sym (orderbooks st)
    end /\
  (forall md,
     get_period_start (clock w 0) = current_period_start st ->
     sym_get sym (market_data st) = Some md -> md_closed md = true ->
     sym_get sym (orderbooks (snd (run_scan w st))) = sym_get sym (orderbooks st)).
Proof.
  intros fast.
  destruct (every_symbol_is_scanned sym) as [Hnd Hin].
  assert (Eb : sym_get sym (orderbooks fast)
               = match sym_get sym (market_data st) with
                 | Some md => if md_closed md then sym_get sym (orderbooks st)
                              else Some (books_of w md)
                 | None => sym_get sym (orderbooks st)
                 end).
  { unfold fast, refresh_orderbooks_only. cbn [orderbooks with_caches].
    unfold refresh_books. cbn [andb].
    pose proof (@loop_per_key _
                  (fun k _ => match sym_get k (market_data st) with
                              | Some md => if md_closed md then None
                                           else Some (books_of w md)
                              | None => None
                              end)
                  CRYPTO_MARKETS (orderbooks st) sym Hnd) as L.
    rewrite Hin in L. cbn beta in L. per_key L.
    { intros d k. destruct (sym_get k (market_data st)) as [md|]; [|reflexivity].
      destruct (md_closed md); reflexivity. }
    destruct (sym_get sym (market_data st)) as [md|]; [|reflexivity].
    destruct (md_closed md); reflexivity. }
  split; [reflexivity|]. split; [exact Eb|].
  intros md Hp Hmd Hcl.
  destruct (run_scan_after_rotation w st) as (_ & Ho & _ & _).
  rewrite Ho. unfold rotate_period.
  assert (E : (get_period_start (clock w 0) =? current_period_start st)%Z = true)
    by now apply Z.eqb_eq.
  rewrite E. cbn [negb].
  destruct (market_data st) as [|kv rest] eqn:Emd; [discriminate Hmd|].
  rewrite <- Emd in *. fold fast. rewrite Eb, Hmd, Hcl. reflexivity.
Qed.

End Refresh.

(** A session in the running period whose BTC market has been marked closed
    and still holds the books of the arbitrage scenario. *)
Definition closed_btc : Crypto5m.session (F := Q) :=
  session_in 1700000100
    [(Crypto5m.BTC, Crypto5m.set_closed btc_market true)]
    [(Crypto5m.BTC, {| Crypto5m.ob_yes := yes_book_048; Crypto5m.ob_no := no_book_049 |})].

(** An endpoint that no longer answers for any token. *)
Definition silent_clob : Crypto5m.world (F := Q) :=
  {| Crypto5m.clock := Crypto5m.clock btc_only;
     Crypto5m.gamma := Crypto5m.gamma btc_only;
     Crypto5m.clob := fun _ => PNone;
     Crypto5m.random := Crypto5m.random btc_only |}.

(** The closed market keeps its books through the scan, and the scan still
    reports and trades the arbitrage it sees in them. *)
Lemma fast_refresh_skips_closed_markets_witness :
  Crypto5m.sym_get Crypto5m.BTC
    (Crypto5m.orderbooks (snd (Crypto5m.run_scan silent_clob closed_btc)))
  = Crypto5m.sym_get Crypto5m.BTC (Crypto5m.orderbooks closed_btc) /\
  Crypto5m.total_opps (snd (Crypto5m.run_scan silent_clob closed_btc)) = 1%Z /\
  Crypto5m.total_trades (snd (Crypto5m.run_scan silent_clob closed_btc)) = 1%Z.
Proof.
  split.
  - refine (proj2 (proj2 (@fast_refresh_skips_closed_markets Q _ silent_clob closed_btc
                            Crypto5m.BTC)) _ _ _ _); reflexivity.
  - split; vm_compute; reflexivity.
Defined.

(* ================================================================== *)
(** * Further properties: polymarketGPT, prices and the pinned market *)
(* ================================================================== *)

(** One side of [get_effective_prices]. *)
Lemma effective_side (ask bid : Q) :
  let spread := if negb (Qle_bool bid 0) then ask - bid else 0 in
  let buy := pymin (ask + spread * 0.1) 0.99 in
  let sell := pymax (if negb (Qle_bool bid 0) then bid - spread * 0.1 else 0) 0.01 in
  (buy <= 0.99 /\ 0.01 <= sell) /\
  (bid <= 0 -> (ask <= 0.99 -> buy == ask) /\ sell = 0.01) /\
  (0 < bid -> bid <= ask -> (ask <= 0.99 -> ask <= buy) /\ sell <= pymax bid 0.01) /\
  (0 < bid -> ask < bid -> buy < ask /\ bid < sell).
Proof.
  cbv zeta.
  destruct (negb (Qle_bool bid 0)) eqn:Eb; qprops.
  - destruct (pymin_Q (ask + (ask - bid) * 0.1) 0.99) as (A1 & A2 & A3).
    destruct (pymax_Q (bid - (ask - bid) * 0.1) 0.01) as (B1 & B2 & B3).
    destruct (pymax_Q bid 0.01) as (C1 & C2 & _).
    split; [split; [exact A2 | exact B2]|].
    split; [intros Hb; lra|].
    split.
    + intros _ Hba. split.
      * intros Ha. destruct A3 as [E | E]; rewrite E; lra.
      * destruct B3 as [E | E]; rewrite E; lra.
    + intros _ Hab. split.
      * apply Qle_lt_trans with (ask + (ask - bid) * 0.1); [exact A1 | lra].
      * apply Qlt_le_trans with (bid - (ask - bid) * 0.1); [lra | exact B1].
  - destruct (pymin_Q (ask + 0 * 0.1) 0.99) as (A1 & A2 & A3).
    split; [split; [exact A2 | unfold pymax; cbn; discriminate]|].
    split; [|split; intros Hb; lra].
    intros _. split; [|reflexivity].
    intros Ha. destruct A3 as [E | E]; rewrite E in *; lra.
Qed.

(** [get_effective_prices]: the buying prices never exceed 0.99 and the
    selling prices never fall below 0.01.  Without a bid no spread is
    charged: the ask is bought at, and 0.01 sold at.  With a bid at most the
    ask, an ask within the cap is never bought below, and the selling price
    is at most the bid (or the floor).  On a crossed book, the bid above the
    ask, the buying price is below the ask itself and the selling price above
    the bid. *)
Theorem effective_prices_stay_clamped (yes_ask yes_bid no_ask no_bid : Q) :
  let e := PolymarketGPT.get_effective_prices yes_ask yes_bid no_ask no_bid in
  (PolymarketGPT.effective_buy_yes e <= 0.99 /\ PolymarketGPT.effective_buy_no e <= 0.99 /\
   0.01 <= PolymarketGPT.effective_sell_yes e /\ 0.01 <= PolymarketGPT.effective_sell_no e) /\
  (yes_bid <= 0 ->
   (yes_ask <= 0.99 -> PolymarketGPT.effective_buy_yes e == yes_ask) /\
   PolymarketGPT.effective_sell_yes e = 0.01) /\
  (no_bid <= 0 ->
   (no_ask <= 0.99 -> PolymarketGPT.effective_buy_no e == no_ask) /\
   PolymarketGPT.effective_sell_no e = 0.01) /\
  (0 < yes_bid -> yes_bid <= yes_ask ->
   (yes_ask <= 0.99 -> yes_ask <= PolymarketGPT.effective_buy_yes e) /\
   PolymarketGPT.effective_sell_yes e <= pymax yes_bid 0.01) /\
  (0 < no_bid -> no_bid <= no_ask ->
   (no_ask <= 0.99 -> no_ask <= PolymarketGPT.effective_buy_no e) /\
   PolymarketGPT.effective_sell_no e <= pymax no_bid 0.01) /\
  (0 < yes_bid -> yes_ask < yes_bid ->
   PolymarketGPT.effective_buy_yes e < yes_ask /\
   yes_bid < PolymarketGPT.effective_sell_yes e) /\
  (0 < no_bid -> no_ask < no_bid ->
   PolymarketGPT.effective_buy_no e < no_ask /\
   no_bid < PolymarketGPT.effective_sell_no e).
Proof.
  intros e.
  destruct (effective_side yes_ask yes_bid) as ((Y1 & Y2) & Y3 & Y4 & Y5).
  destruct (effective_side no_ask no_bid) as ((N1 & N2) & N3 & N4 & N5).
  unfold e, PolymarketGPT.get_effective_prices.
  cbn [PolymarketGPT.effective_buy_yes PolymarketGPT.effective_buy_no
         PolymarketGPT.effective_sell_yes PolymarketGPT.effective_sell_no].
  cbn [lit fadd fsub fmul fltb QFloat].
  split; [repeat split; assumption|].
  split; [exact Y3|]. split; [exact N3|]. split; [exact Y4|]. split; [exact N4|].
  split; [exact Y5 | exact N5].
Qed.

(** A crossed book: an ask at 0.40 under a bid at 0.50 is "bought" at 0.39
    and "sold" at 0.51. *)
Example crossed_book_is_bought_below_the_ask :
  PolymarketGPT.effective_buy_yes (PolymarketGPT.get_effective_prices 0.40 0.50 0.55 0) == 0.39 /\
  PolymarketGPT.effective_sell_yes (PolymarketGPT.get_effective_prices 0.40 0.50 0.55 0) == 0.51.
Proof. split; vm_compute; reflexivity. Qed.

Section Pinned.
Context {F : Type} `{PyFloat F}.
Import PolymarketGPT.

Definition cids (markets : list (market (F := F))) : list string :=
  map condition_id markets.

Lemma cids_filter_out (cid : string) (markets : list market) :
  ~ In cid (cids (filter (fun m => negb (String.eqb (condition_id m) cid)) markets)) /\
  (NoDup (cids markets) ->
   NoDup (cids (filter (fun m => negb (String.eqb (condition_id m) cid)) markets))) /\
  (~ In cid (cids markets) ->
   filter (fun m => negb (String.eqb (condition_id m) cid)) markets = markets).
Proof.
  induction markets as [|m ms (IH1 & IH2 & IH3)]; cbn [filter cids map].
  - split; [intros []|]. split; [auto | reflexivity].
  - destruct (String.eqb_spec (condition_id m) cid) as [E | E]; cbn [negb cids map].
    + split; [exact IH1|]. split.
      * intros Hnd. apply IH2. now inversion Hnd.
      * intros Hn. exfalso. apply Hn. now left.
    + split; [|split].
      * intros [E' | Hin]; [now apply E | now apply IH1].
      * intros Hnd. inversion Hnd as [|x l Hx Hl]; subst. constructor; [|now apply IH2].
        intros Hin. apply Hx. unfold cids in *. apply in_map_iff in Hin.
        destruct Hin as (m' & Em & Hm'). apply filter_In in Hm'.
        apply in_map_iff. exists m'. split; [exact Em | apply Hm'].
      * intros Hn. rewrite IH3; [reflexivity|]. intros Hin. apply Hn. now right.
Qed.

(** [ensure_pinned_market]: when the pinned market cannot be resolved the
    universe is left as it is.  Otherwise the pinned market comes first; with
    a condition id that is not empty, no other market of the result carries
    it, the markets that do not carry it are kept in their order, and a
    universe of distinct ids stays one; with an empty condition id nothing is
    removed. *)
Theorem pinned_market_comes_first_and_once
    (markets : list (market (F := F))) (pinned : market (F := F)) :
  ensure_pinned_market markets None = markets /\
  (exists rest,
     ensure_pinned_market markets (Some pinned) = pinned :: rest /\
     (condition_id pinned <> EmptyString ->
      ~ In (condition_id pinned) (cids rest) /\
      rest = filter (fun m => negb (String.eqb (condition_id m) (condition_id pinned)))
               markets /\
      (NoDup (cids markets) ->
       NoDup (cids (ensure_pinned_market markets (Some pinned)))) /\
      (~ In (condition_id pinned) (cids markets) -> rest = markets)) /\
     (condition_id pinned = EmptyString -> rest = markets)).
Proof.
  split; [reflexivity|].
  unfold ensure_pinned_market.
  destruct (String.eqb_spec (condition_id pinned) EmptyString) as [E | E]; cbn [negb].
  - exists markets. split; [reflexivity|]. split; [intros N; contradiction | reflexivity].
  - destruct (cids_filter_out (condition_id pinned) markets) as (A1 & A2 & A3).
    eexists. split; [reflexivity|]. split; [|intros N; contradiction].
    intros _. split; [exact A1|]. split; [reflexivity|]. split; [|exact A3].
    intros Hnd. cbn [cids map]. constructor; [exact A1 | exact (A2 Hnd)].
Qed.

End Pinned.

(** A universe in which the pinned market is already listed, in second
    place. *)
Definition listed_twice : list (PolymarketGPT.market (F := Q)) :=
  [ {| PolymarketGPT.condition_id := "0xaaa"; PolymarketGPT.question := "A?";
       PolymarketGPT.yes_token := "a-yes"; PolymarketGPT.no_token := "a-no";
       PolymarketGPT.volume := 250000 |};
    {| PolymarketGPT.condition_id := "0xbbb"; PolymarketGPT.question := "B?";
       PolymarketGPT.yes_token := "b-yes"; PolymarketGPT.no_token := "b-no";
       PolymarketGPT.volume := 120000 |} ].

Definition pinned_b : PolymarketGPT.market (F := Q) :=
  {| PolymarketGPT.condition_id := "0xbbb"; PolymarketGPT.question := "B, pinned?";
     PolymarketGPT.yes_token := "b-yes"; PolymarketGPT.no_token := "b-no";
     PolymarketGPT.volume := 120500 |}.

Lemma pinned_market_comes_first_and_once_witness :
  map PolymarketGPT.question
    (PolymarketGPT.ensure_pinned_market listed_twice (Some pinned_b))
  = ["B, pinned?"%string; "A?"%string] /\
  NoDup (cids (PolymarketGPT.ensure_pinned_market listed_twice (Some pinned_b))).
Proof.
  split; [reflexivity|].
  destruct (pinned_market_comes_first_and_once listed_twice pinned_b)
    as (_ & rest & _ & Hc & _).
  destruct Hc as (_ & _ & Hnd & _); [discriminate|].
  apply Hnd. repeat constructor; cbn; intuition discriminate.
Defined.
